(** * Backpack / Lighter cross-venue arbitrage bot: a shallow embedding

    The development follows the Python sources module by module:

    - [Py]               : the few Python notions the code relies on
                           (truthiness, [str.lower], exceptions as values);
    - [Base]             : [exchanges/base.py]  ([OrderResult], [query_retry]);
    - [Backpack]         : [exchanges/backpack.py];
    - [Lighter]          : [exchanges/lighter.py];
    - [OrderBookManager] : [strategy/order_book_manager.py];
    - [PositionTracker]  : [strategy/position_tracker.py];
    - [Arb]              : [strategy/backpack_lighter_arb.py].

    Numbers.  [decimal.Decimal] values are modelled by the rationals [Q] and
    Decimal arithmetic by exact rational arithmetic: Python's default context
    keeps 28 significant digits, so the two agree as long as prices and
    positions stay within that precision.  A quotient of two Decimals is
    rounded to that precision as a rule, so the division of a quote amount
    by a quantity is not computed here but taken as given (see [Backpack]);
    halving, the only other division, is exact.  Python's [==] on Decimals
    is numeric equality, which is [Qeq] here (written [==]), decided by
    [Qeq_bool].  Python [int]s are [Z].  The [float] prices and sizes of the
    Lighter order book are modelled by their exact rational values; the only
    inexact float operation the code performs on them, the product
    [size * price], is left abstract (see [Lighter]). *)

From Stdlib Require Import ZArith QArith Qabs Qminmax Bool List String Ascii Lia.
From Stdlib Require Import DecimalString Lqa.
Import ListNotations.

Open Scope Q_scope.

(* ================================================================== *)
(** ** Python notions *)
(* ================================================================== *)

Module Py.

(** An exception value: its class name and [str(e)]. *)
Record exn : Set := mkExn { exn_class : string; exn_text : string }.

(** The result of evaluating a Python expression or call: a value, or an
    exception (a subclass of [Exception]) that propagates. *)
Inductive outcome (A : Type) : Type :=
| Return (a : A)
| Raise (e : exn).

Arguments Return {A} a.
Arguments Raise {A} e.

Definition bind {A B : Type} (m : outcome A) (k : A -> outcome B) : outcome B :=
  match m with
  | Return a => k a
  | Raise e => Raise e
  end.

(** [try: body  except Exception as e: handler(e)] *)
Definition try_except {A : Type} (body : outcome A) (handler : exn -> outcome A)
  : outcome A :=
  match body with
  | Return a => Return a
  | Raise e => handler e
  end.

(** [decimal.Decimal]. *)
Definition Decimal : Set := Q.

(** Truthiness of an [Optional[Decimal]]: [None] and zero are falsy. *)
Definition truthy (x : option Decimal) : bool :=
  match x with
  | Some d => negb (Qeq_bool d 0)
  | None => false
  end.

(** [int(x)] for a Decimal [x]: truncation towards zero. *)
Definition int_of_Decimal (x : Decimal) : Z := Z.quot (Qnum x) (Z.pos (Qden x)).

(** [str.lower], on the ASCII letters; the other characters are left as they
    are.  The code compares the result with ['buy'] and ['sell'] only, and no
    character outside ASCII lower-cases to one of their letters.  [str.upper],
    which does map characters outside ASCII to ASCII letters, is not defined
    here: the code that calls it takes it as given (see [Backpack]). *)
Definition lower_ascii (c : ascii) : ascii :=
  let n := nat_of_ascii c in
  if (Nat.leb 65 n && Nat.leb n 90)%bool then ascii_of_nat (n + 32) else c.

Fixpoint lower (s : string) : string :=
  match s with
  | EmptyString => EmptyString
  | String c s' => String (lower_ascii c) (lower s')
  end.

(** A text field that the code passes to [Decimal(...)]: the constructor
    either raises [decimal.InvalidOperation] or yields the number.  The
    texts that denote an infinity or a NaN are not represented here (for the
    command line, where they matter, see [Cli]). *)
Inductive decimal_text : Set :=
| Malformed
| Parsed (d : Decimal).

Definition to_Decimal (t : decimal_text) : outcome Decimal :=
  match t with
  | Malformed => Raise (mkExn "InvalidOperation" "[<class 'decimal.ConversionSyntax'>]")
  | Parsed d => Return d
  end.

End Py.

Import Py.

Declare Scope py_scope.
Notation "x <- m ;; k" := (Py.bind m (fun x => k))
  (at level 61, m at next level, right associativity) : py_scope.
Open Scope py_scope.
Open Scope string_scope.

(* ================================================================== *)
(** ** exchanges/base.py *)
(* ================================================================== *)

Module Base.

(** [@dataclass class OrderResult]; every field but [success] defaults to
    [None]. *)
Record OrderResult : Set := mkOrderResult {
  success : bool;
  order_id : option string;
  side : option string;
  size : option Decimal;
  price : option Decimal;
  status : option string;
  error_message : option string;
  filled_size : option Decimal;
  avg_price : option Decimal
}.

(** [OrderResult(success=False, order_id=oid, error_message=msg)] *)
Definition failed_order (oid : option string) (msg : string) : OrderResult :=
  {| success := false; order_id := oid; side := None; size := None;
     price := None; status := None; error_message := Some msg;
     filled_size := None; avg_price := None |}.

Section Retry.

Context {A : Type}.

(** What one run of a retried operation did: the outcome handed to the
    caller, how many times the wrapped function was invoked, and the sleeps
    between the attempts (seconds, oldest first). *)
Record retry_run : Type := mkRun {
  outcome_of : outcome A;
  invocations : nat;
  sleeps : list Q
}.

(** [wait_exponential(multiplier=1, min=min_wait, max=max_wait)] before the
    attempt that follows attempt number [attempt_number] (counted from 1):
    [max(max(0, min), min(multiplier * 2 ** (attempt_number - 1), max))]. *)
Definition wait_exponential (min_wait max_wait : Q) (attempt_number : nat) : Q :=
  Qmax (Qmax 0 min_wait)
       (Qmin (1 * inject_Z (2 ^ Z.of_nat (attempt_number - 1))) max_wait).

(** Modelled from the spec: the retry controller of the [tenacity] package
    ([tenacity.retry]), which [query_retry] only configures and whose code is
    not part of the repository.  Spec 4.2: attempt the operation up to
    [maxAttempts] times; between attempts sleep for an exponentially
    increasing delay bounded by [minBackoff, maxBackoff]; only exceptions
    matching [retryableErrorKinds] are retried, all others propagate
    immediately; on exhausting all attempts return the caller-supplied
    default (the [retry_error_callback], when there is one) or re-raise the
    last error.

    [op n] is the outcome of the [n]-th invocation of the wrapped function
    (counted from 1); [remaining] is [max_attempts - attempt_number], so that
    [stop_after_attempt(max_attempts)] holds exactly when it is [0]. *)
Fixpoint retrying (retry_if : exn -> bool) (min_wait max_wait : Q)
    (retry_error_callback : option (exn -> A))
    (op : nat -> outcome A) (attempt_number remaining : nat) : retry_run :=
  match op attempt_number with
  | Return v => mkRun (Return v) 1 []
  | Raise e =>
      if retry_if e then
        match remaining with
        | O =>
            match retry_error_callback with
            | Some callback => mkRun (Return (callback e)) 1 []
            | None => mkRun (Raise e) 1 []
            end
        | S remaining' =>
            let rest := retrying retry_if min_wait max_wait retry_error_callback
                          op (S attempt_number) remaining' in
            mkRun (outcome_of rest) (S (invocations rest))
                  (wait_exponential min_wait max_wait attempt_number :: sleeps rest)
        end
      else mkRun (Raise e) 1 []
  end.

(** [query_retry(default_return, exception_type, max_attempts, min_wait,
    max_wait, reraise)] applied to a function whose successive invocations
    behave as [op].  [retry_error_callback] returns [default_return]; as the
    callback is always set, [reraise] has no effect on the result. *)
Definition query_retry (default_return : A) (exception_type : exn -> bool)
    (max_attempts : nat) (min_wait max_wait : Q) (reraise : bool)
    (op : nat -> outcome A) : retry_run :=
  let retry_error_callback := fun _ : exn => default_return in
  retrying exception_type min_wait max_wait (Some retry_error_callback)
           op 1 (max_attempts - 1).

End Retry.

Arguments retry_run A : clear implicits.

(** The defaults of [query_retry]'s keyword arguments. *)
Definition any_Exception (e : exn) : bool := true.
Definition default_max_attempts : nat := 5.
Definition default_min_wait : Q := 1.
Definition default_max_wait : Q := 10.

(** [@query_retry(default_return=d)] *)
Definition query_retry_default {A : Type} (d : A) (op : nat -> outcome A)
  : retry_run A :=
  query_retry d any_Exception default_max_attempts default_min_wait
              default_max_wait false op.

End Base.

Import Base.

(* ================================================================== *)
(** ** The reconnect delay shared by both WebSocket managers *)
(* ================================================================== *)

(** Both [connect] loops keep a local [reconnect_delay], started at [1] and
    replaced after each sleep by [min(reconnect_delay * 2, max_reconnect_delay)]
    with [max_reconnect_delay = 30].  [backoffs d k] lists the [k] successive
    values the delay takes from [d] on. *)
Definition max_reconnect_delay : Z := 30.

Definition next_delay (reconnect_delay : Z) : Z :=
  Z.min (reconnect_delay * 2) max_reconnect_delay.

Fixpoint backoffs (d : Z) (k : nat) : list Z :=
  match k with
  | O => []
  | S k' => d :: backoffs (next_delay d) k'
  end.

(** How one pass through the body of a [while True:] reconnect loop goes.
    A failure either happens in [websockets.connect] itself, before
    [self.running = True], or in a subscription sent after it, before the
    delay is reset. *)
Inductive failure : Set :=
| ConnectRaises
| SubscribeRaises.

(** Otherwise the connection is established and subscribed, the delay is
    reset and the manager listens until the connection drops;
    [disconnected] tells whether [disconnect()] cleared [self.running] while
    it was listening. *)
Inductive attempt : Set :=
| Fail (f : failure)
| Session (disconnected : bool).

(* ================================================================== *)
(** ** exchanges/backpack.py *)
(* ================================================================== *)

Module Backpack.

(** *** BackpackWebSocketManager *)

(** The quote fields of the manager, which the client and the strategy
    read. *)
Record WebSocketManager : Set := mkWS {
  best_bid : option Decimal;
  best_ask : option Decimal;
  order_book_ready : bool
}.

(** One pass through the body of [while True:] in [connect], followed on the
    two variables that decide its sleeps: the field [self.running] and the
    local [reconnect_delay].  It returns both and the sleeps performed. *)
Definition connect_iteration (running : bool) (reconnect_delay : Z)
    (a : attempt) : bool * Z * list Z :=
  let '(running1, delay1) :=
    match a with
    | Fail ConnectRaises => (running, reconnect_delay)
    | Fail SubscribeRaises => (true, reconnect_delay)
    | Session disconnected => (negb disconnected, 1%Z)
    end in
  if running1
  then (running1, next_delay delay1, [delay1])
  else (running1, delay1, []).

(** The loop of [connect] over a finite prefix of its passes, from given
    values of the two variables. *)
Fixpoint connect_from (running : bool) (reconnect_delay : Z)
    (passes : list attempt) : bool * Z * list Z :=
  match passes with
  | [] => (running, reconnect_delay, [])
  | a :: rest =>
      let '(running1, delay1, slept) :=
        connect_iteration running reconnect_delay a in
      let '(running2, delay2, slept') := connect_from running1 delay1 rest in
      (running2, delay2, (slept ++ slept')%list)
  end.

(** [connect] on a manager as [__init__] leaves it ([self.running = False]):
    the delay starts at [1]. *)
Definition connect (passes : list attempt) : bool * Z * list Z :=
  connect_from false 1 passes.

(** *** BackpackClient *)

(** The answer of [account_client.execute_order]: [None] or an empty dict
    (both falsy), or a dict, of which the code reads the keys below.  A field
    is [None] when the key is absent. *)
Record order_response : Set := mkResponse {
  code : option string;
  message : option string;
  id : option string;
  status_field : option string;
  executedQuantity : option decimal_text;
  executedQuoteQuantity : option decimal_text
}.

Inductive api_result : Set :=
| Falsy
| Dict (r : order_response).

Definition get {A : Type} (field : option A) (default : A) : A :=
  match field with
  | Some v => v
  | None => default
  end.

Section Builtins.

(** Two operations of Python are taken as given: [str.upper], which is
    Unicode-aware, and the division of two Decimals, which rounds the
    quotient to the 28 significant digits of the context. *)
Variable str_upper : string -> string.
Variable decimal_div : Decimal -> Decimal -> Decimal.

(** The body of the [try:] of [place_market_order].  [execute_order side
    quantity] is the venue's answer to the request. *)
Definition place_market_order_body
    (execute_order : string -> Decimal -> outcome api_result)
    (quantity : Decimal) (side : string) : outcome OrderResult :=
  let submit (order_side : string) : outcome OrderResult :=
    result <- execute_order order_side quantity ;;
    match result with
    | Falsy => Return (failed_order None "No response from API")
    | Dict r =>
        match code r with
        | Some _ => Return (failed_order None (get (message r) "Unknown error"))
        | None =>
            let order_id := id r in
            let order_status := str_upper (get (status_field r) "") in
            if order_status =? "FILLED" then
              executed_qty <- to_Decimal (get (executedQuantity r) (Parsed 0)) ;;
              executed_quote <- to_Decimal (get (executedQuoteQuantity r) (Parsed 0)) ;;
              let avg_price :=
                if negb (Qle_bool executed_qty 0)
                then decimal_div executed_quote executed_qty else 0 in
              Return {| success := true; order_id := order_id;
                        side := Some (lower side); size := Some quantity;
                        price := Some avg_price; status := Some "FILLED";
                        error_message := None;
                        filled_size := Some executed_qty;
                        avg_price := Some avg_price |}
            else
              Return (failed_order order_id
                        ("Order not filled, status: " ++ order_status))
        end
    end in
  if lower side =? "buy" then submit "Bid"
  else if lower side =? "sell" then submit "Ask"
  else Return (failed_order None ("Invalid side: " ++ side)).

(** [place_market_order]: the body under [except Exception as e: return
    OrderResult(success=False, error_message=str(e))]. *)
Definition place_market_order
    (execute_order : string -> Decimal -> outcome api_result)
    (quantity : Decimal) (side : string) : outcome OrderResult :=
  try_except (place_market_order_body execute_order quantity side)
             (fun e => Return (failed_order None (exn_text e))).

End Builtins.

(** [sorted(levels, key=lambda x: Decimal(x[0]), reverse=...)[0]]: the first
    level that no other one beats. *)
Fixpoint first_best (better : Decimal -> Decimal -> bool) (l : list Decimal)
  : option Decimal :=
  match l with
  | [] => None
  | x :: rest =>
      match first_best better rest with
      | Some y => if better y x then Some y else Some x
      | None => Some x
      end
  end.

Fixpoint parse_prices (l : list decimal_text) : outcome (list Decimal) :=
  match l with
  | [] => Return []
  | t :: rest =>
      d <- to_Decimal t ;;
      ds <- parse_prices rest ;;
      Return (d :: ds)
  end.

(** The function under [@query_retry] in [fetch_bbo_prices]: the WebSocket
    quote when there is one, else the REST depth ([get_depth] gives the bid
    and the ask prices, as texts). *)
Definition fetch_bbo_prices_body (ws_manager : option WebSocketManager)
    (get_depth : outcome (list decimal_text * list decimal_text))
  : outcome (Decimal * Decimal) :=
  let rest_api :=
    order_book <- get_depth ;;
    bids <- parse_prices (fst order_book) ;;
    asks <- parse_prices (snd order_book) ;;
    Return (get (first_best (fun y x => negb (Qle_bool y x)) bids) 0,
            get (first_best (fun y x => negb (Qle_bool x y)) asks) 0) in
  match ws_manager with
  | Some ws =>
      if (order_book_ready ws && truthy (best_bid ws) && truthy (best_ask ws))%bool
      then match best_bid ws, best_ask ws with
           | Some b, Some a => Return (b, a)
           | _, _ => rest_api
           end
      else rest_api
  | None => rest_api
  end.

(** [@query_retry(default_return=(Decimal('0'), Decimal('0')))] *)
Definition fetch_bbo_prices (ws_manager : nat -> option WebSocketManager)
    (get_depth : nat -> outcome (list decimal_text * list decimal_text))
  : retry_run (Decimal * Decimal) :=
  query_retry_default (0, 0)
    (fun n => fetch_bbo_prices_body (ws_manager n) (get_depth n)).

(** A row of [get_open_positions()]: [position.get('symbol', '')] and
    [position.get('netQuantity', '0')]. *)
Record open_position : Set := mkOpen {
  symbol : string;
  netQuantity : decimal_text
}.

Fixpoint find_position (contract_id : string) (positions_data : list open_position)
  : outcome Decimal :=
  match positions_data with
  | [] => Return 0
  | position :: rest =>
      if symbol position =? contract_id
      then to_Decimal (netQuantity position)
      else find_position contract_id rest
  end.

Definition get_position_body (contract_id : string)
    (get_open_positions : outcome (list open_position)) : outcome Decimal :=
  positions_data <- get_open_positions ;;
  find_position contract_id positions_data.

(** [@query_retry(default_return=Decimal('0'))] *)
Definition get_position (contract_id : string)
    (get_open_positions : nat -> outcome (list open_position))
  : retry_run Decimal :=
  query_retry_default 0
    (fun n => get_position_body contract_id (get_open_positions n)).

End Backpack.

(* ================================================================== *)
(** ** exchanges/lighter.py *)
(* ================================================================== *)

Module Lighter.

(** *** LighterWebSocketManager *)

(** One side of [self.order_book]: a dict from price to size, kept as the
    list of its items in insertion order. *)
Definition book_side : Set := list (Q * Q).

(** [ob.pop(price, None)] *)
Fixpoint dict_pop (price : Q) (ob : book_side) : book_side :=
  match ob with
  | [] => []
  | (p, s) :: rest =>
      if Qeq_bool p price then rest else (p, s) :: dict_pop price rest
  end.

(** [ob[price] = size] *)
Fixpoint dict_set (price size : Q) (ob : book_side) : book_side :=
  match ob with
  | [] => [(price, size)]
  | (p, s) :: rest =>
      if Qeq_bool p price then (p, size) :: rest
      else (p, s) :: dict_set price size rest
  end.

(** An entry of an update list: the two floats [float(update["price"])] and
    [float(update["size"])], or [None] when reading them raises one of the
    exceptions that the loop catches, [KeyError], [ValueError] or
    [TypeError]: the entry is then logged and the loop goes on.  Nothing
    else is caught there: an entry on which [float] raises another
    exception (an [OverflowError], for an integer beyond the range of a
    float) ends the loop and the handling of the message.  A list of this
    type holds the entries that the loop gets through; whether the loop ends
    with such an exception is told by the message (see [message]). *)
Definition update : Set := option (Q * Q).

Fixpoint _update_order_book (ob : book_side) (updates : list update) : book_side :=
  match updates with
  | [] => ob
  | None :: rest => _update_order_book ob rest
  | Some (price, size) :: rest =>
      if Qeq_bool size 0
      then _update_order_book (dict_pop price ob) rest
      else _update_order_book (dict_set price size ob) rest
  end.

Record WebSocketManager : Set := mkWS {
  bids : book_side;
  asks : book_side;
  best_bid : option Decimal;
  best_ask : option Decimal;
  order_book_ready : bool;
  snapshot_loaded : bool;
  order_book_offset : option Z
}.

(** [LighterWebSocketManager.__init__] *)
Definition init : WebSocketManager :=
  {| bids := []; asks := []; best_bid := None; best_ask := None;
     order_book_ready := false; snapshot_loaded := false;
     order_book_offset := None |}.

(** [max(levels, key=lambda x: x[0])] and [min(...)] on a list that starts
    with [best]: a later level replaces the current one only when its price
    is strictly higher (resp. lower). *)
Fixpoint max_from (best : Q * Q) (levels : list (Q * Q)) : Q * Q :=
  match levels with
  | [] => best
  | x :: rest =>
      if negb (Qle_bool (fst x) (fst best)) then max_from x rest
      else max_from best rest
  end.

Fixpoint min_from (best : Q * Q) (levels : list (Q * Q)) : Q * Q :=
  match levels with
  | [] => best
  | x :: rest =>
      if negb (Qle_bool (fst best) (fst x)) then min_from x rest
      else min_from best rest
  end.

(** A message of the stream, by its ["type"]; [order_book.get("bids", [])]
    and [order_book.get("asks", [])] for the two order-book kinds.

    [Order_book_raises] is a message of one of these two kinds ([snapshot]
    tells which) in which reading an entry raises an exception [e] that
    [_update_order_book] does not catch.  When that entry is among the bids,
    [bid_updates] are the bid entries before it and [ask_updates] is [None];
    when it is among the asks, [bid_updates] are all the bid entries and
    [ask_updates] the ask entries before it. *)
Inductive message : Set :=
| Subscribed_order_book (offset : option Z) (bid_updates ask_updates : list update)
| Update_order_book (bid_updates ask_updates : list update)
| Update_account_orders
| Ping
| Unhandled
| Order_book_raises (snapshot : bool) (offset : option Z)
    (bid_updates : list update) (ask_updates : option (list update)) (e : exn).

Section Float.

(** The float product [s * p] of a size and a price, rounding included. *)
Variable fmul : Q -> Q -> Q.

(** [s * p >= 10000] *)
Definition sufficient (level : Q * Q) : bool :=
  Qle_bool 10000 (fmul (snd level) (fst level)).

Definition _get_best_levels (ws : WebSocketManager)
  : option Decimal * option Decimal :=
  let best_bid :=
    match bids ws with
    | [] => None
    | _ :: _ =>
        match filter sufficient (bids ws) with
        | [] => None
        | x :: rest => Some (fst (max_from x rest))
        end
    end in
  let best_ask :=
    match asks ws with
    | [] => None
    | _ :: _ =>
        match filter sufficient (asks ws) with
        | [] => None
        | x :: rest => Some (fst (min_from x rest))
        end
    end in
  (best_bid, best_ask).

(** [_handle_message]; it returns the manager as the call leaves it and
    either whether a pong was sent or the exception that the call raises. *)
Definition _handle_message (ws : WebSocketManager) (data : message)
  : WebSocketManager * outcome bool :=
  match data with
  | Subscribed_order_book offset bid_updates ask_updates =>
      ({| bids := _update_order_book [] bid_updates;
          asks := _update_order_book [] ask_updates;
          best_bid := best_bid ws; best_ask := best_ask ws;
          order_book_ready := order_book_ready ws;
          snapshot_loaded := true;
          order_book_offset :=
            match offset with
            | Some o => Some o
            | None => order_book_offset ws
            end |}, Return false)
  | Update_order_book bid_updates ask_updates =>
      if snapshot_loaded ws then
        let ws1 :=
          {| bids := _update_order_book (bids ws) bid_updates;
             asks := _update_order_book (asks ws) ask_updates;
             best_bid := best_bid ws; best_ask := best_ask ws;
             order_book_ready := order_book_ready ws;
             snapshot_loaded := snapshot_loaded ws;
             order_book_offset := order_book_offset ws |} in
        let '(new_bid, new_ask) := _get_best_levels ws1 in
        let bid' := if truthy new_bid then new_bid else best_bid ws1 in
        let ask' := if truthy new_ask then new_ask else best_ask ws1 in
        ({| bids := bids ws1; asks := asks ws1;
            best_bid := bid'; best_ask := ask';
            order_book_ready :=
              if (negb (order_book_ready ws1) && truthy bid' && truthy ask')%bool
              then true else order_book_ready ws1;
            snapshot_loaded := snapshot_loaded ws1;
            order_book_offset := order_book_offset ws1 |}, Return false)
      else
        (* the later [elif]s do not match this type *)
        (ws, Return false)
  | Update_account_orders => (ws, Return false)
  | Ping => (ws, Return true)
  | Unhandled => (ws, Return false)
  | Order_book_raises true offset bid_updates ask_updates e =>
      (* both sides are cleared and the offset is read before the entries;
         [snapshot_loaded] is set after them only *)
      ({| bids := _update_order_book [] bid_updates;
          asks := match ask_updates with
                  | Some updates => _update_order_book [] updates
                  | None => []
                  end;
          best_bid := best_bid ws; best_ask := best_ask ws;
          order_book_ready := order_book_ready ws;
          snapshot_loaded := snapshot_loaded ws;
          order_book_offset :=
            match offset with
            | Some o => Some o
            | None => order_book_offset ws
            end |}, Raise e)
  | Order_book_raises false _ bid_updates ask_updates e =>
      if snapshot_loaded ws then
        (* the best levels are computed after the entries only *)
        ({| bids := _update_order_book (bids ws) bid_updates;
            asks := match ask_updates with
                    | Some updates => _update_order_book (asks ws) updates
                    | None => asks ws
                    end;
            best_bid := best_bid ws; best_ask := best_ask ws;
            order_book_ready := order_book_ready ws;
            snapshot_loaded := snapshot_loaded ws;
            order_book_offset := order_book_offset ws |}, Raise e)
      else (ws, Return false)
  end.

End Float.

(** One pass through the body of [while True:] in [connect], followed on
    [self.running] and the local [reconnect_delay] as for Backpack. *)
Definition connect_iteration (running : bool) (reconnect_delay : Z)
    (a : attempt) : bool * Z * list Z :=
  let '(running1, delay1) :=
    match a with
    | Fail ConnectRaises => (running, reconnect_delay)
    | Fail SubscribeRaises => (true, reconnect_delay)
    | Session disconnected => (negb disconnected, 1%Z)
    end in
  if running1
  then (running1, next_delay delay1, [delay1])
  else (running1, delay1, []).

Fixpoint connect_from (running : bool) (reconnect_delay : Z)
    (passes : list attempt) : bool * Z * list Z :=
  match passes with
  | [] => (running, reconnect_delay, [])
  | a :: rest =>
      let '(running1, delay1, slept) :=
        connect_iteration running reconnect_delay a in
      let '(running2, delay2, slept') := connect_from running1 delay1 rest in
      (running2, delay2, (slept ++ slept')%list)
  end.

(** [connect] on a manager as [__init__] leaves it. *)
Definition connect (passes : list attempt) : bool * Z * list Z :=
  connect_from false 1 passes.

(** *** LighterClient *)

(** The function under [@query_retry] in [fetch_bbo_prices]. *)
Definition fetch_bbo_prices_body (ws_manager : option WebSocketManager)
  : outcome (Decimal * Decimal) :=
  let not_ready := Raise (mkExn "ValueError" "WebSocket not ready") in
  match ws_manager with
  | Some ws =>
      if (order_book_ready ws && truthy (best_bid ws) && truthy (best_ask ws))%bool
      then match best_bid ws, best_ask ws with
           | Some b, Some a => Return (b, a)
           | _, _ => not_ready
           end
      else not_ready
  | None => not_ready
  end.

(** [@query_retry(default_return=(Decimal('0'), Decimal('0')))];
    [ws_manager n] is the manager as the [n]-th invocation finds it. *)
Definition fetch_bbo_prices (ws_manager : nat -> option WebSocketManager)
  : retry_run (Decimal * Decimal) :=
  query_retry_default (0, 0) (fun n => fetch_bbo_prices_body (ws_manager n)).

(** The arguments of [lighter_client.create_order] that vary. *)
Record order_request : Set := mkRequest {
  client_order_index : Z;
  base_amount : Z;
  price_arg : Z;
  is_ask : bool
}.

(** [Decimal * multiplier], where the multiplier is [None] until
    [get_contract_info] has set it. *)
Definition times (d : Decimal) (multiplier : option Z) : outcome Decimal :=
  match multiplier with
  | Some m => Return (d * inject_Z m)
  | None =>
      Raise (mkExn "TypeError"
        "unsupported operand type(s) for *: 'decimal.Decimal' and 'NoneType'")
  end.

(** The body of the [try:] of [place_market_order].  [initialize] is the
    outcome of [_initialize_lighter_client()], run when the signer client is
    still [None]; [bbo] the run of [fetch_bbo_prices()]; [now_ms] stands for
    [int(time.time() * 1000)]; [create_order request] is the error, if any,
    that the venue returns for the request. *)
Definition place_market_order_body
    (has_client : bool) (initialize : outcome unit)
    (bbo : retry_run (Decimal * Decimal))
    (base_amount_multiplier price_multiplier : option Z) (now_ms : Z)
    (create_order : order_request -> outcome (option string))
    (quantity : Decimal) (side : string) : outcome OrderResult :=
  _ <- (if has_client then Return tt else initialize) ;;
  quote <- outcome_of bbo ;;
  let '(best_bid, best_ask) := quote in
  let submit (is_ask : bool) (price : Decimal) : outcome OrderResult :=
    let client_order_index := (now_ms mod 1000000)%Z in
    amount <- times quantity base_amount_multiplier ;;
    scaled_price <- times price price_multiplier ;;
    error <- create_order {| client_order_index := client_order_index;
                             base_amount := int_of_Decimal amount;
                             price_arg := int_of_Decimal scaled_price;
                             is_ask := is_ask |} ;;
    match error with
    | Some err => Return (failed_order None ("Order creation error: " ++ err))
    | None =>
        Return {| success := true;
                  order_id := Some (DecimalString.NilZero.string_of_int
                                      (Z.to_int client_order_index));
                  side := Some (lower side); size := Some quantity;
                  price := Some price; status := Some "FILLED";
                  error_message := None;
                  filled_size := Some quantity;
                  avg_price := Some price |}
    end in
  if lower side =? "buy" then submit false (best_ask * 1.002)
  else if lower side =? "sell" then submit true (best_bid * 0.998)
  else Return (failed_order None ("Invalid side: " ++ side)).

(** [place_market_order]: the body under [except Exception as e: return
    OrderResult(success=False, error_message=str(e))]. *)
Definition place_market_order
    (has_client : bool) (initialize : outcome unit)
    (bbo : retry_run (Decimal * Decimal))
    (base_amount_multiplier price_multiplier : option Z) (now_ms : Z)
    (create_order : order_request -> outcome (option string))
    (quantity : Decimal) (side : string) : outcome OrderResult :=
  try_except
    (place_market_order_body has_client initialize bbo base_amount_multiplier
       price_multiplier now_ms create_order quantity side)
    (fun e => Return (failed_order None (exn_text e))).

(** A row of [data['accounts'][0]['positions']]: [position.get('symbol')],
    [Decimal(str(position['position']))] and [position['sign']]. *)
Record account_position : Set := mkPosition {
  symbol : option string;
  position : decimal_text;
  sign : Z
}.

Fixpoint find_position (ticker : string) (positions : list account_position)
  : outcome Decimal :=
  match positions with
  | [] => Return 0
  | p :: rest =>
      match symbol p with
      | Some s =>
          if s =? ticker
          then d <- to_Decimal (position p) ;; Return (d * inject_Z (sign p))
          else find_position ticker rest
      | None => find_position ticker rest
      end
  end.

(** The function under [@query_retry] in [get_position].  [account] is the
    outcome of the HTTP request and of [raise_for_status()]: the positions of
    each account of [data['accounts']] (no account when the key is missing
    or the list is empty). *)
Definition get_position_body (ticker : string)
    (account : outcome (list (list account_position))) : outcome Decimal :=
  accounts <- account ;;
  match accounts with
  | [] => Return 0
  | positions :: _ => find_position ticker positions
  end.

(** [@query_retry(default_return=Decimal('0'))] *)
Definition get_position (ticker : string)
    (account : nat -> outcome (list (list account_position)))
  : retry_run Decimal :=
  query_retry_default 0 (fun n => get_position_body ticker (account n)).

End Lighter.

(* ================================================================== *)
(** ** strategy/order_book_manager.py *)
(* ================================================================== *)

Module OrderBookManager.

Record t : Set := mk {
  backpack_best_bid : option Decimal;
  backpack_best_ask : option Decimal;
  backpack_ready : bool;
  lighter_best_bid : option Decimal;
  lighter_best_ask : option Decimal;
  lighter_ready : bool
}.

(** [__init__] *)
Definition init : t :=
  {| backpack_best_bid := None; backpack_best_ask := None;
     backpack_ready := false;
     lighter_best_bid := None; lighter_best_ask := None;
     lighter_ready := false |}.

Definition update_backpack_bbo (self : t) (best_bid best_ask : Decimal) : t :=
  {| backpack_best_bid := Some best_bid; backpack_best_ask := Some best_ask;
     backpack_ready := if negb (backpack_ready self) then true
                       else backpack_ready self;
     lighter_best_bid := lighter_best_bid self;
     lighter_best_ask := lighter_best_ask self;
     lighter_ready := lighter_ready self |}.

Definition update_lighter_bbo (self : t) (best_bid best_ask : Decimal) : t :=
  {| backpack_best_bid := backpack_best_bid self;
     backpack_best_ask := backpack_best_ask self;
     backpack_ready := backpack_ready self;
     lighter_best_bid := Some best_bid; lighter_best_ask := Some best_ask;
     lighter_ready := if negb (lighter_ready self) then true
                      else lighter_ready self |}.

Definition get_backpack_bbo (self : t) : option Decimal * option Decimal :=
  (backpack_best_bid self, backpack_best_ask self).

Definition get_lighter_bbo (self : t) : option Decimal * option Decimal :=
  (lighter_best_bid self, lighter_best_ask self).

Definition is_ready (self : t) : bool :=
  (backpack_ready self && lighter_ready self)%bool.

(** [get_spread]: (Lighter bid - Backpack ask, Backpack bid - Lighter ask),
    or [(None, None)]. *)
Definition get_spread (self : t) : option Decimal * option Decimal :=
  if negb (is_ready self) then (None, None)
  else if (truthy (lighter_best_bid self) && truthy (backpack_best_ask self)
           && truthy (backpack_best_bid self) && truthy (lighter_best_ask self))%bool
  then
    match lighter_best_bid self, backpack_best_ask self,
          backpack_best_bid self, lighter_best_ask self with
    | Some lt_bid, Some bp_ask, Some bp_bid, Some lt_ask =>
        let long_backpack_spread := lt_bid - bp_ask in
        let short_backpack_spread := bp_bid - lt_ask in
        (Some long_backpack_spread, Some short_backpack_spread)
    | _, _, _, _ => (None, None)
    end
  else (None, None).

End OrderBookManager.

(* ================================================================== *)
(** ** strategy/position_tracker.py *)
(* ================================================================== *)

Module PositionTracker.

(** The cached positions; the two clients and the logger are left out. *)
Record t : Set := mk {
  backpack_position : Decimal;
  lighter_position : Decimal
}.

(** [__init__] *)
Definition init : t := {| backpack_position := 0; lighter_position := 0 |}.

(** [refresh_positions]: [bp_pos] and [lt_pos] are what
    [asyncio.gather(..., return_exceptions=True)] hands back for the two
    [get_position()] calls, a raised exception being returned as a value.
    Nothing in the [try:] raises, so its [except] branch (which returns
    [False]) is not taken. *)
Definition refresh_positions (self : t) (bp_pos lt_pos : outcome Decimal)
  : t * bool :=
  let self1 :=
    match bp_pos with
    | Raise _ => self
    | Return v => {| backpack_position := v;
                     lighter_position := lighter_position self |}
    end in
  let self2 :=
    match lt_pos with
    | Raise _ => self1
    | Return v => {| backpack_position := backpack_position self1;
                     lighter_position := v |}
    end in
  (self2, true).

Definition update_backpack_position (self : t) (delta : Decimal) : t :=
  {| backpack_position := backpack_position self + delta;
     lighter_position := lighter_position self |}.

Definition update_lighter_position (self : t) (delta : Decimal) : t :=
  {| backpack_position := backpack_position self;
     lighter_position := lighter_position self + delta |}.

Definition get_backpack_position (self : t) : Decimal := backpack_position self.

Definition get_lighter_position (self : t) : Decimal := lighter_position self.

Definition get_net_position (self : t) : Decimal :=
  backpack_position self + lighter_position self.

Definition get_total_absolute_position (self : t) : Decimal :=
  Qabs (backpack_position self) + Qabs (lighter_position self).

Definition is_position_balanced (self : t) (tolerance : Decimal) : bool :=
  Qle_bool (Qabs (get_net_position self)) tolerance.

End PositionTracker.

(* ================================================================== *)
(** ** strategy/backpack_lighter_arb.py *)
(* ================================================================== *)

Module Arb.

Inductive venue : Set := Backpack_venue | Lighter_venue.

(** A call [client.place_market_order(quantity, side)]. *)
Record placed_order : Set := mkPlaced {
  placed_on : venue;
  placed_quantity : Decimal;
  placed_side : string
}.

(** The fields of [BackpackLighterArb] that the trading decisions read and
    write.  [placed] is not a field of the class: it is the journal of the
    orders sent to the two clients, latest first. *)
Record BackpackLighterArb : Set := mk {
  order_quantity : Decimal;
  long_threshold : Decimal;
  short_threshold : Decimal;
  max_position : Decimal;
  order_book_manager : OrderBookManager.t;
  position_tracker : PositionTracker.t;
  total_trades : Z;
  successful_trades : Z;
  failed_trades : Z;
  placed : list placed_order
}.

(** [__init__], with the components that [_initialize_clients] creates. *)
Definition init (order_quantity long_threshold short_threshold
                 max_position : Decimal) : BackpackLighterArb :=
  {| order_quantity := order_quantity;
     long_threshold := long_threshold;
     short_threshold := short_threshold;
     max_position := max_position;
     order_book_manager := OrderBookManager.init;
     position_tracker := PositionTracker.init;
     total_trades := 0; successful_trades := 0; failed_trades := 0;
     placed := [] |}.

Definition with_manager (self : BackpackLighterArb) (m : OrderBookManager.t)
  : BackpackLighterArb :=
  {| order_quantity := order_quantity self;
     long_threshold := long_threshold self;
     short_threshold := short_threshold self;
     max_position := max_position self;
     order_book_manager := m;
     position_tracker := position_tracker self;
     total_trades := total_trades self;
     successful_trades := successful_trades self;
     failed_trades := failed_trades self;
     placed := placed self |}.

(** [_update_order_books]: copy each manager's quote when both its sides
    are truthy. *)
Definition _update_order_books (self : BackpackLighterArb)
    (bp_ws : option Backpack.WebSocketManager)
    (lt_ws : option Lighter.WebSocketManager) : BackpackLighterArb :=
  let m1 :=
    match bp_ws with
    | Some ws =>
        match Backpack.best_bid ws, Backpack.best_ask ws with
        | Some bp_bid, Some bp_ask =>
            if (truthy (Some bp_bid) && truthy (Some bp_ask))%bool
            then OrderBookManager.update_backpack_bbo
                   (order_book_manager self) bp_bid bp_ask
            else order_book_manager self
        | _, _ => order_book_manager self
        end
    | None => order_book_manager self
    end in
  let m2 :=
    match lt_ws with
    | Some ws =>
        match Lighter.best_bid ws, Lighter.best_ask ws with
        | Some lt_bid, Some lt_ask =>
            if (truthy (Some lt_bid) && truthy (Some lt_ask))%bool
            then OrderBookManager.update_lighter_bbo m1 lt_bid lt_ask
            else m1
        | _, _ => m1
        end
    | None => m1
    end in
  with_manager self m2.

(** What [asyncio.gather(..., return_exceptions=True)] hands back for one
    leg: the [OrderResult], or the exception the call raised.
    [bp_success = not isinstance(bp_result, Exception) and bp_result.success] *)
Definition leg_success (result : outcome OrderResult) : bool :=
  match result with
  | Raise _ => false
  | Return r => success r
  end.

(** [_execute_arbitrage].  [bp_place quantity side] and [lt_place quantity
    side] are the results of the two [place_market_order] calls.  With legs
    of these kinds nothing in the [try:] raises, so the outer [except]
    branch is not taken. *)
Definition _execute_arbitrage (self : BackpackLighterArb) (direction : string)
    (bp_place lt_place : Decimal -> string -> outcome OrderResult)
  : BackpackLighterArb :=
  let total := (total_trades self + 1)%Z in
  let '(bp_side, lt_side) :=
    if direction =? "LONG_BACKPACK" then ("buy", "sell") else ("sell", "buy") in
  let bp_result := bp_place (order_quantity self) bp_side in
  let lt_result := lt_place (order_quantity self) lt_side in
  let journal :=
    mkPlaced Lighter_venue (order_quantity self) lt_side
    :: mkPlaced Backpack_venue (order_quantity self) bp_side
    :: placed self in
  let bp_success := leg_success bp_result in
  let lt_success := leg_success lt_result in
  if (bp_success && lt_success)%bool then
    let tracker :=
      if bp_side =? "buy" then
        PositionTracker.update_lighter_position
          (PositionTracker.update_backpack_position
             (position_tracker self) (order_quantity self))
          (- order_quantity self)
      else
        PositionTracker.update_lighter_position
          (PositionTracker.update_backpack_position
             (position_tracker self) (- order_quantity self))
          (order_quantity self) in
    {| order_quantity := order_quantity self;
       long_threshold := long_threshold self;
       short_threshold := short_threshold self;
       max_position := max_position self;
       order_book_manager := order_book_manager self;
       position_tracker := tracker;
       total_trades := total;
       successful_trades := (successful_trades self + 1)%Z;
       failed_trades := failed_trades self;
       placed := journal |}
  else
    {| order_quantity := order_quantity self;
       long_threshold := long_threshold self;
       short_threshold := short_threshold self;
       max_position := max_position self;
       order_book_manager := order_book_manager self;
       position_tracker := position_tracker self;
       total_trades := total;
       successful_trades := successful_trades self;
       failed_trades := (failed_trades self + 1)%Z;
       placed := journal |}.

Definition _can_trade (self : BackpackLighterArb) (direction : string) : bool :=
  if Qeq_bool (max_position self) 0 then true
  else
    let bp_pos := PositionTracker.get_backpack_position (position_tracker self) in
    if direction =? "LONG_BACKPACK"
    then Qle_bool (bp_pos + order_quantity self) (max_position self)
    else Qle_bool (Qabs (bp_pos - order_quantity self)) (max_position self).

(** [x and x > threshold], for an [Optional[Decimal]] [x]. *)
Definition exceeds (spread : option Decimal) (threshold : Decimal) : bool :=
  match spread with
  | Some s => (truthy spread && negb (Qle_bool s threshold))%bool
  | None => false
  end.

(** The signal that [trading_loop] derives from the two spreads. *)
Definition signal (self : BackpackLighterArb)
    (long_spread short_spread : option Decimal) : string :=
  if exceeds long_spread (long_threshold self) then "LONG_BACKPACK"
  else if exceeds short_spread (short_threshold self) then "SHORT_BACKPACK"
  else "NONE".

(** One pass through the body of [while not self.stop_flag:] in
    [trading_loop] (the periodic [log_bbo] and the sleeps left out).
    [bp_ws] and [lt_ws] are the two WebSocket managers as the pass finds
    them. *)
Definition trading_loop_iteration (self : BackpackLighterArb)
    (bp_ws : option Backpack.WebSocketManager)
    (lt_ws : option Lighter.WebSocketManager)
    (bp_place lt_place : Decimal -> string -> outcome OrderResult)
  : BackpackLighterArb :=
  let self1 := _update_order_books self bp_ws lt_ws in
  if negb (OrderBookManager.is_ready (order_book_manager self1)) then self1
  else
    let '(long_spread, short_spread) :=
      OrderBookManager.get_spread (order_book_manager self1) in
    let sig := signal self1 long_spread short_spread in
    if ((sig =? "LONG_BACKPACK") && _can_trade self1 "LONG_BACKPACK")%bool
    then _execute_arbitrage self1 "LONG_BACKPACK" bp_place lt_place
    else if ((sig =? "SHORT_BACKPACK") && _can_trade self1 "SHORT_BACKPACK")%bool
    then _execute_arbitrage self1 "SHORT_BACKPACK" bp_place lt_place
    else self1.

(** What one pass of the loop meets: the two WebSocket managers and the
    results that the two venues would give to an order. *)
Record pass : Type := mkPass {
  bp_ws_manager : option Backpack.WebSocketManager;
  lt_ws_manager : option Lighter.WebSocketManager;
  bp_answer : Decimal -> string -> outcome OrderResult;
  lt_answer : Decimal -> string -> outcome OrderResult
}.

(** The loop over a finite prefix of its passes. *)
Fixpoint trading_loop_from (self : BackpackLighterArb) (passes : list pass)
  : BackpackLighterArb :=
  match passes with
  | [] => self
  | p :: rest =>
      trading_loop_from
        (trading_loop_iteration self (bp_ws_manager p) (lt_ws_manager p)
           (bp_answer p) (lt_answer p))
        rest
  end.

End Arb.

(* ================================================================== *)
(** ** exchanges/backpack.py: the depth stream *)
(* ================================================================== *)

Module BackpackStream.

(** A level of a depth message, [[price, size]]: the price is passed to
    [Decimal(...)], the size is never read. *)
Definition level : Set := (decimal_text * string)%type.

Definition prices (levels : list level) : list decimal_text := map fst levels.

(** [needle in haystack] on strings. *)
Fixpoint contains (needle haystack : string) : bool :=
  match haystack with
  | EmptyString => String.prefix needle EmptyString
  | String _ rest =>
      (String.prefix needle haystack || contains needle rest)%bool
  end.

(** A decoded message: [data.get('stream', '')] and, of [data.get('data',
    {})], the lists under ['b'] and ['a'] (empty when the key is absent). *)
Record message : Set := mkMessage {
  stream : string;
  b : list level;
  a : list level
}.

(** [_handle_orderbook_update]: each side with levels publishes the best
    price of the message; the assignments made before an exception stay,
    since the [except] branch only logs. *)
Definition _handle_orderbook_update (ws : Backpack.WebSocketManager)
    (bids asks : list level) : Backpack.WebSocketManager :=
  let after_bids : outcome Backpack.WebSocketManager :=
    match bids with
    | [] => Return ws
    | _ :: _ =>
        sorted_bids <- Backpack.parse_prices (prices bids) ;;
        Return {| Backpack.best_bid :=
                    Backpack.first_best (fun y x => negb (Qle_bool y x)) sorted_bids;
                  Backpack.best_ask := Backpack.best_ask ws;
                  Backpack.order_book_ready := Backpack.order_book_ready ws |}
    end in
  match after_bids with
  | Raise _ => ws
  | Return ws1 =>
      let after_asks : outcome Backpack.WebSocketManager :=
        match asks with
        | [] => Return ws1
        | _ :: _ =>
            sorted_asks <- Backpack.parse_prices (prices asks) ;;
            Return {| Backpack.best_bid := Backpack.best_bid ws1;
                      Backpack.best_ask :=
                        Backpack.first_best (fun y x => negb (Qle_bool x y)) sorted_asks;
                      Backpack.order_book_ready := Backpack.order_book_ready ws1 |}
        end in
      match after_asks with
      | Raise _ => ws1
      | Return ws2 =>
          if (negb (Backpack.order_book_ready ws2)
              && truthy (Backpack.best_bid ws2)
              && truthy (Backpack.best_ask ws2))%bool
          then {| Backpack.best_bid := Backpack.best_bid ws2;
                  Backpack.best_ask := Backpack.best_ask ws2;
                  Backpack.order_book_ready := true |}
          else ws2
      end
  end.

(** [_handle_message]: depth messages go to [_handle_orderbook_update];
    order updates go to a callback that does nothing; the rest is ignored. *)
Definition _handle_message (ws : Backpack.WebSocketManager) (data : message)
  : Backpack.WebSocketManager :=
  if contains "depth" (stream data)
  then _handle_orderbook_update ws (b data) (a data)
  else ws.

(** [_listen] over the messages received while [self.running] holds;
    [None] stands for a text that [json.loads] rejects, which is logged and
    dropped. *)
Definition _listen (ws : Backpack.WebSocketManager)
    (received : list (option message)) : Backpack.WebSocketManager :=
  fold_left (fun w m => match m with
                        | Some data => _handle_message w data
                        | None => w
                        end) received ws.

End BackpackStream.

(* ================================================================== *)
(** ** strategy/order_book_manager.py: mid prices *)
(* ================================================================== *)

(** [OrderBookManager.get_mid_prices].  Halving a Decimal costs at most one
    more digit, so that the quotient by 2 is exact within the precision the
    development assumes. *)
Definition get_mid_prices (self : OrderBookManager.t)
  : option Decimal * option Decimal :=
  let backpack_mid :=
    if (truthy (OrderBookManager.backpack_best_bid self)
        && truthy (OrderBookManager.backpack_best_ask self))%bool
    then match OrderBookManager.backpack_best_bid self,
               OrderBookManager.backpack_best_ask self with
         | Some bid, Some ask => Some ((bid + ask) / 2)
         | _, _ => None
         end
    else None in
  let lighter_mid :=
    if (truthy (OrderBookManager.lighter_best_bid self)
        && truthy (OrderBookManager.lighter_best_ask self))%bool
    then match OrderBookManager.lighter_best_bid self,
               OrderBookManager.lighter_best_ask self with
         | Some bid, Some ask => Some ((bid + ask) / 2)
         | _, _ => None
         end
    else None in
  (backpack_mid, lighter_mid).

(* ================================================================== *)
(** ** strategy/backpack_lighter_arb.py: shutdown and cleanup *)
(* ================================================================== *)

Module Lifecycle.

(** The two flags of [BackpackLighterArb] that [shutdown] and
    [_async_cleanup] read and write. *)
Record t : Set := mk {
  stop_flag : bool;
  _cleanup_done : bool
}.

(** [__init__] *)
Definition init : t := {| stop_flag := false; _cleanup_done := false |}.

(** What the two methods do to the outside. *)
Inductive event : Set :=
| Log_shutting_down
| Disconnect (v : Arb.venue)
| Log_disconnected (v : Arb.venue)
| Log_disconnect_error (v : Arb.venue)
| Close_data_logger.

(** [shutdown] *)
Definition shutdown (self : t) : t * list event :=
  if stop_flag self then (self, [])
  else ({| stop_flag := true; _cleanup_done := _cleanup_done self |},
        [Log_shutting_down]).

(** How an awaited [disconnect()] ends for [_async_cleanup]: it returns; it
    raises an exception; or it is still pending when the [wait_for] under
    which [run] awaits [_async_cleanup] times out.  The coroutine is then
    cancelled at that [await]: [CancelledError] is no [Exception], no
    handler of [_async_cleanup] catches it, and nothing of what follows
    runs. *)
Inductive awaited : Set :=
| Returns
| Raises (e : exn)
| Cancelled.

Definition is_cancelled (a : awaited) : bool :=
  match a with
  | Cancelled => true
  | _ => false
  end.

(** [try: if client: await client.disconnect(); log  except Exception: log]:
    the events, and whether the coroutine goes on. *)
Definition disconnect_client (v : Arb.venue) (present : bool)
    (disconnect : awaited) : list event * bool :=
  if present then
    match disconnect with
    | Returns => ([Disconnect v; Log_disconnected v], true)
    | Raises _ => ([Disconnect v; Log_disconnect_error v], true)
    | Cancelled => ([Disconnect v], false)
    end
  else ([], true).

(** [_async_cleanup].  The three booleans tell whether [backpack_client],
    [lighter_client] and [data_logger] are set; [bp_disconnect] and
    [lt_disconnect] tell how the two [disconnect()] calls end.
    [_cleanup_done] is set before anything is awaited. *)
Definition _async_cleanup (self : t)
    (has_backpack has_lighter has_data_logger : bool)
    (bp_disconnect lt_disconnect : awaited) : t * list event :=
  if _cleanup_done self then (self, [])
  else
    let self1 := {| stop_flag := stop_flag self; _cleanup_done := true |} in
    let '(bp_events, goes_on) :=
      disconnect_client Arb.Backpack_venue has_backpack bp_disconnect in
    if goes_on then
      let '(lt_events, goes_on) :=
        disconnect_client Arb.Lighter_venue has_lighter lt_disconnect in
      if goes_on then
        (self1,
         (bp_events ++ lt_events
          ++ (if has_data_logger then [Close_data_logger] else []))%list)
      else (self1, (bp_events ++ lt_events)%list)
    else (self1, bp_events).

(** A call made on the bot from the signal handler or from [run]. *)
Inductive call : Set :=
| Shutdown
| Cleanup (bp_disconnect lt_disconnect : awaited).

(** A sequence of such calls on a bot whose clients are (or are not) set. *)
Fixpoint run_calls (self : t) (has_backpack has_lighter has_data_logger : bool)
    (calls : list call) : t * list event :=
  match calls with
  | [] => (self, [])
  | c :: rest =>
      let '(self1, events) :=
        match c with
        | Shutdown => shutdown self
        | Cleanup bp_disconnect lt_disconnect =>
            _async_cleanup self has_backpack has_lighter has_data_logger
              bp_disconnect lt_disconnect
        end in
      let '(self2, events') :=
        run_calls self1 has_backpack has_lighter has_data_logger rest in
      (self2, (events ++ events')%list)
  end.

End Lifecycle.

(* ================================================================== *)
(** ** arbitrage.py *)
(* ================================================================== *)

Module Cli.

(** A Decimal as the constructor yields it from a text: a finite number, an
    infinity, or a NaN (quiet or signalling). *)
Inductive decimal_value : Set :=
| Finite (d : Q)
| Infinity (negative : bool)
| NaN.

(** A command-line text handed to [Decimal(...)]: [None] when the
    constructor raises [decimal.InvalidOperation]. *)
Definition text : Set := option decimal_value.

Definition Decimal_of (t : text) : outcome decimal_value :=
  match t with
  | Some v => Return v
  | None => Raise (mkExn "InvalidOperation" "[<class 'decimal.ConversionSyntax'>]")
  end.

(** [x <= 0] and [x < 0]: an ordering comparison that involves a NaN raises
    [decimal.InvalidOperation]. *)
Definition le_zero (x : decimal_value) : outcome bool :=
  match x with
  | Finite d => Return (Qle_bool d 0)
  | Infinity negative => Return negative
  | NaN => Raise (mkExn "InvalidOperation" "[<class 'decimal.InvalidOperation'>]")
  end.

Definition lt_zero (x : decimal_value) : outcome bool :=
  match x with
  | Finite d => Return (negb (Qle_bool 0 d))
  | Infinity negative => Return negative
  | NaN => Raise (mkExn "InvalidOperation" "[<class 'decimal.InvalidOperation'>]")
  end.

(** The command-line values that [main] turns into Decimals. *)
Record args : Set := mkArgs {
  size : text;
  long_threshold : text;
  short_threshold : text;
  max_position : text
}.

(** [validate_args]: [true] when it returns, [false] when it ends the
    process with [sys.exit(1)], which the [except Exception] clauses do not
    catch. *)
Definition validate_args (a : args) : bool :=
  match (size <- Decimal_of (size a) ;; le_zero size) with
  | Raise _ => false
  | Return true => false
  | Return false =>
      match (long_threshold <- Decimal_of (long_threshold a) ;;
             short_threshold <- Decimal_of (short_threshold a) ;;
             long_negative <- lt_zero long_threshold ;;
             if long_negative then Return true
             else lt_zero short_threshold) with
      | Raise _ => false
      | Return true => false
      | Return false => true
      end
  end.

(** The arguments of [BackpackLighterArb(...)] that are Decimals. *)
Record bot_arguments : Set := mkBot {
  bot_order_quantity : decimal_value;
  bot_long_threshold : decimal_value;
  bot_short_threshold : decimal_value;
  bot_max_position : decimal_value
}.

(** [main] up to the call of the constructor: the arguments it passes, or
    [None] when the process ends with exit code 1 before (failed
    validation, or an exception while the arguments are evaluated). *)
Definition main_arguments (a : args) : option bot_arguments :=
  if validate_args a then
    match (order_quantity <- Decimal_of (size a) ;;
           long_threshold <- Decimal_of (long_threshold a) ;;
           short_threshold <- Decimal_of (short_threshold a) ;;
           max_position <- Decimal_of (max_position a) ;;
           Return {| bot_order_quantity := order_quantity;
                     bot_long_threshold := long_threshold;
                     bot_short_threshold := short_threshold;
                     bot_max_position := max_position |}) with
    | Return arguments => Some arguments
    | Raise _ => None
    end
  else None.

End Cli.

(* ================================================================== *)
(** ** Vocabulary of the statements *)
(* ================================================================== *)

(** [side.lower()] is ['buy'] or ['sell']. *)
Definition valid_side (side : string) : bool :=
  ((lower side =? "buy") || (lower side =? "sell"))%bool.

(** The [side] argument that [BackpackClient.place_market_order] passes to
    [execute_order] for a valid side. *)
Definition backpack_order_side (side : string) : string :=
  if lower side =? "buy" then "Bid" else "Ask".

(** Backpack turns the order down: the call raises, gives no answer, or
    answers with an error ['code']. *)
Definition backpack_rejects (answer : outcome Backpack.api_result) : bool :=
  match answer with
  | Raise _ => true
  | Return Backpack.Falsy => true
  | Return (Backpack.Dict r) =>
      match Backpack.code r with
      | Some _ => true
      | None => false
      end
  end.

(** Backpack takes the order and reports a status that does not read
    [FILLED] in upper case. *)
Definition backpack_not_filled (str_upper : string -> string)
    (answer : outcome Backpack.api_result) : bool :=
  match answer with
  | Return (Backpack.Dict r) =>
      match Backpack.code r with
      | Some _ => false
      | None =>
          negb (str_upper (Backpack.get (Backpack.status_field r) "") =? "FILLED")
      end
  | _ => false
  end.

(** [str.upper] on the strings of the examples, which are ASCII: the letters
    [a] to [z] are mapped to [A] to [Z]. *)
Definition ascii_upper_char (c : ascii) : ascii :=
  let n := nat_of_ascii c in
  if (Nat.leb 97 n && Nat.leb n 122)%bool then ascii_of_nat (n - 32) else c.

Fixpoint ascii_upper (s : string) : string :=
  match s with
  | EmptyString => EmptyString
  | String c s' => String (ascii_upper_char c) (ascii_upper s')
  end.

(** Lighter turns the order down: [create_order] raises or returns an
    error. *)
Definition lighter_rejects (answer : outcome (option string)) : bool :=
  match answer with
  | Return None => false
  | _ => true
  end.

(** The doubling-capped sequence [1, 2, 4, 8, 16, 30, 30, ...], by index. *)
Definition capped_doubling (n : nat) : Z := Z.min (2 ^ Z.of_nat n) 30.

(** An operation that raises on every invocation an exception that the
    retry predicate accepts. *)
Definition always_fails {A : Type} (retry_if : exn -> bool)
    (op : nat -> outcome A) : Prop :=
  forall n, exists e, op n = Raise e /\ retry_if e = true.

(** A sequence of [_execute_arbitrage] calls, each with its direction and
    the results of its two legs. *)
Definition execution : Type :=
  (string * (Decimal -> string -> outcome OrderResult)
          * (Decimal -> string -> outcome OrderResult))%type.

Definition execute (self : Arb.BackpackLighterArb) (e : execution)
  : Arb.BackpackLighterArb :=
  let '(direction, bp_place, lt_place) := e in
  Arb._execute_arbitrage self direction bp_place lt_place.

(** Both legs of an execution succeed for the quantity [q]. *)
Definition both_succeeded (q : Decimal) (e : execution) : bool :=
  let '(direction, bp_place, lt_place) := e in
  if direction =? "LONG_BACKPACK"
  then (Arb.leg_success (bp_place q "buy") && Arb.leg_success (lt_place q "sell"))%bool
  else (Arb.leg_success (bp_place q "sell") && Arb.leg_success (lt_place q "buy"))%bool.

(** A bot with the given limit, order size and cached Backpack position. *)
Definition bot_at (max_position order_quantity bp_pos : Decimal)
  : Arb.BackpackLighterArb :=
  {| Arb.order_quantity := order_quantity;
     Arb.long_threshold := 5; Arb.short_threshold := 5;
     Arb.max_position := max_position;
     Arb.order_book_manager := OrderBookManager.init;
     Arb.position_tracker :=
       {| PositionTracker.backpack_position := bp_pos;
          PositionTracker.lighter_position := - bp_pos |};
     Arb.total_trades := 0; Arb.successful_trades := 0;
     Arb.failed_trades := 0; Arb.placed := [] |}.

(** An order-book manager that has received the given quotes:
    Backpack (bid, ask), then Lighter (bid, ask). *)
Definition quoted (bp_bid bp_ask lt_bid lt_ask : Decimal) : OrderBookManager.t :=
  OrderBookManager.update_lighter_bbo
    (OrderBookManager.update_backpack_bbo OrderBookManager.init bp_bid bp_ask)
    lt_bid lt_ask.

(** A bot with thresholds of 5 on both sides and the given manager. *)
Definition bot_with (m : OrderBookManager.t) : Arb.BackpackLighterArb :=
  Arb.with_manager (Arb.init 0.05 5 5 0) m.

(** Venue answers used in the examples: Backpack reports an order as [New],
    or answers with an error code. *)
Definition backpack_says_new (order_side : string) (quantity : Decimal)
  : outcome Backpack.api_result :=
  Return (Backpack.Dict {| Backpack.code := None; Backpack.message := None;
                           Backpack.id := Some "42";
                           Backpack.status_field := Some "New";
                           Backpack.executedQuantity := None;
                           Backpack.executedQuoteQuantity := None |}).

Definition backpack_says_error (order_side : string) (quantity : Decimal)
  : outcome Backpack.api_result :=
  Return (Backpack.Dict {| Backpack.code := Some "INSUFFICIENT_FUNDS";
                           Backpack.message := Some "Insufficient funds";
                           Backpack.id := None;
                           Backpack.status_field := None;
                           Backpack.executedQuantity := None;
                           Backpack.executedQuoteQuantity := None |}).

(** A run of Lighter's [fetch_bbo_prices] that found the quote (3000, 3001)
    at the first attempt. *)
Definition lighter_quote : retry_run (Decimal * Decimal) :=
  Lighter.fetch_bbo_prices
    (fun _ => Some {| Lighter.bids := []; Lighter.asks := [];
                      Lighter.best_bid := Some 3000;
                      Lighter.best_ask := Some 3001;
                      Lighter.order_book_ready := true;
                      Lighter.snapshot_loaded := true;
                      Lighter.order_book_offset := None |}).

(** A venue that fills every order. *)
Definition fills (quantity : Decimal) (side : string) : outcome OrderResult :=
  Return {| success := true; order_id := Some "1"; side := Some side;
            size := Some quantity; price := Some 3000;
            status := Some "FILLED"; error_message := None;
            filled_size := Some quantity; avg_price := Some 3000 |}.

(** The executions of a list, one after the other. *)
Definition execute_all (self : Arb.BackpackLighterArb) (es : list execution)
  : Arb.BackpackLighterArb :=
  fold_left execute es self.

Definition net_position (self : Arb.BackpackLighterArb) : Decimal :=
  PositionTracker.get_net_position (Arb.position_tracker self).

(** A WebSocket manager holds a complete quote: both sides are truthy. *)
Definition backpack_quote_complete (ws : option Backpack.WebSocketManager) : bool :=
  match ws with
  | Some w => (truthy (Backpack.best_bid w) && truthy (Backpack.best_ask w))%bool
  | None => false
  end.

Definition lighter_quote_complete (ws : option Lighter.WebSocketManager) : bool :=
  match ws with
  | Some w => (truthy (Lighter.best_bid w) && truthy (Lighter.best_ask w))%bool
  | None => false
  end.

(** A pass of the trading loop that places no order and leaves the counters
    and the positions as they were. *)
Definition no_trade (self self' : Arb.BackpackLighterArb) : Prop :=
  Arb.placed self' = Arb.placed self
  /\ Arb.total_trades self' = Arb.total_trades self
  /\ Arb.successful_trades self' = Arb.successful_trades self
  /\ Arb.failed_trades self' = Arb.failed_trades self
  /\ Arb.position_tracker self' = Arb.position_tracker self.

(** The reconnect delay after [k] sleeps from the delay [d]. *)
Fixpoint delay_after (d : Z) (k : nat) : Z :=
  match k with
  | O => d
  | S k' => delay_after (next_delay d) k'
  end.

(** What the best bid (resp. ask) of one side of the book is to be, for the
    float product [fmul]: the highest (resp. lowest) price among the levels
    whose notional, the product of size and price, is at least 10000; and
    [None] when the notional of every level is below 10000. *)
Definition is_best_bid (fmul : Q -> Q -> Q) (side : Lighter.book_side)
    (best : option Decimal) : Prop :=
  match best with
  | Some b =>
      (exists s, In (b, s) side /\ 10000 <= fmul s b)
      /\ forall p s, In (p, s) side -> 10000 <= fmul s p -> p <= b
  | None => forall p s, In (p, s) side -> fmul s p < 10000
  end.

Definition is_best_ask (fmul : Q -> Q -> Q) (side : Lighter.book_side)
    (best : option Decimal) : Prop :=
  match best with
  | Some a =>
      (exists s, In (a, s) side /\ 10000 <= fmul s a)
      /\ forall p s, In (p, s) side -> 10000 <= fmul s p -> a <= p
  | None => forall p s, In (p, s) side -> fmul s p < 10000
  end.

(** A Lighter manager whose snapshot is loaded, with the given book and
    published quote. *)
Definition lighter_book (bids asks : Lighter.book_side)
    (best_bid best_ask : option Decimal) : Lighter.WebSocketManager :=
  {| Lighter.bids := bids; Lighter.asks := asks;
     Lighter.best_bid := best_bid; Lighter.best_ask := best_ask;
     Lighter.order_book_ready := true; Lighter.snapshot_loaded := true;
     Lighter.order_book_offset := None |}.

(** The quotes of a ready venue are present and not zero. *)
Definition quotes_nonzero (m : OrderBookManager.t) : Prop :=
  (OrderBookManager.backpack_ready m = true ->
   truthy (OrderBookManager.backpack_best_bid m) = true
   /\ truthy (OrderBookManager.backpack_best_ask m) = true)
  /\ (OrderBookManager.lighter_ready m = true ->
      truthy (OrderBookManager.lighter_best_bid m) = true
      /\ truthy (OrderBookManager.lighter_best_ask m) = true).

(** A pass of the trading loop that finds the given quotes on the two
    WebSocket managers, with venues that fill every order. *)
Definition quoted_pass (bp_bid bp_ask lt_bid lt_ask : Decimal) : Arb.pass :=
  {| Arb.bp_ws_manager :=
       Some {| Backpack.best_bid := Some bp_bid;
               Backpack.best_ask := Some bp_ask;
               Backpack.order_book_ready := true |};
     Arb.lt_ws_manager := Some (lighter_book [] [] (Some lt_bid) (Some lt_ask));
     Arb.bp_answer := fills;
     Arb.lt_answer := fills |}.

Definition backpack_position_of (self : Arb.BackpackLighterArb) : Decimal :=
  PositionTracker.get_backpack_position (Arb.position_tracker self).

Definition lighter_position_of (self : Arb.BackpackLighterArb) : Decimal :=
  PositionTracker.get_lighter_position (Arb.position_tracker self).

(** The price at which [LighterClient.place_market_order] sends an order of
    a valid side for the quote (bid, ask), and the request it builds. *)
Definition lighter_order_price (side : string) (best_bid best_ask : Decimal)
  : Decimal :=
  if lower side =? "buy" then best_ask * 1.002 else best_bid * 0.998.

Definition lighter_request (now_ms : Z) (base_amount_multiplier price_multiplier : Z)
    (quantity : Decimal) (side : string) (best_bid best_ask : Decimal)
  : Lighter.order_request :=
  {| Lighter.client_order_index := (now_ms mod 1000000)%Z;
     Lighter.base_amount :=
       int_of_Decimal (quantity * inject_Z base_amount_multiplier);
     Lighter.price_arg :=
       int_of_Decimal (lighter_order_price side best_bid best_ask
                       * inject_Z price_multiplier);
     Lighter.is_ask := negb (lower side =? "buy") |}.

(** A Lighter venue that accepts every request. *)
Definition lighter_accepts (request : Lighter.order_request)
  : outcome (option string) :=
  Return None.

Definition request_eqb (x y : Lighter.order_request) : bool :=
  ((Lighter.client_order_index x =? Lighter.client_order_index y)%Z
   && (Lighter.base_amount x =? Lighter.base_amount y)%Z
   && (Lighter.price_arg x =? Lighter.price_arg y)%Z
   && Bool.eqb (Lighter.is_ask x) (Lighter.is_ask y))%bool.

(** A Lighter venue that refuses the given request and accepts the others. *)
Definition lighter_refuses_only (refused request : Lighter.order_request)
  : outcome (option string) :=
  if request_eqb refused request then Return (Some "invalid nonce")
  else Return None.

(** A Lighter venue as [place_market_order] meets it: its answer to
    [create_order] (the error, if any), and the status that the order has on
    the venue when the two seconds of waiting are over.  The client reads
    the former only. *)
Record lighter_venue : Type := mkVenue {
  create_order_answer : Lighter.order_request -> outcome (option string);
  status_after_wait : Lighter.order_request -> string
}.

(** A venue that accepts every order and fills none: the orders rest on the
    book. *)
Definition lighter_resting_venue : lighter_venue :=
  {| create_order_answer := fun _ => Return None;
     status_after_wait := fun _ => "open" |}.

(** A Backpack answer for a filled order. *)
Definition backpack_filled (executed_qty executed_quote : Decimal)
  : Backpack.order_response :=
  {| Backpack.code := None; Backpack.message := None;
     Backpack.id := Some "7";
     Backpack.status_field := Some "Filled";
     Backpack.executedQuantity := Some (Parsed executed_qty);
     Backpack.executedQuoteQuantity := Some (Parsed executed_quote) |}.

(** [ob.get(price)] on one side of the Lighter book. *)
Fixpoint dict_get (price : Q) (ob : Lighter.book_side) : option Q :=
  match ob with
  | [] => None
  | (p, s) :: rest => if Qeq_bool p price then Some s else dict_get price rest
  end.

(** A side of the book is a dict: no two of its items have equal prices. *)
Fixpoint distinct_prices (ob : Lighter.book_side) : Prop :=
  match ob with
  | [] => True
  | (p, _) :: rest =>
      (forall p' s', In (p', s') rest -> ~ p' == p) /\ distinct_prices rest
  end.

(** No level of the side has size zero. *)
Definition no_empty_level (ob : Lighter.book_side) : Prop :=
  forall p s, In (p, s) ob -> ~ s == 0.

(** The message loop of [LighterWebSocketManager.connect]: the messages of a
    session handled one after the other, until the list is through or
    [_handle_message] raises ([except Exception: log; break]). *)
Fixpoint handle_all (fmul : Q -> Q -> Q) (ws : Lighter.WebSocketManager)
    (messages : list Lighter.message) : Lighter.WebSocketManager :=
  match messages with
  | [] => ws
  | data :: rest =>
      let '(ws1, result) := Lighter._handle_message fmul ws data in
      match result with
      | Return _ => handle_all fmul ws1 rest
      | Raise _ => ws1
      end
  end.

(** What each pass of [connect] does first, under the lock: both sides of
    the book are cleared and the snapshot is forgotten; the published quote
    and the ready flag are not touched. *)
Definition reset_order_book (ws : Lighter.WebSocketManager)
  : Lighter.WebSocketManager :=
  {| Lighter.bids := []; Lighter.asks := [];
     Lighter.best_bid := Lighter.best_bid ws;
     Lighter.best_ask := Lighter.best_ask ws;
     Lighter.order_book_ready := Lighter.order_book_ready ws;
     Lighter.snapshot_loaded := false;
     Lighter.order_book_offset := None |}.

Definition is_snapshot (data : Lighter.message) : bool :=
  match data with
  | Lighter.Subscribed_order_book _ _ _ => true
  | Lighter.Order_book_raises snapshot _ _ _ _ => snapshot
  | _ => false
  end.

(** Both sides of a manager's book are dicts without empty levels. *)
Definition book_ok (ws : Lighter.WebSocketManager) : Prop :=
  distinct_prices (Lighter.bids ws) /\ no_empty_level (Lighter.bids ws)
  /\ distinct_prices (Lighter.asks ws) /\ no_empty_level (Lighter.asks ws).

(** The quote fields as [BackpackWebSocketManager.__init__] leaves them. *)
Definition backpack_ws_init : Backpack.WebSocketManager :=
  {| Backpack.best_bid := None; Backpack.best_ask := None;
     Backpack.order_book_ready := false |}.

(** A ready Backpack manager has both sides of its quote set. *)
Definition ready_has_quote (ws : Backpack.WebSocketManager) : Prop :=
  Backpack.order_book_ready ws = true ->
  Backpack.best_bid ws <> None /\ Backpack.best_ask ws <> None.

(** How many times a trace of [Lifecycle] events logs the shutdown, calls
    [disconnect()] on a venue's client, and closes the data logger. *)
Definition shutdown_logs (trace : list Lifecycle.event) : nat :=
  List.length (filter (fun e => match e with
                                | Lifecycle.Log_shutting_down => true
                                | _ => false
                                end) trace).

Definition disconnects (v : Arb.venue) (trace : list Lifecycle.event) : nat :=
  List.length (filter (fun e => match e, v with
                                | Lifecycle.Disconnect Arb.Backpack_venue,
                                  Arb.Backpack_venue => true
                                | Lifecycle.Disconnect Arb.Lighter_venue,
                                  Arb.Lighter_venue => true
                                | _, _ => false
                                end) trace).

Definition logger_closes (trace : list Lifecycle.event) : nat :=
  List.length (filter (fun e => match e with
                                | Lifecycle.Close_data_logger => true
                                | _ => false
                                end) trace).

Definition is_shutdown (c : Lifecycle.call) : bool :=
  match c with
  | Lifecycle.Shutdown => true
  | Lifecycle.Cleanup _ _ => false
  end.

Definition is_cleanup (c : Lifecycle.call) : bool := negb (is_shutdown c).

(** How the two [disconnect()] calls end in the first [_async_cleanup] of a
    sequence of calls. *)
Fixpoint first_cleanup (calls : list Lifecycle.call)
  : option (Lifecycle.awaited * Lifecycle.awaited) :=
  match calls with
  | [] => None
  | Lifecycle.Shutdown :: rest => first_cleanup rest
  | Lifecycle.Cleanup bp_disconnect lt_disconnect :: _ =>
      Some (bp_disconnect, lt_disconnect)
  end.

(** Whether the first [_async_cleanup] of a sequence of calls gets as far as
    the Lighter client, resp. the data logger: there is such a call and no
    [disconnect()] before that point is cancelled. *)
Definition reaches_lighter (has_backpack : bool) (calls : list Lifecycle.call)
  : bool :=
  match first_cleanup calls with
  | Some (bp_disconnect, _) =>
      negb (has_backpack && Lifecycle.is_cancelled bp_disconnect)
  | None => false
  end.

Definition reaches_logger (has_backpack has_lighter : bool)
    (calls : list Lifecycle.call) : bool :=
  match first_cleanup calls with
  | Some (bp_disconnect, lt_disconnect) =>
      (negb (has_backpack && Lifecycle.is_cancelled bp_disconnect)
       && negb (has_lighter && Lifecycle.is_cancelled lt_disconnect))%bool
  | None => false
  end.

(** A Decimal of the command line is positive, resp. not negative; the
    positive infinity is both and a NaN neither. *)
Definition is_positive (x : Cli.decimal_value) : Prop :=
  match x with
  | Cli.Finite d => 0 < d
  | Cli.Infinity negative => negative = false
  | Cli.NaN => False
  end.

Definition is_not_negative (x : Cli.decimal_value) : Prop :=
  match x with
  | Cli.Finite d => 0 <= d
  | Cli.Infinity negative => negative = false
  | Cli.NaN => False
  end.

Definition once_if (b : bool) : nat := if b then 1%nat else 0%nat.

(** A side of a quote that is missing: [None], or zero. *)
Definition absent_or_zero (x : option Decimal) : Prop :=
  match x with
  | None => True
  | Some d => d == 0
  end.

(** The mid price of a quote whose two sides are present and not zero. *)
Definition is_mid_of (bid ask : option Decimal) (mid : Decimal) : Prop :=
  exists b a, bid = Some b /\ ask = Some a /\ ~ b == 0 /\ ~ a == 0
              /\ mid = (b + a) / 2.

(* ================================================================== *)
(** ** Properties *)
(* ================================================================== *)

(** *** _execute_arbitrage *)

Section ExecuteArbitrage.

Import Arb PositionTracker.

Variable self : BackpackLighterArb.
Variables bp_place lt_place : Decimal -> string -> outcome OrderResult.

Lemma execute_arbitrage_counts_attempt (direction : string) :
  total_trades (_execute_arbitrage self direction bp_place lt_place)
  = (total_trades self + 1)%Z.
Proof.
  unfold _execute_arbitrage.
  destruct (direction =? "LONG_BACKPACK"); cbv zeta beta iota;
    match goal with |- context [if ?b then _ else _] => destruct b end;
    reflexivity.
Qed.

Lemma execute_arbitrage_keeps_settings (direction : string) :
  let self' := _execute_arbitrage self direction bp_place lt_place in
  order_quantity self' = order_quantity self
  /\ max_position self' = max_position self
  /\ order_book_manager self' = order_book_manager self.
Proof.
  unfold _execute_arbitrage.
  destruct (direction =? "LONG_BACKPACK"); cbv zeta beta iota;
    match goal with |- context [if ?b then _ else _] => destruct b end;
    repeat split.
Qed.

End ExecuteArbitrage.

(** C1.  Whatever the direction and the results of the two legs,
    [_execute_arbitrage] adds one to [total_trades] and sends one order of
    the configured quantity to each venue: [LONG_BACKPACK] buys on Backpack
    and sells on Lighter, any other direction ([SHORT_BACKPACK]) the reverse.
    When both legs return an [OrderResult] with [success] set, one is added
    to [successful_trades], [failed_trades] is left as it was, and the
    position of the venue that bought grows by the quantity while that of
    the venue that sold falls by it.  When a leg raises an exception or
    returns a result with [success = False], whichever leg it is and
    whatever the other one does, one is added to [failed_trades],
    [successful_trades] is left as it was and the position tracker is not
    touched. *)
Theorem execute_arbitrage_bookkeeping :
  forall (self : Arb.BackpackLighterArb) (direction : string)
         (bp_place lt_place : Decimal -> string -> outcome OrderResult),
    let q := Arb.order_quantity self in
    let long := direction =? "LONG_BACKPACK" in
    let bp_side := if long then "buy" else "sell" in
    let lt_side := if long then "sell" else "buy" in
    let self' := Arb._execute_arbitrage self direction bp_place lt_place in
    let tracker := Arb.position_tracker self in
    let tracker' := Arb.position_tracker self' in
    let counted_as_success :=
      Arb.successful_trades self' = (Arb.successful_trades self + 1)%Z
      /\ Arb.failed_trades self' = Arb.failed_trades self
      /\ PositionTracker.backpack_position tracker'
         = PositionTracker.backpack_position tracker + (if long then q else - q)
      /\ PositionTracker.lighter_position tracker'
         = PositionTracker.lighter_position tracker + (if long then - q else q) in
    let counted_as_failure :=
      Arb.successful_trades self' = Arb.successful_trades self
      /\ Arb.failed_trades self' = (Arb.failed_trades self + 1)%Z
      /\ tracker' = tracker in
    Arb.total_trades self' = (Arb.total_trades self + 1)%Z
    /\ Arb.placed self'
       = Arb.mkPlaced Arb.Lighter_venue q lt_side
         :: Arb.mkPlaced Arb.Backpack_venue q bp_side :: Arb.placed self
    /\ (forall bp_result lt_result,
          bp_place q bp_side = Return bp_result ->
          lt_place q lt_side = Return lt_result ->
          success bp_result = true -> success lt_result = true ->
          counted_as_success)
    /\ (forall e, bp_place q bp_side = Raise e -> counted_as_failure)
    /\ (forall e, lt_place q lt_side = Raise e -> counted_as_failure)
    /\ (forall bp_result,
          bp_place q bp_side = Return bp_result ->
          success bp_result = false -> counted_as_failure)
    /\ (forall lt_result,
          lt_place q lt_side = Return lt_result ->
          success lt_result = false -> counted_as_failure)
    /\ (("LONG_BACKPACK" =? "LONG_BACKPACK") = true
        /\ ("SHORT_BACKPACK" =? "LONG_BACKPACK") = false).
Proof.
  intros self direction bp_place lt_place.
  unfold Arb._execute_arbitrage, Arb.leg_success.
  destruct (direction =? "LONG_BACKPACK"); cbv zeta beta iota;
    (destruct (bp_place (Arb.order_quantity self) _) as [rb | eb];
     [destruct (success rb) eqn:Sb|]);
    (destruct (lt_place (Arb.order_quantity self) _) as [rl | el];
     [destruct (success rl) eqn:Sl|]);
    cbn;
    repeat match goal with
           | |- _ /\ _ => split
           end;
    intros;
    repeat match goal with
           | H : Return _ = Return _ |- _ => injection H as <-
           end;
    try discriminate; try congruence; repeat split; reflexivity.
Qed.

(** Each case at a concrete execution from the initial state: two filled
    orders in the long direction; a call that raises on Backpack, then on
    Lighter, while the other venue fills; and an order that comes back with
    [success = False] from Backpack, then from Lighter, while the other
    venue fills. *)
Lemma execute_arbitrage_bookkeeping_witness :
  let self := Arb.init 0.05 5 5 0 in
  let raises := fun (q : Decimal) (s : string) =>
    @Raise OrderResult (mkExn "ConnectionError" "connection reset") in
  let refused := fun (q : Decimal) (s : string) =>
    Return (failed_order None "Order not filled, status: NEW") in
  let failure_of (self' : Arb.BackpackLighterArb) :=
    Arb.successful_trades self' = 0%Z
    /\ Arb.failed_trades self' = (0 + 1)%Z
    /\ Arb.position_tracker self' = PositionTracker.init in
  let won := Arb._execute_arbitrage self "LONG_BACKPACK" fills fills in
  (Arb.successful_trades won = (0 + 1)%Z
   /\ Arb.failed_trades won = 0%Z
   /\ PositionTracker.backpack_position (Arb.position_tracker won) = 0 + 0.05
   /\ PositionTracker.lighter_position (Arb.position_tracker won) = 0 + - 0.05)
  /\ failure_of (Arb._execute_arbitrage self "SHORT_BACKPACK" raises fills)
  /\ failure_of (Arb._execute_arbitrage self "SHORT_BACKPACK" fills raises)
  /\ failure_of (Arb._execute_arbitrage self "LONG_BACKPACK" refused fills)
  /\ failure_of (Arb._execute_arbitrage self "LONG_BACKPACK" fills refused).
Proof.
  intros self raises refused failure_of won.
  split; [|split; [|split; [|split]]].
  - destruct (execute_arbitrage_bookkeeping self "LONG_BACKPACK" fills fills)
      as (_ & _ & H & _).
    exact (H _ _ eq_refl eq_refl eq_refl eq_refl).
  - destruct (execute_arbitrage_bookkeeping self "SHORT_BACKPACK" raises fills)
      as (_ & _ & _ & H & _).
    exact (H _ eq_refl).
  - destruct (execute_arbitrage_bookkeeping self "SHORT_BACKPACK" fills raises)
      as (_ & _ & _ & _ & H & _).
    exact (H _ eq_refl).
  - destruct (execute_arbitrage_bookkeeping self "LONG_BACKPACK" refused fills)
      as (_ & _ & _ & _ & _ & H & _).
    exact (H _ eq_refl eq_refl).
  - destruct (execute_arbitrage_bookkeeping self "LONG_BACKPACK" fills refused)
      as (_ & _ & _ & _ & _ & _ & H & _).
    exact (H _ eq_refl eq_refl).
Defined.

(** *** _can_trade *)

Section CanTrade.

Import Arb.

Variable self : BackpackLighterArb.

Let bp_pos := PositionTracker.get_backpack_position (position_tracker self).

(** With [max_position] zero every trade is allowed. *)
Lemma can_trade_unlimited (direction : string) :
  max_position self == 0 -> _can_trade self direction = true.
Proof.
  intros H. unfold _can_trade.
  apply Qeq_bool_iff in H. rewrite H. reflexivity.
Qed.

(** With a limit, the short branch compares the absolute post-trade
    position with it, the bound included. *)
Lemma can_trade_short_iff :
  ~ max_position self == 0 ->
  (_can_trade self "SHORT_BACKPACK" = true
   <-> Qabs (bp_pos - order_quantity self) <= max_position self).
Proof.
  intros H. unfold _can_trade.
  destruct (Qeq_bool (max_position self) 0) eqn:E.
  - apply Qeq_bool_iff in E. contradiction.
  - cbn. apply Qle_bool_iff.
Qed.

(** The long branch compares the signed post-trade position with it. *)
Lemma can_trade_long_iff :
  ~ max_position self == 0 ->
  (_can_trade self "LONG_BACKPACK" = true
   <-> bp_pos + order_quantity self <= max_position self).
Proof.
  intros H. unfold _can_trade.
  destruct (Qeq_bool (max_position self) 0) eqn:E.
  - apply Qeq_bool_iff in E. contradiction.
  - cbn. apply Qle_bool_iff.
Qed.

End CanTrade.

(** The boundary of the limit is included: with a limit of 0.1 and a
    Backpack position of 0.05, a long trade of 0.05 passes and one of 0.06
    does not. *)
Example can_trade_boundary :
  Arb._can_trade (bot_at 0.1 0.05 0.05) "LONG_BACKPACK" = true
  /\ Arb._can_trade (bot_at 0.1 0.06 0.05) "LONG_BACKPACK" = false.
Proof. split; reflexivity. Qed.

(** C2.  [_can_trade] does not bound the absolute post-trade position in the
    long direction: with a limit of 0.1, a Backpack position of -0.5 and an
    order size of 0.05, the post-trade position -0.45 exceeds the limit in
    absolute value and the long trade is allowed all the same, whereas the
    short branch rejects the mirror situation (position 0.5). *)
Theorem can_trade_long_misses_abs :
  let self := bot_at 0.1 0.05 (-0.5) in
  let post := PositionTracker.get_backpack_position (Arb.position_tracker self)
              + Arb.order_quantity self in
  negb (Qeq_bool (Arb.max_position self) 0) = true
  /\ Qle_bool (Qabs post) (Arb.max_position self) = false
  /\ Arb._can_trade self "LONG_BACKPACK" = true
  /\ Arb._can_trade (bot_at 0.1 0.05 0.5) "SHORT_BACKPACK" = false.
Proof. repeat split. Qed.

(** *** get_spread and the signal *)

Lemma truthy_Some (d : Decimal) : ~ d == 0 -> truthy (Some d) = true.
Proof.
  intros H. cbn. destruct (Qeq_bool d 0) eqn:E; [|reflexivity].
  apply Qeq_bool_iff in E. contradiction.
Qed.

Lemma exceeds_strict (spread : option Decimal) (threshold : Decimal) :
  Arb.exceeds spread threshold = true ->
  exists s, spread = Some s /\ threshold < s.
Proof.
  destruct spread as [s|]; cbn; [|discriminate].
  intros H. apply andb_true_iff in H. destruct H as [_ H].
  exists s. split; [reflexivity|].
  apply Qnot_le_lt. intros L. apply Qle_bool_iff in L.
  rewrite L in H. discriminate.
Qed.

(** C3 does not hold as stated: a quote of zero is falsy, so a ready
    manager holding four quotes, one of them zero, gets [(None, None)]. *)
Lemma get_spread_zero_quote_counterexample :
  ~ (forall (m : OrderBookManager.t) (lt_bid bp_ask bp_bid lt_ask : Decimal),
       OrderBookManager.is_ready m = true ->
       OrderBookManager.lighter_best_bid m = Some lt_bid ->
       OrderBookManager.backpack_best_ask m = Some bp_ask ->
       OrderBookManager.backpack_best_bid m = Some bp_bid ->
       OrderBookManager.lighter_best_ask m = Some lt_ask ->
       OrderBookManager.get_spread m
       = (Some (lt_bid - bp_ask), Some (bp_bid - lt_ask))).
Proof.
  intros H.
  specialize (H (quoted 0 101 106 107) 106 101 0 107
                eq_refl eq_refl eq_refl eq_refl eq_refl).
  discriminate H.
Qed.

(** C3, amended.  When both order books are ready and the four quotes are
    present and not zero, [get_spread] returns exactly
    (Lighter bid - Backpack ask, Backpack bid - Lighter ask); for Backpack
    (100, 101) and Lighter (106, 107) that is (5, -7).  The trading loop
    signals a direction only when the spread of that direction is strictly
    above its threshold: with thresholds of 5, a long spread of exactly 5
    gives [NONE] and one of 5.01 gives [LONG_BACKPACK]. *)
Theorem get_spread_exact_and_signal_strict :
  (forall (m : OrderBookManager.t) (lt_bid bp_ask bp_bid lt_ask : Decimal),
      OrderBookManager.is_ready m = true ->
      OrderBookManager.lighter_best_bid m = Some lt_bid ->
      OrderBookManager.backpack_best_ask m = Some bp_ask ->
      OrderBookManager.backpack_best_bid m = Some bp_bid ->
      OrderBookManager.lighter_best_ask m = Some lt_ask ->
      ~ lt_bid == 0 -> ~ bp_ask == 0 -> ~ bp_bid == 0 -> ~ lt_ask == 0 ->
      OrderBookManager.get_spread m
      = (Some (lt_bid - bp_ask), Some (bp_bid - lt_ask)))
  /\ OrderBookManager.get_spread (quoted 100 101 106 107) = (Some 5, Some (-7))
  /\ (forall (self : Arb.BackpackLighterArb) (long_spread short_spread : option Decimal),
        (Arb.signal self long_spread short_spread = "LONG_BACKPACK" ->
         exists s, long_spread = Some s /\ Arb.long_threshold self < s)
        /\ (Arb.signal self long_spread short_spread = "SHORT_BACKPACK" ->
            exists s, short_spread = Some s /\ Arb.short_threshold self < s)
        /\ (Arb.signal self long_spread short_spread = "LONG_BACKPACK"
            \/ Arb.signal self long_spread short_spread = "SHORT_BACKPACK"
            \/ Arb.signal self long_spread short_spread = "NONE"))
  /\ (let self := bot_with (quoted 100 101 106 107) in
      let spreads := OrderBookManager.get_spread (Arb.order_book_manager self) in
      Arb.signal self (fst spreads) (snd spreads) = "NONE")
  /\ (let self := bot_with (quoted 100 101 106.01 107) in
      let spreads := OrderBookManager.get_spread (Arb.order_book_manager self) in
      fst spreads = Some 5.01
      /\ Arb.signal self (fst spreads) (snd spreads) = "LONG_BACKPACK").
Proof.
  split; [|split; [|split; [|split]]].
  - intros m lt_bid bp_ask bp_bid lt_ask Hready Hlb Hba Hbb Hla Nlb Nba Nbb Nla.
    unfold OrderBookManager.get_spread.
    rewrite Hready, Hlb, Hba, Hbb, Hla.
    rewrite !truthy_Some by assumption. reflexivity.
  - vm_compute. reflexivity.
  - intros self long_spread short_spread. unfold Arb.signal.
    destruct (Arb.exceeds long_spread (Arb.long_threshold self)) eqn:EL;
      [|destruct (Arb.exceeds short_spread (Arb.short_threshold self)) eqn:ES].
    + split; [intros _; now apply exceeds_strict|].
      split; [discriminate|]. now left.
    + split; [discriminate|].
      split; [intros _; now apply exceeds_strict|]. right; now left.
    + split; [discriminate|]. split; [discriminate|]. right; now right.
  - vm_compute. reflexivity.
  - vm_compute. split; reflexivity.
Qed.

(** The quotes of the example are present and not zero. *)
Lemma get_spread_exact_and_signal_strict_witness :
  OrderBookManager.get_spread (quoted 100 101 106 107)
  = (Some (106 - 101), Some (100 - 107)).
Proof.
  apply (proj1 get_spread_exact_and_signal_strict
           (quoted 100 101 106 107) 106 101 100 107);
    try reflexivity; intros H; discriminate H.
Defined.

(** *** place_market_order *)

(** Case analysis on whatever the goal still matches on or tests. *)
Ltac split_cases :=
  repeat match goal with
         | |- context [match ?x with _ => _ end] =>
             lazymatch x with
             | context [match _ with _ => _ end] => fail
             | _ => destruct x eqn:?
             end
         end.

Lemma backpack_place_market_order_returns
    (str_upper : string -> string) (decimal_div : Decimal -> Decimal -> Decimal)
    (execute_order : string -> Decimal -> outcome Backpack.api_result)
    (quantity : Decimal) (side : string) :
  exists r,
    Backpack.place_market_order str_upper decimal_div execute_order quantity side
    = Return r
    /\ (valid_side side = false -> success r = false)
    /\ (backpack_rejects (execute_order (backpack_order_side side) quantity) = true ->
        success r = false)
    /\ (backpack_not_filled str_upper
          (execute_order (backpack_order_side side) quantity) = true ->
        success r = false).
Proof.
  unfold Backpack.place_market_order, Backpack.place_market_order_body,
    valid_side, backpack_order_side, backpack_rejects, backpack_not_filled,
    try_except, bind, to_Decimal.
  split_cases; eexists; (split; [reflexivity|]); cbn;
    repeat split; intros; try reflexivity; try discriminate.
Qed.

Lemma lighter_place_market_order_returns
    (has_client : bool) (initialize : outcome unit)
    (bbo : retry_run (Decimal * Decimal))
    (base_amount_multiplier price_multiplier : option Z) (now_ms : Z)
    (create_order : Lighter.order_request -> outcome (option string))
    (quantity : Decimal) (side : string) :
  exists r,
    Lighter.place_market_order has_client initialize bbo base_amount_multiplier
      price_multiplier now_ms create_order quantity side = Return r
    /\ (valid_side side = false -> success r = false)
    /\ (forall best_bid best_ask bm pm,
          outcome_of bbo = Return (best_bid, best_ask) ->
          base_amount_multiplier = Some bm ->
          price_multiplier = Some pm ->
          lighter_rejects
            (create_order
               (lighter_request now_ms bm pm quantity side best_bid best_ask))
          = true ->
          success r = false).
Proof.
  unfold Lighter.place_market_order, Lighter.place_market_order_body,
    valid_side, lighter_rejects, lighter_request, lighter_order_price,
    try_except, bind, Lighter.times.
  destruct (lower side =? "buy") eqn:Eb;
    [|destruct (lower side =? "sell") eqn:Es];
    split_cases; eexists; (split; [reflexivity|]); cbn;
    split; intros; try reflexivity; try discriminate;
    repeat match goal with
           | H : Return _ = Return _ |- _ => injection H as ? ?; subst
           | H : Some _ = Some _ |- _ => injection H as ?; subst
           end;
    cbn [negb] in *;
    match goal with
    | H : match ?c with _ => _ end = true, E : ?c = Return None |- _ =>
        rewrite E in H; discriminate H
    end.
Qed.

(** What holds of the claim on both clients: [place_market_order] returns an
    [OrderResult] whatever the quantity, the side and the behaviour of the
    venue (raised exceptions included), and never raises.  The result has
    [success = False] when the side is neither ['buy'] nor ['sell'] up to
    case, and when the venue turns the order down (Backpack: the call
    raises, gives no answer or answers with an error code; Lighter:
    [create_order] raises or returns an error for the request sent).  On
    Backpack it has [success = False] as well when the reported status does
    not read [FILLED]. *)
Lemma place_market_order_never_raises :
  (forall (str_upper : string -> string)
          (decimal_div : Decimal -> Decimal -> Decimal)
          (execute_order : string -> Decimal -> outcome Backpack.api_result)
          (quantity : Decimal) (side : string),
      exists r,
        Backpack.place_market_order str_upper decimal_div execute_order
          quantity side = Return r
        /\ (valid_side side = false -> success r = false)
        /\ (backpack_rejects (execute_order (backpack_order_side side) quantity)
            = true -> success r = false)
        /\ (backpack_not_filled str_upper
              (execute_order (backpack_order_side side) quantity)
            = true -> success r = false))
  /\ (forall (has_client : bool) (initialize : outcome unit)
             (bbo : retry_run (Decimal * Decimal))
             (base_amount_multiplier price_multiplier : option Z) (now_ms : Z)
             (create_order : Lighter.order_request -> outcome (option string))
             (quantity : Decimal) (side : string),
         exists r,
           Lighter.place_market_order has_client initialize bbo
             base_amount_multiplier price_multiplier now_ms create_order
             quantity side = Return r
           /\ (valid_side side = false -> success r = false)
           /\ (forall best_bid best_ask bm pm,
                 outcome_of bbo = Return (best_bid, best_ask) ->
                 base_amount_multiplier = Some bm ->
                 price_multiplier = Some pm ->
                 lighter_rejects
                   (create_order
                      (lighter_request now_ms bm pm quantity side
                         best_bid best_ask))
                 = true ->
                 success r = false)).
Proof.
  split.
  - exact backpack_place_market_order_returns.
  - exact lighter_place_market_order_returns.
Qed.

(** Each hypothesis is met: a side ['hold'], a Backpack error answer, a
    Backpack order reported as [New], and a Lighter venue that refuses the
    request sent for the quote (3000, 3001). *)
Lemma place_market_order_never_raises_examples :
  (exists r, Backpack.place_market_order ascii_upper Qdiv backpack_says_new
               1 "hold" = Return r
             /\ success r = false)
  /\ (exists r, Backpack.place_market_order ascii_upper Qdiv backpack_says_error
                  1 "Buy" = Return r
                /\ success r = false)
  /\ (exists r, Backpack.place_market_order ascii_upper Qdiv backpack_says_new
                  1 "SELL" = Return r
                /\ success r = false)
  /\ (exists r, Lighter.place_market_order true (Return tt) lighter_quote
                  (Some 10000%Z) (Some 100%Z) 1700000000123 lighter_accepts
                  1 "hold" = Return r
                /\ success r = false)
  /\ (exists r, Lighter.place_market_order true (Return tt) lighter_quote
                  (Some 10000%Z) (Some 100%Z) 1700000000123
                  (lighter_refuses_only
                     (lighter_request 1700000000123 10000 100 1 "buy" 3000 3001))
                  1 "buy" = Return r
                /\ success r = false).
Proof.
  repeat split.
  - destruct (proj1 place_market_order_never_raises ascii_upper Qdiv
                backpack_says_new 1 "hold") as [r [E [H _]]].
    exists r. split; [exact E | apply H; reflexivity].
  - destruct (proj1 place_market_order_never_raises ascii_upper Qdiv
                backpack_says_error 1 "Buy") as [r [E [_ [H _]]]].
    exists r. split; [exact E | apply H; reflexivity].
  - destruct (proj1 place_market_order_never_raises ascii_upper Qdiv
                backpack_says_new 1 "SELL") as [r [E [_ [_ H]]]].
    exists r. split; [exact E | apply H; reflexivity].
  - destruct (proj2 place_market_order_never_raises true (Return tt) lighter_quote
                (Some 10000%Z) (Some 100%Z) 1700000000123%Z lighter_accepts
                1 "hold") as [r [E [H _]]].
    exists r. split; [exact E | apply H; reflexivity].
  - destruct (proj2 place_market_order_never_raises true (Return tt) lighter_quote
                (Some 10000%Z) (Some 100%Z) 1700000000123%Z
                (lighter_refuses_only
                   (lighter_request 1700000000123 10000 100 1 "buy" 3000 3001))
                1 "buy") as [r [E [_ H]]].
    exists r. split; [exact E|].
    apply (H 3000 3001 10000%Z 100%Z); reflexivity.
Defined.

(** C4.  The claim fails on the Lighter client for an order that the venue
    accepts and does not fill.  With the quote (3000, 3001), a buy of 1 is
    sent as a limit order at 3007.002; the venue returns no error and the
    order is still open when the two seconds of waiting are over.
    [place_market_order] reads no status from the venue and returns a
    success that says [FILLED] for the whole quantity; it returns the same
    whatever status the accepted order has on the venue. *)
Theorem lighter_reports_open_order_as_filled :
  let request := lighter_request 1700000000123 10000 100 1 "buy" 3000 3001 in
  let reported :=
    {| success := true; order_id := Some "123"; side := Some "buy";
       size := Some 1; price := Some (3001 * 1.002); status := Some "FILLED";
       error_message := None; filled_size := Some 1;
       avg_price := Some (3001 * 1.002) |} in
  create_order_answer lighter_resting_venue request = Return None
  /\ status_after_wait lighter_resting_venue request = "open"
  /\ Lighter.place_market_order true (Return tt) lighter_quote
       (Some 10000%Z) (Some 100%Z) 1700000000123
       (create_order_answer lighter_resting_venue) 1 "buy"
     = Return reported
  /\ forall status_on_venue : Lighter.order_request -> string,
       Lighter.place_market_order true (Return tt) lighter_quote
         (Some 10000%Z) (Some 100%Z) 1700000000123
         (create_order_answer
            {| create_order_answer := fun _ => Return None;
               status_after_wait := status_on_venue |}) 1 "buy"
       = Return reported.
Proof.
  cbv zeta. repeat split; reflexivity.
Qed.

(** *** query_retry *)

Section RetryExhaustion.

Context {A : Type}.
Variable retry_if : exn -> bool.
Variables min_wait max_wait : Q.
Variable callback : exn -> A.
Variable op : nat -> outcome A.
Hypothesis failing : always_fails retry_if op.

(** An operation that keeps failing is invoked once per allowed attempt, and
    the callback supplies the result. *)
Lemma retrying_exhausts (remaining attempt_number : nat) :
  let run := retrying retry_if min_wait max_wait (Some callback) op
               attempt_number remaining in
  invocations run = S remaining
  /\ List.length (sleeps run) = remaining
  /\ exists e, outcome_of run = Return (callback e).
Proof.
  revert attempt_number.
  induction remaining as [|remaining IH]; intros attempt_number;
    destruct (failing attempt_number) as [e [Hop Hretry]];
    cbn; rewrite Hop, Hretry.
  - cbn. repeat split. now exists e.
  - destruct (IH (S attempt_number)) as [Hn [Hs [e' He']]].
    cbn. rewrite Hn, Hs. repeat split. now exists e'.
Qed.

End RetryExhaustion.

Lemma query_retry_exhausts {A : Type} (default_return : A)
    (exception_type : exn -> bool) (max_attempts : nat) (min_wait max_wait : Q)
    (reraise : bool) (op : nat -> outcome A) :
  always_fails exception_type op ->
  let run := query_retry default_return exception_type max_attempts
               min_wait max_wait reraise op in
  invocations run = Nat.max 1 max_attempts
  /\ outcome_of run = Return default_return.
Proof.
  intros Hfail. unfold query_retry.
  destruct (retrying_exhausts exception_type min_wait max_wait
              (fun _ => default_return) op Hfail (max_attempts - 1) 1)
    as [Hn [_ [e He]]].
  split; [rewrite Hn; lia | exact He].
Qed.

(** Between the five attempts the wrapper sleeps 1, 2, 4 and 8 seconds. *)
Example query_retry_sleeps :
  sleeps (Lighter.fetch_bbo_prices (fun _ => None)) = [1; 2; 4; 8].
Proof. vm_compute. reflexivity. Qed.

(** C5.  Under [query_retry] with [max_attempts = 5], an operation that
    raises a retryable exception at every call is invoked exactly five times
    and the wrapper returns the configured default instead of raising.  The
    defaults configured on both exchanges are [(0, 0)] for
    [fetch_bbo_prices] and [0] for [get_position]. *)
Theorem query_retry_returns_default :
  (forall (A : Type) (default_return : A) (exception_type : exn -> bool)
          (min_wait max_wait : Q) (reraise : bool) (op : nat -> outcome A),
      always_fails exception_type op ->
      let run := query_retry default_return exception_type 5
                   min_wait max_wait reraise op in
      invocations run = 5%nat /\ outcome_of run = Return default_return)
  /\ (forall ws_manager get_depth,
         always_fails any_Exception
           (fun n => Backpack.fetch_bbo_prices_body (ws_manager n) (get_depth n)) ->
         let run := Backpack.fetch_bbo_prices ws_manager get_depth in
         invocations run = 5%nat /\ outcome_of run = Return (0, 0))
  /\ (forall ws_manager,
         always_fails any_Exception
           (fun n => Lighter.fetch_bbo_prices_body (ws_manager n)) ->
         let run := Lighter.fetch_bbo_prices ws_manager in
         invocations run = 5%nat /\ outcome_of run = Return (0, 0))
  /\ (forall contract_id get_open_positions,
         always_fails any_Exception
           (fun n => Backpack.get_position_body contract_id (get_open_positions n)) ->
         let run := Backpack.get_position contract_id get_open_positions in
         invocations run = 5%nat /\ outcome_of run = Return 0)
  /\ (forall ticker account,
         always_fails any_Exception
           (fun n => Lighter.get_position_body ticker (account n)) ->
         let run := Lighter.get_position ticker account in
         invocations run = 5%nat /\ outcome_of run = Return 0).
Proof.
  repeat split; intros;
    match goal with
    | H : always_fails _ _ |- _ =>
        apply (query_retry_exhausts _ _ 5 _ _ _ _ H)
    end.
Qed.

(** The hypothesis is met by a Lighter client without WebSocket manager and
    by a Backpack account API that keeps timing out. *)
Lemma query_retry_returns_default_witness :
  (invocations (Lighter.fetch_bbo_prices (fun _ => None)) = 5%nat
   /\ outcome_of (Lighter.fetch_bbo_prices (fun _ => None)) = Return (0, 0))
  /\ (invocations (Backpack.get_position "ETH_USDC_PERP"
                     (fun _ => Raise (mkExn "Timeout" "timed out"))) = 5%nat
      /\ outcome_of (Backpack.get_position "ETH_USDC_PERP"
                       (fun _ => Raise (mkExn "Timeout" "timed out"))) = Return 0).
Proof.
  split.
  - apply (proj1 (proj2 (proj2 query_retry_returns_default)) (fun _ => None)).
    intros n. eexists. split; reflexivity.
  - apply (proj1 (proj2 (proj2 (proj2 query_retry_returns_default)))
             "ETH_USDC_PERP" (fun _ => Raise (mkExn "Timeout" "timed out"))).
    intros n. eexists. split; reflexivity.
Defined.

(** *** The reconnect loops *)

Lemma next_delay_capped_doubling (n : nat) :
  next_delay (capped_doubling n) = capped_doubling (S n).
Proof.
  unfold next_delay, capped_doubling, max_reconnect_delay.
  rewrite Nat2Z.inj_succ, Z.pow_succ_r by lia.
  assert (0 < 2 ^ Z.of_nat n)%Z by (apply Z.pow_pos_nonneg; lia).
  lia.
Qed.

(** From a delay on the doubling-capped sequence the loop stays on it. *)
Lemma backoffs_capped_doubling (k n : nat) :
  backoffs (capped_doubling n) k = map capped_doubling (seq n k).
Proof.
  revert n. induction k as [|k IH]; intros n; cbn; [reflexivity|].
  rewrite next_delay_capped_doubling, IH. reflexivity.
Qed.

Lemma backpack_failures_back_off (fs : list failure) (d : Z) :
  Backpack.connect_from true d (map Fail fs)
  = (true, delay_after d (List.length fs), backoffs d (List.length fs)).
Proof.
  revert d. induction fs as [|f fs IH]; intros d; [reflexivity|].
  cbn [map Backpack.connect_from List.length].
  replace (Backpack.connect_iteration true d (Fail f))
    with (true, next_delay d, [d]) by (destruct f; reflexivity).
  rewrite IH. reflexivity.
Qed.

Lemma lighter_failures_back_off (fs : list failure) (d : Z) :
  Lighter.connect_from true d (map Fail fs)
  = (true, delay_after d (List.length fs), backoffs d (List.length fs)).
Proof.
  revert d. induction fs as [|f fs IH]; intros d; [reflexivity|].
  cbn [map Lighter.connect_from List.length].
  replace (Lighter.connect_iteration true d (Fail f))
    with (true, next_delay d, [d]) by (destruct f; reflexivity).
  rewrite IH. reflexivity.
Qed.

(** Once a connection has been established [self.running] is set, and the
    loops back off as their [if self.running:] block intends: whatever the
    delay was, the sleep that follows a session is 1, and the failures after
    it are followed by sleeps of 2, 4, 8, 16, 30, 30, ...  The same holds
    from the start when the first failure happens in a subscription, after
    [self.running = True]. *)
Lemma reconnect_backoff_once_running (fs : list failure) :
  (forall (running : bool) (d : Z),
      snd (Backpack.connect_from running d (Session false :: map Fail fs))
      = map capped_doubling (seq 0 (S (List.length fs)))
      /\ snd (Lighter.connect_from running d (Session false :: map Fail fs))
         = map capped_doubling (seq 0 (S (List.length fs))))
  /\ snd (Backpack.connect (Fail SubscribeRaises :: map Fail fs))
     = map capped_doubling (seq 0 (S (List.length fs)))
  /\ snd (Lighter.connect (Fail SubscribeRaises :: map Fail fs))
     = map capped_doubling (seq 0 (S (List.length fs))).
Proof.
  assert (B : forall running d a,
             Backpack.connect_iteration running d a = (true, 2%Z, [1%Z]) ->
             snd (Backpack.connect_from running d (a :: map Fail fs))
             = map capped_doubling (seq 0 (S (List.length fs)))).
  { intros running d a E. cbn [Backpack.connect_from]. rewrite E.
    rewrite backpack_failures_back_off. cbn [snd].
    change 2%Z with (capped_doubling 1).
    rewrite backoffs_capped_doubling. reflexivity. }
  assert (L : forall running d a,
             Lighter.connect_iteration running d a = (true, 2%Z, [1%Z]) ->
             snd (Lighter.connect_from running d (a :: map Fail fs))
             = map capped_doubling (seq 0 (S (List.length fs)))).
  { intros running d a E. cbn [Lighter.connect_from]. rewrite E.
    rewrite lighter_failures_back_off. cbn [snd].
    change 2%Z with (capped_doubling 1).
    rewrite backoffs_capped_doubling. reflexivity. }
  split; [|split].
  - intros running d. split; [apply B | apply L]; reflexivity.
  - apply B. reflexivity.
  - apply L. reflexivity.
Qed.

(** C6.  The claim fails on both managers before the first established
    connection.  [connect] starts with [self.running] false and sets it only
    after [websockets.connect] has returned, while the sleep and the doubling
    sit under [if self.running:].  So when [websockets.connect] raises on
    every pass from the start, no pass sleeps and the delay stays at 1,
    however many failures there are: after three consecutive failures the
    recorded backoffs are none, where the claim says 1, 2, 4, and the sixth
    failure is followed by no backoff, where the claim says 30. *)
Theorem reconnect_no_backoff_before_first_connection :
  (forall n : nat,
      Backpack.connect (repeat (Fail ConnectRaises) n) = (false, 1%Z, [])
      /\ Lighter.connect (repeat (Fail ConnectRaises) n) = (false, 1%Z, []))
  /\ snd (Backpack.connect (repeat (Fail ConnectRaises) 3)) <> [1; 2; 4]%Z
  /\ snd (Lighter.connect (repeat (Fail ConnectRaises) 3)) <> [1; 2; 4]%Z
  /\ nth_error (snd (Backpack.connect (repeat (Fail ConnectRaises) 6))) 5 = None
  /\ nth_error (snd (Lighter.connect (repeat (Fail ConnectRaises) 6))) 5 = None
  /\ map capped_doubling (seq 0 7) = [1; 2; 4; 8; 16; 30; 30]%Z.
Proof.
  split; [|repeat split; discriminate].
  intros n. unfold Backpack.connect, Lighter.connect.
  induction n as [|n [IHb IHl]]; [split; reflexivity|].
  cbn [repeat Backpack.connect_from Lighter.connect_from].
  change (Backpack.connect_iteration false 1 (Fail ConnectRaises))
    with (false, 1%Z, @nil Z).
  change (Lighter.connect_iteration false 1 (Fail ConnectRaises))
    with (false, 1%Z, @nil Z).
  cbv beta iota. rewrite IHb, IHl. split; reflexivity.
Qed.

(** *** The net position *)

Lemma execute_keeps_quantity (self : Arb.BackpackLighterArb) (e : execution) :
  Arb.order_quantity (execute self e) = Arb.order_quantity self.
Proof.
  destruct e as [[direction bp_place] lt_place].
  apply (execute_arbitrage_keeps_settings self bp_place lt_place direction).
Qed.

(** One jointly successful execution adds the quantity to one venue and
    takes it from the other. *)
Lemma execute_hedged (self : Arb.BackpackLighterArb) (e : execution) :
  both_succeeded (Arb.order_quantity self) e = true ->
  net_position (execute self e) == net_position self.
Proof.
  destruct e as [[direction bp_place] lt_place].
  unfold both_succeeded, execute, net_position, Arb._execute_arbitrage.
  destruct (direction =? "LONG_BACKPACK"); cbv zeta beta iota;
    intros H; rewrite H; cbn;
    unfold PositionTracker.get_net_position; cbn; ring.
Qed.

Lemma execute_all_hedged (es : list execution) :
  forall self : Arb.BackpackLighterArb,
    Forall (fun e => both_succeeded (Arb.order_quantity self) e = true) es ->
    net_position (execute_all self es) == net_position self.
Proof.
  unfold execute_all.
  induction es as [|e es IH]; intros self Hall; cbn.
  - reflexivity.
  - inversion Hall as [|e' es' He Hes]; subst.
    rewrite IH.
    + now apply execute_hedged.
    + rewrite execute_keeps_quantity. exact Hes.
Qed.

(** C7.  A jointly successful [_execute_arbitrage] leaves the net position
    ([get_net_position], Backpack plus Lighter) as it was, since it adds the
    quantity to one venue and subtracts it from the other; so after any
    sequence of jointly successful executions, whatever their directions,
    the net position equals its value before the sequence and differs from
    it by no more than any tolerance. *)
Theorem net_position_preserved :
  forall (self : Arb.BackpackLighterArb) (es : list execution),
    Forall (fun e => both_succeeded (Arb.order_quantity self) e = true) es ->
    net_position (execute_all self es) == net_position self
    /\ forall tolerance : Decimal,
         0 <= tolerance ->
         Qabs (net_position (execute_all self es) - net_position self)
         <= tolerance.
Proof.
  intros self es Hall.
  pose proof (execute_all_hedged es self Hall) as Hnet.
  split; [exact Hnet|].
  intros tolerance Htol.
  assert (Hzero : net_position (execute_all self es) - net_position self == 0)
    by (rewrite Hnet; ring).
  rewrite Hzero. exact Htol.
Qed.

(** Four filled executions in alternating directions, from a position of
    0.05 on Backpack hedged on Lighter. *)
Lemma net_position_preserved_witness :
  let self := bot_at 0.1 0.05 0.05 in
  let es := [("LONG_BACKPACK", fills, fills); ("SHORT_BACKPACK", fills, fills);
             ("LONG_BACKPACK", fills, fills); ("SHORT_BACKPACK", fills, fills)] in
  net_position (execute_all self es) == net_position self
  /\ Qabs (net_position (execute_all self es) - net_position self) <= 0.001.
Proof.
  intros self es.
  destruct (net_position_preserved self es) as [Hnet Htol].
  - repeat constructor.
  - split; [exact Hnet | apply Htol; discriminate].
Defined.

(** *** Readiness *)

Lemma update_order_books_touches_manager_only
    (self : Arb.BackpackLighterArb)
    (bp_ws : option Backpack.WebSocketManager)
    (lt_ws : option Lighter.WebSocketManager) :
  no_trade self (Arb._update_order_books self bp_ws lt_ws).
Proof. unfold no_trade, Arb._update_order_books. cbn. repeat split. Qed.

(** A venue is ready after [_update_order_books] when it was before or when
    its WebSocket manager holds a complete quote. *)
Lemma update_order_books_ready
    (self : Arb.BackpackLighterArb)
    (bp_ws : option Backpack.WebSocketManager)
    (lt_ws : option Lighter.WebSocketManager) :
  let m := Arb.order_book_manager self in
  let m' := Arb.order_book_manager (Arb._update_order_books self bp_ws lt_ws) in
  OrderBookManager.backpack_ready m'
  = (OrderBookManager.backpack_ready m || backpack_quote_complete bp_ws)%bool
  /\ OrderBookManager.lighter_ready m'
     = (OrderBookManager.lighter_ready m || lighter_quote_complete lt_ws)%bool.
Proof.
  unfold Arb._update_order_books, backpack_quote_complete, lighter_quote_complete.
  destruct bp_ws as [[[bb|] [ba|] rb]|], lt_ws as [[lbids lasks [lb|] [la|] rl sl ol]|];
    cbn [Backpack.best_bid Backpack.best_ask Lighter.best_bid Lighter.best_ask];
    repeat match goal with
           | |- context [truthy (Some ?d)] => destruct (truthy (Some d))
           end;
    cbn;
    destruct (OrderBookManager.backpack_ready (Arb.order_book_manager self));
    destruct (OrderBookManager.lighter_ready (Arb.order_book_manager self));
    split; reflexivity.
Qed.

Lemma not_ready_no_trade
    (self : Arb.BackpackLighterArb)
    (bp_ws : option Backpack.WebSocketManager)
    (lt_ws : option Lighter.WebSocketManager)
    (bp_place lt_place : Decimal -> string -> outcome OrderResult) :
  OrderBookManager.is_ready
    (Arb.order_book_manager (Arb._update_order_books self bp_ws lt_ws)) = false ->
  Arb.trading_loop_iteration self bp_ws lt_ws bp_place lt_place
  = Arb._update_order_books self bp_ws lt_ws.
Proof.
  intros H. unfold Arb.trading_loop_iteration. rewrite H. reflexivity.
Qed.

(** C8.  When the ready flag of either exchange is false, [get_spread]
    returns [(None, None)] (neither zeros nor an exception), which the
    trading loop reads as signal [NONE]; and a pass of the trading loop in
    which a venue is still not ready (it was not before the pass and its
    WebSocket manager holds no complete bid/ask pair) places no order and
    changes neither the counters nor the positions. *)
Theorem not_ready_no_signal :
  (forall m : OrderBookManager.t,
      OrderBookManager.backpack_ready m = false
      \/ OrderBookManager.lighter_ready m = false ->
      OrderBookManager.get_spread m = (None, None))
  /\ (forall self : Arb.BackpackLighterArb, Arb.signal self None None = "NONE")
  /\ (forall (self : Arb.BackpackLighterArb)
             (bp_ws : option Backpack.WebSocketManager)
             (lt_ws : option Lighter.WebSocketManager)
             (bp_place lt_place : Decimal -> string -> outcome OrderResult),
         (OrderBookManager.backpack_ready (Arb.order_book_manager self) = false
          /\ backpack_quote_complete bp_ws = false)
         \/ (OrderBookManager.lighter_ready (Arb.order_book_manager self) = false
             /\ lighter_quote_complete lt_ws = false) ->
         let self' := Arb.trading_loop_iteration self bp_ws lt_ws bp_place lt_place in
         OrderBookManager.is_ready (Arb.order_book_manager self') = false
         /\ no_trade self self').
Proof.
  split; [|split].
  - intros m H. unfold OrderBookManager.get_spread, OrderBookManager.is_ready.
    destruct H as [H | H]; rewrite H;
      [|rewrite andb_false_r]; reflexivity.
  - reflexivity.
  - intros self bp_ws lt_ws bp_place lt_place H.
    destruct (update_order_books_ready self bp_ws lt_ws) as [Hb Hl].
    assert (Hnot : OrderBookManager.is_ready
                     (Arb.order_book_manager
                        (Arb._update_order_books self bp_ws lt_ws)) = false).
    { unfold OrderBookManager.is_ready. rewrite Hb, Hl.
      destruct H as [[H1 H2] | [H1 H2]]; rewrite H1, H2;
        [|rewrite andb_false_r]; reflexivity. }
    cbv zeta. rewrite (not_ready_no_trade _ _ _ _ _ Hnot).
    split; [exact Hnot | apply update_order_books_touches_manager_only].
Qed.

(** At the first pass the Lighter manager has a quote and the Backpack
    manager has none yet. *)
Lemma not_ready_no_signal_witness :
  let lt_ws := Some {| Lighter.bids := []; Lighter.asks := [];
                       Lighter.best_bid := Some 3000;
                       Lighter.best_ask := Some 3001;
                       Lighter.order_book_ready := true;
                       Lighter.snapshot_loaded := true;
                       Lighter.order_book_offset := None |} in
  let bp_ws := Some {| Backpack.best_bid := Some 2990;
                       Backpack.best_ask := None;
                       Backpack.order_book_ready := false |} in
  OrderBookManager.get_spread OrderBookManager.init = (None, None)
  /\ no_trade (Arb.init 0.05 5 5 0)
       (Arb.trading_loop_iteration (Arb.init 0.05 5 5 0) bp_ws lt_ws fills fills).
Proof.
  intros lt_ws bp_ws. split.
  - apply (proj1 not_ready_no_signal). left. reflexivity.
  - apply (proj2 (proj2 not_ready_no_signal) (Arb.init 0.05 5 5 0) bp_ws lt_ws
             fills fills).
    left. split; reflexivity.
Defined.

(** *** The Lighter order book *)

Lemma max_from_In (levels : list (Q * Q)) :
  forall best, In (Lighter.max_from best levels) (best :: levels).
Proof.
  induction levels as [|x levels IH]; intros best; cbn; [now left|].
  destruct (negb (Qle_bool (fst x) (fst best))).
  - right. apply IH.
  - destruct (IH best) as [H | H]; [now left | right; now right].
Qed.

Lemma max_from_upper (levels : list (Q * Q)) :
  forall best x, In x (best :: levels) ->
                 fst x <= fst (Lighter.max_from best levels).
Proof.
  induction levels as [|y levels IH]; intros best x Hx.
  - destruct Hx as [<- | []]. cbn. apply Qle_refl.
  - cbn [Lighter.max_from].
    destruct (Qle_bool (fst y) (fst best)) eqn:E; cbn [negb].
    + apply Qle_bool_iff in E.
      destruct Hx as [<- | [<- | Hx]].
      * apply IH. now left.
      * apply Qle_trans with (fst best); [exact E | apply IH; now left].
      * apply IH. now right.
    + assert (L : fst best < fst y).
      { apply Qnot_le_lt. intros L. apply Qle_bool_iff in L. congruence. }
      destruct Hx as [<- | [<- | Hx]].
      * apply Qle_trans with (fst y);
          [apply Qlt_le_weak; exact L | apply IH; now left].
      * apply IH. now left.
      * apply IH. now right.
Qed.

Lemma min_from_In (levels : list (Q * Q)) :
  forall best, In (Lighter.min_from best levels) (best :: levels).
Proof.
  induction levels as [|x levels IH]; intros best; cbn; [now left|].
  destruct (negb (Qle_bool (fst best) (fst x))).
  - right. apply IH.
  - destruct (IH best) as [H | H]; [now left | right; now right].
Qed.

Lemma min_from_lower (levels : list (Q * Q)) :
  forall best x, In x (best :: levels) ->
                 fst (Lighter.min_from best levels) <= fst x.
Proof.
  induction levels as [|y levels IH]; intros best x Hx.
  - destruct Hx as [<- | []]. cbn. apply Qle_refl.
  - cbn [Lighter.min_from].
    destruct (Qle_bool (fst best) (fst y)) eqn:E; cbn [negb].
    + apply Qle_bool_iff in E.
      destruct Hx as [<- | [<- | Hx]].
      * apply IH. now left.
      * apply Qle_trans with (fst best); [apply IH; now left | exact E].
      * apply IH. now right.
    + assert (L : fst y < fst best).
      { apply Qnot_le_lt. intros L. apply Qle_bool_iff in L. congruence. }
      destruct Hx as [<- | [<- | Hx]].
      * apply Qle_trans with (fst y);
          [apply IH; now left | apply Qlt_le_weak; exact L].
      * apply IH. now left.
      * apply IH. now right.
Qed.

Section BestLevels.

Variable fmul : Q -> Q -> Q.

Lemma sufficient_cutoff (p s : Q) :
  Lighter.sufficient fmul (p, s) = true <-> 10000 <= fmul s p.
Proof. unfold Lighter.sufficient. cbn [fst snd]. apply Qle_bool_iff. Qed.

Lemma filter_sufficient_nil (side : Lighter.book_side) :
  filter (Lighter.sufficient fmul) side = [] <->
  forall p s, In (p, s) side -> fmul s p < 10000.
Proof.
  induction side as [|[p0 s0] side IH]; cbn [filter].
  - split; [intros _ p s [] | reflexivity].
  - destruct (Lighter.sufficient fmul (p0, s0)) eqn:E.
    + split; [discriminate|]. intros H. exfalso.
      apply sufficient_cutoff in E.
      exact (Qlt_not_le _ _ (H p0 s0 (or_introl eq_refl)) E).
    + rewrite IH. split.
      * intros H p s [Heq | Hin]; [|now apply H].
        injection Heq as <- <-. apply Qnot_le_lt. intros L.
        apply sufficient_cutoff in L. congruence.
      * intros H p s Hin. apply H. now right.
Qed.

Lemma get_best_levels_bid (ws : Lighter.WebSocketManager) :
  is_best_bid fmul (Lighter.bids ws) (fst (Lighter._get_best_levels fmul ws)).
Proof.
  unfold Lighter._get_best_levels. cbn [fst].
  destruct (Lighter.bids ws) as [|l0 side0] eqn:Eside; [intros p s []|].
  rewrite <- Eside. clear Eside l0 side0.
  destruct (filter (Lighter.sufficient fmul) (Lighter.bids ws))
    as [|x rest] eqn:E.
  - exact (proj1 (filter_sufficient_nil _) E).
  - assert (Hin : forall y, In y (x :: rest) ->
                            In y (Lighter.bids ws)
                            /\ Lighter.sufficient fmul y = true)
      by (intros y Hy; rewrite <- E in Hy; now apply filter_In in Hy).
    split.
    + exists (snd (Lighter.max_from x rest)).
      rewrite <- surjective_pairing.
      destruct (Hin _ (max_from_In rest x)) as [H1 H2].
      split; [exact H1|].
      rewrite (surjective_pairing (Lighter.max_from x rest)) in H2.
      now apply sufficient_cutoff.
    + intros p s Hp Hs.
      apply (max_from_upper rest x (p, s)).
      rewrite <- E. apply filter_In. split; [exact Hp|].
      now apply sufficient_cutoff.
Qed.

Lemma get_best_levels_ask (ws : Lighter.WebSocketManager) :
  is_best_ask fmul (Lighter.asks ws) (snd (Lighter._get_best_levels fmul ws)).
Proof.
  unfold Lighter._get_best_levels. cbn [snd].
  destruct (Lighter.asks ws) as [|l0 side0] eqn:Eside; [intros p s []|].
  rewrite <- Eside. clear Eside l0 side0.
  destruct (filter (Lighter.sufficient fmul) (Lighter.asks ws))
    as [|x rest] eqn:E.
  - exact (proj1 (filter_sufficient_nil _) E).
  - assert (Hin : forall y, In y (x :: rest) ->
                            In y (Lighter.asks ws)
                            /\ Lighter.sufficient fmul y = true)
      by (intros y Hy; rewrite <- E in Hy; now apply filter_In in Hy).
    split.
    + exists (snd (Lighter.min_from x rest)).
      rewrite <- surjective_pairing.
      destruct (Hin _ (min_from_In rest x)) as [H1 H2].
      split; [exact H1|].
      rewrite (surjective_pairing (Lighter.min_from x rest)) in H2.
      now apply sufficient_cutoff.
    + intros p s Hp Hs.
      apply (min_from_lower rest x (p, s)).
      rewrite <- E. apply filter_In. split; [exact Hp|].
      now apply sufficient_cutoff.
Qed.

(** When every level of a side is below the cutoff, [_get_best_levels]
    gives [None] for it. *)
Lemma get_best_levels_none (ws : Lighter.WebSocketManager) :
  ((forall p s, In (p, s) (Lighter.bids ws) -> fmul s p < 10000) ->
   fst (Lighter._get_best_levels fmul ws) = None)
  /\ ((forall p s, In (p, s) (Lighter.asks ws) -> fmul s p < 10000) ->
      snd (Lighter._get_best_levels fmul ws) = None).
Proof.
  unfold Lighter._get_best_levels. cbn [fst snd].
  split; intros H; apply filter_sufficient_nil in H; rewrite H;
    match goal with |- match ?side with _ => _ end = _ => destruct side end;
    reflexivity.
Qed.

End BestLevels.

Lemma handle_update_book (fmul : Q -> Q -> Q) (ws : Lighter.WebSocketManager)
    (bid_updates ask_updates : list Lighter.update) :
  Lighter.snapshot_loaded ws = true ->
  let ws' := fst (Lighter._handle_message fmul ws
                    (Lighter.Update_order_book bid_updates ask_updates)) in
  let best := Lighter._get_best_levels fmul ws' in
  Lighter.bids ws' = Lighter._update_order_book (Lighter.bids ws) bid_updates
  /\ Lighter.asks ws' = Lighter._update_order_book (Lighter.asks ws) ask_updates
  /\ Lighter.best_bid ws'
     = (if truthy (fst best) then fst best else Lighter.best_bid ws)
  /\ Lighter.best_ask ws'
     = (if truthy (snd best) then snd best else Lighter.best_ask ws).
Proof.
  intros Hloaded. unfold Lighter._handle_message. rewrite Hloaded.
  match goal with
  | |- context [let '(_, _) := ?b in _] => destruct b as [new_bid new_ask] eqn:E
  end.
  cbn [fst]. unfold Lighter._get_best_levels in *.
  cbn [Lighter.bids Lighter.asks Lighter.best_bid Lighter.best_ask fst snd] in *.
  injection E as Eb Ea. rewrite Eb, Ea. repeat split.
Qed.

(** C9.  When the Lighter manager handles an order-book update, the best
    bid it computes over the updated book is the highest price among the bid
    levels whose notional (size times price) is at least 10000, and the best
    ask the lowest price among such ask levels; the levels below 10000 take
    no part, and a level of exactly 10000 does.  A best value that is not
    zero replaces the published one.  When the notional of every level of a
    side is below 10000, the value published before for that side stays as
    it was instead of being cleared to [None]. *)
Theorem lighter_best_levels_filtered :
  forall (fmul : Q -> Q -> Q) (ws : Lighter.WebSocketManager)
         (bid_updates ask_updates : list Lighter.update),
    Lighter.snapshot_loaded ws = true ->
    let ws' := fst (Lighter._handle_message fmul ws
                      (Lighter.Update_order_book bid_updates ask_updates)) in
    let best := Lighter._get_best_levels fmul ws' in
    Lighter.bids ws' = Lighter._update_order_book (Lighter.bids ws) bid_updates
    /\ Lighter.asks ws' = Lighter._update_order_book (Lighter.asks ws) ask_updates
    /\ is_best_bid fmul (Lighter.bids ws') (fst best)
    /\ is_best_ask fmul (Lighter.asks ws') (snd best)
    /\ (forall b, fst best = Some b -> ~ b == 0 -> Lighter.best_bid ws' = Some b)
    /\ (forall a, snd best = Some a -> ~ a == 0 -> Lighter.best_ask ws' = Some a)
    /\ ((forall p s, In (p, s) (Lighter.bids ws') -> fmul s p < 10000) ->
        Lighter.best_bid ws' = Lighter.best_bid ws)
    /\ ((forall p s, In (p, s) (Lighter.asks ws') -> fmul s p < 10000) ->
        Lighter.best_ask ws' = Lighter.best_ask ws).
Proof.
  intros fmul ws bid_updates ask_updates Hloaded ws' best.
  destruct (handle_update_book fmul ws bid_updates ask_updates Hloaded)
    as [Hbids [Hasks [Hbid Hask]]].
  fold ws' in Hbids, Hasks, Hbid, Hask. fold best in Hbid, Hask.
  split; [exact Hbids|]. split; [exact Hasks|].
  split; [apply get_best_levels_bid|]. split; [apply get_best_levels_ask|].
  split; [|split; [|split]].
  - intros b Hb Nb. rewrite Hbid, Hb, truthy_Some by exact Nb. reflexivity.
  - intros a Ha Na. rewrite Hask, Ha, truthy_Some by exact Na. reflexivity.
  - intros H. apply (get_best_levels_none fmul ws') in H.
    fold best in H. rewrite Hbid, H. reflexivity.
  - intros H. apply (get_best_levels_none fmul ws') in H.
    fold best in H. rewrite Hask, H. reflexivity.
Qed.

(** With the exact product.  The book holds a bid of 3000 for 5 (notional
    15000) and one of 3005 for 1; the update adds bids of 3010 for 2
    (notional 6020) and of 2500 for 4, and an ask of 4000 for 2.5 (notional
    exactly 10000) beside asks of 3999 for 2 (notional 7998) and 4001 for 5.
    The published bid becomes 3000, although 3005 and 3010 are higher, and
    the published ask 4000, although 3999 is lower.  A second update shrinks
    the bids of 3000 and 2500: no bid reaches 10000 any more, and the
    published bid stays 3000. *)
Lemma lighter_best_levels_filtered_witness :
  let ws := lighter_book [(3000, 5); (3005, 1)] [(4001, 5); (3999, 2)]
              (Some 2990) (Some 4010) in
  let ws' := fst (Lighter._handle_message Qmult ws
                    (Lighter.Update_order_book
                       [Some (3010, 2); Some (2500, 4)] [Some (4000, 2.5)])) in
  let ws'' := fst (Lighter._handle_message Qmult ws'
                     (Lighter.Update_order_book
                        [Some (3000, 3); Some (2500, 1)] [])) in
  (Lighter.best_bid ws' = Some 3000 /\ Lighter.best_ask ws' = Some 4000)
  /\ Lighter.best_bid ws'' = Some 3000.
Proof.
  intros ws ws' ws''.
  assert (H' : Lighter.best_bid ws' = Some 3000 /\ Lighter.best_ask ws' = Some 4000).
  { destruct (lighter_best_levels_filtered Qmult ws
                [Some (3010, 2); Some (2500, 4)] [Some (4000, 2.5)] eq_refl)
      as (_ & _ & _ & _ & Hbid & Hask & _).
    split.
    - apply Hbid; [reflexivity | discriminate].
    - apply Hask; [reflexivity | discriminate]. }
  split; [exact H'|].
  destruct (lighter_best_levels_filtered Qmult ws'
              [Some (3000, 3); Some (2500, 1)] [] eq_refl)
    as (Hbids & _ & _ & _ & _ & _ & Hkeep & _).
  fold ws'' in Hbids, Hkeep.
  rewrite Hkeep; [exact (proj1 H')|].
  rewrite Hbids. intros p s Hin.
  vm_compute in Hin.
  repeat (destruct Hin as [Hin | Hin];
          [injection Hin as <- <-; reflexivity|]).
  destruct Hin.
Defined.

(** *** refresh_positions *)

(** C10.  Whatever the outcomes of the two [get_position] calls,
    [refresh_positions] returns [True]; the cached position of a venue whose
    call raised stays as it was, and that of a venue whose call returned is
    overwritten with the value fetched, independently of the other venue. *)
Theorem refresh_positions_per_venue :
  forall (self : PositionTracker.t) (bp_pos lt_pos : outcome Decimal),
    let self' := fst (PositionTracker.refresh_positions self bp_pos lt_pos) in
    snd (PositionTracker.refresh_positions self bp_pos lt_pos) = true
    /\ PositionTracker.backpack_position self'
       = match bp_pos with
         | Return fetched => fetched
         | Raise _ => PositionTracker.backpack_position self
         end
    /\ PositionTracker.lighter_position self'
       = match lt_pos with
         | Return fetched => fetched
         | Raise _ => PositionTracker.lighter_position self
         end.
Proof.
  intros self [bp|e] [lt|e']; repeat split.
Qed.

(** With one call raising and the other returning, only the second cache
    changes. *)
Example refresh_positions_one_failure :
  PositionTracker.refresh_positions
    {| PositionTracker.backpack_position := 0.05;
       PositionTracker.lighter_position := -0.05 |}
    (Raise (mkExn "ConnectionError" "connection reset")) (Return (-0.1))
  = ({| PositionTracker.backpack_position := 0.05;
        PositionTracker.lighter_position := -0.1 |}, true).
Proof. reflexivity. Qed.

(** *** The quotes that reach the order-book manager *)

Lemma update_order_books_nonzero
    (self : Arb.BackpackLighterArb)
    (bp_ws : option Backpack.WebSocketManager)
    (lt_ws : option Lighter.WebSocketManager) :
  quotes_nonzero (Arb.order_book_manager self) ->
  quotes_nonzero (Arb.order_book_manager (Arb._update_order_books self bp_ws lt_ws)).
Proof.
  unfold quotes_nonzero, Arb._update_order_books.
  intros [Hb Hl].
  destruct bp_ws as [[[bb|] [ba|] rb]|], lt_ws as [[lbids lasks [lb|] [la|] rl sl ol]|];
    cbn [Backpack.best_bid Backpack.best_ask Lighter.best_bid Lighter.best_ask];
    repeat match goal with
           | |- context [truthy (Some ?d)] => destruct (truthy (Some d)) eqn:?
           end;
    cbn; split; intros; try (split; assumption); auto.
Qed.

Lemma trading_loop_iteration_manager
    (self : Arb.BackpackLighterArb)
    (bp_ws : option Backpack.WebSocketManager)
    (lt_ws : option Lighter.WebSocketManager)
    (bp_place lt_place : Decimal -> string -> outcome OrderResult) :
  Arb.order_book_manager
    (Arb.trading_loop_iteration self bp_ws lt_ws bp_place lt_place)
  = Arb.order_book_manager (Arb._update_order_books self bp_ws lt_ws).
Proof.
  unfold Arb.trading_loop_iteration.
  split_cases; try reflexivity;
    apply (execute_arbitrage_keeps_settings
             (Arb._update_order_books self bp_ws lt_ws) bp_place lt_place).
Qed.

(** Through the trading loop no zero quote reaches the manager: every ready
    venue has two quotes that are present and not zero. *)
Lemma trading_loop_quotes_nonzero (passes : list Arb.pass) :
  forall self : Arb.BackpackLighterArb,
    quotes_nonzero (Arb.order_book_manager self) ->
    quotes_nonzero (Arb.order_book_manager (Arb.trading_loop_from self passes)).
Proof.
  induction passes as [|p passes IH]; intros self H; cbn; [exact H|].
  apply IH. rewrite trading_loop_iteration_manager.
  now apply update_order_books_nonzero.
Qed.

(* ================================================================== *)
(** ** Further properties of the trading loop *)
(* ================================================================== *)

Lemma update_order_books_keeps_settings
    (self : Arb.BackpackLighterArb)
    (bp_ws : option Backpack.WebSocketManager)
    (lt_ws : option Lighter.WebSocketManager) :
  let self1 := Arb._update_order_books self bp_ws lt_ws in
  Arb.order_quantity self1 = Arb.order_quantity self
  /\ Arb.max_position self1 = Arb.max_position self
  /\ Arb.long_threshold self1 = Arb.long_threshold self
  /\ Arb.short_threshold self1 = Arb.short_threshold self.
Proof. unfold Arb._update_order_books. cbn. repeat split. Qed.

(** A pass of the trading loop either stops after [_update_order_books] or
    runs [_execute_arbitrage] once, in the direction of the signal and only
    when both books are ready and [_can_trade] allows that direction. *)
Lemma trading_loop_iteration_cases
    (self : Arb.BackpackLighterArb)
    (bp_ws : option Backpack.WebSocketManager)
    (lt_ws : option Lighter.WebSocketManager)
    (bp_place lt_place : Decimal -> string -> outcome OrderResult) :
  let self1 := Arb._update_order_books self bp_ws lt_ws in
  let spreads := OrderBookManager.get_spread (Arb.order_book_manager self1) in
  Arb.trading_loop_iteration self bp_ws lt_ws bp_place lt_place = self1
  \/ exists direction,
       (direction = "LONG_BACKPACK" \/ direction = "SHORT_BACKPACK")
       /\ OrderBookManager.is_ready (Arb.order_book_manager self1) = true
       /\ Arb.signal self1 (fst spreads) (snd spreads) = direction
       /\ Arb._can_trade self1 direction = true
       /\ Arb.trading_loop_iteration self bp_ws lt_ws bp_place lt_place
          = Arb._execute_arbitrage self1 direction bp_place lt_place.
Proof.
  cbv zeta. unfold Arb.trading_loop_iteration.
  set (self1 := Arb._update_order_books self bp_ws lt_ws).
  destruct (OrderBookManager.is_ready (Arb.order_book_manager self1)) eqn:Hready;
    cbn [negb]; [|now left].
  destruct (OrderBookManager.get_spread (Arb.order_book_manager self1))
    as [long_spread short_spread].
  cbn [fst snd].
  destruct ((Arb.signal self1 long_spread short_spread =? "LONG_BACKPACK")
            && Arb._can_trade self1 "LONG_BACKPACK")%bool eqn:EL.
  - apply andb_true_iff in EL. destruct EL as [Es Ec].
    apply String.eqb_eq in Es.
    right. exists "LONG_BACKPACK". repeat split; auto.
  - destruct ((Arb.signal self1 long_spread short_spread =? "SHORT_BACKPACK")
              && Arb._can_trade self1 "SHORT_BACKPACK")%bool eqn:ES.
    + apply andb_true_iff in ES. destruct ES as [Es Ec].
      apply String.eqb_eq in Es.
      right. exists "SHORT_BACKPACK". repeat split; auto.
    + now left.
Qed.

Lemma signal_direction (self : Arb.BackpackLighterArb)
    (long_spread short_spread : option Decimal) :
  (Arb.signal self long_spread short_spread = "LONG_BACKPACK" ->
   Arb.exceeds long_spread (Arb.long_threshold self) = true)
  /\ (Arb.signal self long_spread short_spread = "SHORT_BACKPACK" ->
      Arb.exceeds long_spread (Arb.long_threshold self) = false
      /\ Arb.exceeds short_spread (Arb.short_threshold self) = true).
Proof.
  unfold Arb.signal.
  destruct (Arb.exceeds long_spread (Arb.long_threshold self));
    destruct (Arb.exceeds short_spread (Arb.short_threshold self));
    split; intros H; try discriminate H; auto.
Qed.

Lemma execute_arbitrage_placed (self : Arb.BackpackLighterArb) (direction : string)
    (bp_place lt_place : Decimal -> string -> outcome OrderResult) :
  let q := Arb.order_quantity self in
  let long := direction =? "LONG_BACKPACK" in
  Arb.placed (Arb._execute_arbitrage self direction bp_place lt_place)
  = Arb.mkPlaced Arb.Lighter_venue q (if long then "sell" else "buy")
    :: Arb.mkPlaced Arb.Backpack_venue q (if long then "buy" else "sell")
    :: Arb.placed self.
Proof.
  unfold Arb._execute_arbitrage.
  destruct (direction =? "LONG_BACKPACK"); cbv zeta beta iota;
    match goal with |- context [if ?b then _ else _] => destruct b end;
    reflexivity.
Qed.

Lemma execute_arbitrage_counters (self : Arb.BackpackLighterArb) (direction : string)
    (bp_place lt_place : Decimal -> string -> outcome OrderResult) :
  let self' := Arb._execute_arbitrage self direction bp_place lt_place in
  (Arb.successful_trades self' = Arb.successful_trades self + 1
   /\ Arb.failed_trades self' = Arb.failed_trades self)%Z
  \/ (Arb.successful_trades self' = Arb.successful_trades self
      /\ Arb.failed_trades self' = Arb.failed_trades self + 1)%Z.
Proof.
  unfold Arb._execute_arbitrage.
  destruct (direction =? "LONG_BACKPACK"); cbv zeta beta iota;
    match goal with |- context [if ?b then _ else _] => destruct b end;
    cbn; auto.
Qed.

(** X1.  A pass of the trading loop sends orders only when both order books
    are ready, the spread of the direction is strictly above its threshold
    and [_can_trade] allows the direction; it then runs one execution, which
    sends exactly one order to each venue, of the configured quantity and of
    opposite sides (buy on Backpack for the long spread, sell for the short
    one, which is only traded when the long spread is not above its
    threshold).  Otherwise nothing is sent and counters and positions stay as
    they were. *)
Theorem pass_trades_only_on_signal :
  forall (self : Arb.BackpackLighterArb)
         (bp_ws : option Backpack.WebSocketManager)
         (lt_ws : option Lighter.WebSocketManager)
         (bp_place lt_place : Decimal -> string -> outcome OrderResult),
    let self1 := Arb._update_order_books self bp_ws lt_ws in
    let spreads := OrderBookManager.get_spread (Arb.order_book_manager self1) in
    let self' := Arb.trading_loop_iteration self bp_ws lt_ws bp_place lt_place in
    let q := Arb.order_quantity self in
    no_trade self self'
    \/ (OrderBookManager.is_ready (Arb.order_book_manager self1) = true
        /\ Arb.total_trades self' = (Arb.total_trades self + 1)%Z
        /\ ((Arb.placed self'
             = Arb.mkPlaced Arb.Lighter_venue q "sell"
               :: Arb.mkPlaced Arb.Backpack_venue q "buy" :: Arb.placed self
             /\ Arb._can_trade self1 "LONG_BACKPACK" = true
             /\ exists s, fst spreads = Some s /\ Arb.long_threshold self < s)
            \/ (Arb.placed self'
                = Arb.mkPlaced Arb.Lighter_venue q "buy"
                  :: Arb.mkPlaced Arb.Backpack_venue q "sell" :: Arb.placed self
                /\ Arb._can_trade self1 "SHORT_BACKPACK" = true
                /\ Arb.exceeds (fst spreads) (Arb.long_threshold self) = false
                /\ exists s, snd spreads = Some s /\ Arb.short_threshold self < s))).
Proof.
  intros self bp_ws lt_ws bp_place lt_place self1 spreads self' q.
  destruct (trading_loop_iteration_cases self bp_ws lt_ws bp_place lt_place)
    as [E | [direction [Hdir [Hready [Hsig [Hcan E]]]]]];
    fold self1 in E; fold self' in E.
  - left. rewrite E. apply update_order_books_touches_manager_only.
  - right. fold self1 in Hready, Hsig, Hcan. fold spreads in Hsig.
    destruct (update_order_books_touches_manager_only self bp_ws lt_ws)
      as [Hplaced [Htotal _]].
    destruct (update_order_books_keeps_settings self bp_ws lt_ws)
      as [Hq [_ [Hlong Hshort]]].
    fold self1 in Hplaced, Htotal, Hq, Hlong, Hshort.
    split; [exact Hready|].
    split.
    { rewrite E, <- Htotal.
      apply (execute_arbitrage_counts_attempt self1 bp_place lt_place). }
    pose proof (execute_arbitrage_placed self1 direction bp_place lt_place) as Hp.
    rewrite <- E in Hp. cbv zeta in Hp. rewrite Hq, Hplaced in Hp. fold q in Hp.
    destruct (signal_direction self1 (fst spreads) (snd spreads)) as [HL HS].
    rewrite Hlong in HL, HS. rewrite Hshort in HS.
    destruct Hdir as [-> | ->]; [left | right]; cbn in Hp.
    + split; [exact Hp|]. split; [exact Hcan|].
      apply exceeds_strict. now apply HL.
    + split; [exact Hp|]. split; [exact Hcan|].
      destruct (HS Hsig) as [HnL HSe].
      split; [exact HnL|].
      apply exceeds_strict. exact HSe.
Qed.

Lemma trading_loop_iteration_counters
    (self : Arb.BackpackLighterArb)
    (bp_ws : option Backpack.WebSocketManager)
    (lt_ws : option Lighter.WebSocketManager)
    (bp_place lt_place : Decimal -> string -> outcome OrderResult) :
  let self' := Arb.trading_loop_iteration self bp_ws lt_ws bp_place lt_place in
  exists ds df : Z,
    (0 <= ds /\ 0 <= df /\ ds + df <= 1)%Z
    /\ Arb.total_trades self' = (Arb.total_trades self + (ds + df))%Z
    /\ Arb.successful_trades self' = (Arb.successful_trades self + ds)%Z
    /\ Arb.failed_trades self' = (Arb.failed_trades self + df)%Z
    /\ Z.of_nat (List.length (Arb.placed self'))
       = (Z.of_nat (List.length (Arb.placed self)) + 2 * (ds + df))%Z.
Proof.
  cbv zeta.
  destruct (trading_loop_iteration_cases self bp_ws lt_ws bp_place lt_place)
    as [E | [direction [_ [_ [_ [_ E]]]]]]; rewrite E.
  - exists 0%Z, 0%Z.
    destruct (update_order_books_touches_manager_only self bp_ws lt_ws)
      as [Hp [Ht [Hs [Hf _]]]].
    rewrite Hp, Ht, Hs, Hf. repeat split; lia.
  - set (self1 := Arb._update_order_books self bp_ws lt_ws).
    assert (H1 : no_trade self self1)
      by apply update_order_books_touches_manager_only.
    destruct H1 as [Hp [Ht [Hs [Hf _]]]].
    rewrite execute_arbitrage_counts_attempt, execute_arbitrage_placed.
    cbn [List.length]. rewrite Hp, Ht.
    destruct (execute_arbitrage_counters self1 direction bp_place lt_place)
      as [[Es Ef] | [Es Ef]]; rewrite Es, Ef, Hs, Hf.
    + exists 1%Z, 0%Z. repeat split; lia.
    + exists 0%Z, 1%Z. repeat split; lia.
Qed.

(** X2.  Over any number of passes of the trading loop the counters stay
    consistent: [total_trades] grows by exactly what [successful_trades] and
    [failed_trades] grow together, neither of them decreases, at most one
    trade is counted per pass, and two orders are sent per counted trade. *)
Theorem trading_loop_counters_consistent :
  forall (passes : list Arb.pass) (self : Arb.BackpackLighterArb),
    let self' := Arb.trading_loop_from self passes in
    let trades := (Arb.total_trades self' - Arb.total_trades self)%Z in
    (trades
     = (Arb.successful_trades self' - Arb.successful_trades self)
       + (Arb.failed_trades self' - Arb.failed_trades self))%Z
    /\ (Arb.successful_trades self <= Arb.successful_trades self')%Z
    /\ (Arb.failed_trades self <= Arb.failed_trades self')%Z
    /\ (0 <= trades <= Z.of_nat (List.length passes))%Z
    /\ Z.of_nat (List.length (Arb.placed self'))
       = (Z.of_nat (List.length (Arb.placed self)) + 2 * trades)%Z.
Proof.
  induction passes as [|p passes IH]; intros self.
  - cbn [Arb.trading_loop_from List.length]. cbv zeta. repeat split; lia.
  - cbn [Arb.trading_loop_from List.length].
    destruct (trading_loop_iteration_counters self (Arb.bp_ws_manager p)
                (Arb.lt_ws_manager p) (Arb.bp_answer p) (Arb.lt_answer p))
      as [ds [df [Hd [Ht [Hs [Hf Hp]]]]]].
    specialize (IH (Arb.trading_loop_iteration self (Arb.bp_ws_manager p)
                      (Arb.lt_ws_manager p) (Arb.bp_answer p) (Arb.lt_answer p))).
    cbv zeta in IH. destruct IH as [I1 [I2 [I3 [I4 I5]]]].
    cbv zeta. rewrite Ht, Hs, Hf, Hp in *.
    repeat split; lia.
Qed.

Lemma trading_loop_iteration_keeps_settings
    (self : Arb.BackpackLighterArb)
    (bp_ws : option Backpack.WebSocketManager)
    (lt_ws : option Lighter.WebSocketManager)
    (bp_place lt_place : Decimal -> string -> outcome OrderResult) :
  let self' := Arb.trading_loop_iteration self bp_ws lt_ws bp_place lt_place in
  Arb.order_quantity self' = Arb.order_quantity self
  /\ Arb.max_position self' = Arb.max_position self.
Proof.
  cbv zeta.
  destruct (update_order_books_keeps_settings self bp_ws lt_ws) as [Hq [Hm _]].
  destruct (trading_loop_iteration_cases self bp_ws lt_ws bp_place lt_place)
    as [E | [direction [_ [_ [_ [_ E]]]]]]; rewrite E.
  - now split.
  - destruct (execute_arbitrage_keeps_settings
                (Arb._update_order_books self bp_ws lt_ws) bp_place lt_place
                direction) as [Hq' [Hm' _]].
    rewrite Hq', Hm'. now split.
Qed.

(** An execution that [_can_trade] allows keeps the Backpack position within
    the limit. *)
Lemma allowed_execution_within_limit
    (self : Arb.BackpackLighterArb) (direction : string)
    (bp_place lt_place : Decimal -> string -> outcome OrderResult) :
  direction = "LONG_BACKPACK" \/ direction = "SHORT_BACKPACK" ->
  0 <= Arb.order_quantity self ->
  ~ Arb.max_position self == 0 ->
  Qabs (backpack_position_of self) <= Arb.max_position self ->
  Arb._can_trade self direction = true ->
  Qabs (backpack_position_of
          (Arb._execute_arbitrage self direction bp_place lt_place))
  <= Arb.max_position self.
Proof.
  intros Hdir Hq Hmax Hin Hcan.
  assert (Hpost :
            (direction = "LONG_BACKPACK"
             /\ backpack_position_of self + Arb.order_quantity self
                <= Arb.max_position self)
            \/ (direction = "SHORT_BACKPACK"
                /\ Qabs (backpack_position_of self - Arb.order_quantity self)
                   <= Arb.max_position self)).
  { destruct Hdir as [-> | ->]; [left | right]; (split; [reflexivity|]).
    - now apply (can_trade_long_iff self Hmax).
    - now apply (can_trade_short_iff self Hmax). }
  clear Hcan Hdir.
  unfold backpack_position_of, PositionTracker.get_backpack_position in *.
  apply Qabs_Qle_condition in Hin. destruct Hin as [Hlo Hhi].
  unfold Arb._execute_arbitrage.
  destruct Hpost as [[-> Hpost] | [-> Hpost]];
    cbv zeta beta iota; cbn [String.eqb Ascii.eqb Bool.eqb];
    match goal with |- context [if ?b then _ else _] => destruct b end;
    cbn [Arb.position_tracker PositionTracker.backpack_position
         PositionTracker.update_lighter_position
         PositionTracker.update_backpack_position];
    apply Qabs_Qle_condition.
  - split; lra.
  - split; lra.
  - apply Qabs_Qle_condition in Hpost. exact Hpost.
  - split; lra.
Qed.

Lemma trading_loop_iteration_within_limit
    (self : Arb.BackpackLighterArb)
    (bp_ws : option Backpack.WebSocketManager)
    (lt_ws : option Lighter.WebSocketManager)
    (bp_place lt_place : Decimal -> string -> outcome OrderResult) :
  0 <= Arb.order_quantity self ->
  ~ Arb.max_position self == 0 ->
  Qabs (backpack_position_of self) <= Arb.max_position self ->
  Qabs (backpack_position_of
          (Arb.trading_loop_iteration self bp_ws lt_ws bp_place lt_place))
  <= Arb.max_position self.
Proof.
  intros Hq Hmax Hin.
  destruct (update_order_books_keeps_settings self bp_ws lt_ws) as [Eq [Em _]].
  destruct (update_order_books_touches_manager_only self bp_ws lt_ws)
    as [_ [_ [_ [_ Et]]]].
  destruct (trading_loop_iteration_cases self bp_ws lt_ws bp_place lt_place)
    as [E | [direction [Hdir [_ [_ [Hcan E]]]]]]; rewrite E.
  - unfold backpack_position_of. rewrite Et. exact Hin.
  - rewrite <- Em.
    apply allowed_execution_within_limit; rewrite ?Eq, ?Em; auto.
Qed.

(** Whatever the legs do, an execution leaves the net position as it was:
    the tracker changes only on joint success, by opposite amounts. *)
Lemma execute_arbitrage_net (self : Arb.BackpackLighterArb) (direction : string)
    (bp_place lt_place : Decimal -> string -> outcome OrderResult) :
  net_position (Arb._execute_arbitrage self direction bp_place lt_place)
  == net_position self.
Proof.
  unfold net_position, Arb._execute_arbitrage.
  destruct (direction =? "LONG_BACKPACK"); cbv zeta beta iota;
    match goal with |- context [if ?b then _ else _] => destruct b end;
    cbn; unfold PositionTracker.get_net_position; cbn; ring.
Qed.

Lemma trading_loop_iteration_net
    (self : Arb.BackpackLighterArb)
    (bp_ws : option Backpack.WebSocketManager)
    (lt_ws : option Lighter.WebSocketManager)
    (bp_place lt_place : Decimal -> string -> outcome OrderResult) :
  net_position (Arb.trading_loop_iteration self bp_ws lt_ws bp_place lt_place)
  == net_position self.
Proof.
  destruct (update_order_books_touches_manager_only self bp_ws lt_ws)
    as [_ [_ [_ [_ Et]]]].
  assert (H1 : net_position (Arb._update_order_books self bp_ws lt_ws)
               == net_position self)
    by (unfold net_position; rewrite Et; reflexivity).
  destruct (trading_loop_iteration_cases self bp_ws lt_ws bp_place lt_place)
    as [E | [direction [_ [_ [_ [_ E]]]]]]; rewrite E.
  - exact H1.
  - rewrite execute_arbitrage_net. exact H1.
Qed.

Lemma trading_loop_from_net (passes : list Arb.pass) :
  forall self : Arb.BackpackLighterArb,
    net_position (Arb.trading_loop_from self passes) == net_position self.
Proof.
  induction passes as [|p passes IH]; intros self; cbn; [reflexivity|].
  rewrite IH. apply trading_loop_iteration_net.
Qed.

(** X3.  The trading loop never changes the net position: over any passes,
    whatever the quotes and whatever the venues answer (filled, rejected or
    raised legs), [get_net_position] keeps its value, and
    [is_position_balanced] gives the same answer for every tolerance. *)
Theorem trading_loop_net_position :
  forall (passes : list Arb.pass) (self : Arb.BackpackLighterArb),
    let self' := Arb.trading_loop_from self passes in
    net_position self' == net_position self
    /\ forall tolerance : Decimal,
         PositionTracker.is_position_balanced (Arb.position_tracker self') tolerance
         = PositionTracker.is_position_balanced (Arb.position_tracker self) tolerance.
Proof.
  intros passes self self'.
  assert (Hnet : net_position self' == net_position self)
    by apply trading_loop_from_net.
  split; [exact Hnet|].
  intros tolerance. unfold PositionTracker.is_position_balanced.
  unfold net_position in Hnet. rewrite Hnet. reflexivity.
Qed.

(** X4.  The position limit is kept by the loop: with a non-negative order
    quantity and a limit other than zero, a Backpack position that starts
    within the limit in absolute value is still within it after any passes;
    and when the two positions start hedged (net position zero) the Lighter
    position stays within the limit too. *)
Theorem trading_loop_within_limit :
  forall (passes : list Arb.pass) (self : Arb.BackpackLighterArb),
    0 <= Arb.order_quantity self ->
    ~ Arb.max_position self == 0 ->
    Qabs (backpack_position_of self) <= Arb.max_position self ->
    let self' := Arb.trading_loop_from self passes in
    Qabs (backpack_position_of self') <= Arb.max_position self
    /\ (net_position self == 0 ->
        Qabs (lighter_position_of self') <= Arb.max_position self).
Proof.
  intros passes self Hq Hmax Hin self'.
  assert (Hbp : Qabs (backpack_position_of self') <= Arb.max_position self).
  { subst self'. revert self Hq Hmax Hin.
    induction passes as [|p passes IH]; intros self Hq Hmax Hin; cbn;
      [exact Hin|].
    destruct (trading_loop_iteration_keeps_settings self (Arb.bp_ws_manager p)
                (Arb.lt_ws_manager p) (Arb.bp_answer p) (Arb.lt_answer p))
      as [Eq Em].
    rewrite <- Em. apply IH.
    - rewrite Eq. exact Hq.
    - rewrite Em. exact Hmax.
    - rewrite Em. now apply trading_loop_iteration_within_limit. }
  split; [exact Hbp|].
  intros Hnet.
  pose proof (trading_loop_from_net passes self) as Hnet'.
  fold self' in Hnet'. rewrite Hnet in Hnet'.
  unfold net_position, PositionTracker.get_net_position in Hnet'.
  unfold lighter_position_of, PositionTracker.get_lighter_position.
  unfold backpack_position_of, PositionTracker.get_backpack_position in Hbp.
  apply Qabs_Qle_condition in Hbp. apply Qabs_Qle_condition.
  split; lra.
Qed.

(** Three passes on a long signal from a flat book, with a limit of 0.1 and
    orders of 0.05. *)
Lemma trading_loop_within_limit_witness :
  let self := bot_at 0.1 0.05 0 in
  let passes := [quoted_pass 100 101 106.01 107; quoted_pass 100 101 106.01 107;
                 quoted_pass 100 101 106.01 107] in
  Qabs (backpack_position_of (Arb.trading_loop_from self passes)) <= 0.1
  /\ Qabs (lighter_position_of (Arb.trading_loop_from self passes)) <= 0.1.
Proof.
  intros self passes.
  destruct (trading_loop_within_limit passes self) as [Hbp Hlt].
  - vm_compute. discriminate.
  - intros H. vm_compute in H. discriminate H.
  - vm_compute. discriminate.
  - split; [exact Hbp | apply Hlt; reflexivity].
Defined.

(** The limit is reached in that run: two trades pass, the third is held. *)
Example trading_loop_stops_at_limit :
  let self' := Arb.trading_loop_from (bot_at 0.1 0.05 0)
                 [quoted_pass 100 101 106.01 107; quoted_pass 100 101 106.01 107;
                  quoted_pass 100 101 106.01 107] in
  Arb.total_trades self' = 2%Z /\ backpack_position_of self' == 0.1.
Proof. vm_compute. split; reflexivity. Qed.

(** X5.  The two spreads of [get_spread] add up to minus the sum of the two
    bid/ask widths.  So when neither book is crossed (bid at most ask on each
    venue) and both thresholds are non-negative, the long and the short
    spread are never both above their thresholds: testing the long direction
    first hides no short signal. *)
Theorem spreads_not_both_above :
  forall (self : Arb.BackpackLighterArb) (bp_bid bp_ask lt_bid lt_ask : Decimal),
    let m := Arb.order_book_manager self in
    OrderBookManager.backpack_best_bid m = Some bp_bid ->
    OrderBookManager.backpack_best_ask m = Some bp_ask ->
    OrderBookManager.lighter_best_bid m = Some lt_bid ->
    OrderBookManager.lighter_best_ask m = Some lt_ask ->
    bp_bid <= bp_ask -> lt_bid <= lt_ask ->
    0 <= Arb.long_threshold self -> 0 <= Arb.short_threshold self ->
    (forall long short,
        OrderBookManager.get_spread m = (Some long, Some short) ->
        long + short == - ((bp_ask - bp_bid) + (lt_ask - lt_bid)))
    /\ ~ (Arb.exceeds (fst (OrderBookManager.get_spread m))
            (Arb.long_threshold self) = true
          /\ Arb.exceeds (snd (OrderBookManager.get_spread m))
               (Arb.short_threshold self) = true).
Proof.
  intros self bp_bid bp_ask lt_bid lt_ask m Hbb Hba Hlb Hla Hbp Hlt HL HS.
  assert (Hsum : forall long short,
             OrderBookManager.get_spread m = (Some long, Some short) ->
             long + short == - ((bp_ask - bp_bid) + (lt_ask - lt_bid))).
  { intros long short. unfold OrderBookManager.get_spread.
    rewrite Hbb, Hba, Hlb, Hla.
    destruct (negb (OrderBookManager.is_ready m)); [discriminate|].
    match goal with |- context [if ?b then _ else _] => destruct b end;
      [|discriminate].
    intros E. injection E as <- <-. ring. }
  split; [exact Hsum|].
  intros [EL ES].
  apply exceeds_strict in EL. apply exceeds_strict in ES.
  destruct EL as [long [El Hl]]. destruct ES as [short [Es Hs]].
  specialize (Hsum long short).
  destruct (OrderBookManager.get_spread m) as [l s]. cbn in El, Es. subst l s.
  specialize (Hsum eq_refl). lra.
Qed.

Lemma spreads_not_both_above_witness :
  let self := bot_with (quoted 100 101 106.01 107) in
  ~ (Arb.exceeds (fst (OrderBookManager.get_spread (Arb.order_book_manager self)))
       (Arb.long_threshold self) = true
     /\ Arb.exceeds (snd (OrderBookManager.get_spread (Arb.order_book_manager self)))
          (Arb.short_threshold self) = true).
Proof.
  intros self.
  apply (spreads_not_both_above self 100 101 106.01 107);
    try reflexivity; vm_compute; discriminate.
Defined.

(* ================================================================== *)
(** ** Further properties of the exchange clients *)
(* ================================================================== *)

Lemma backpack_success_filled
    (str_upper : string -> string) (decimal_div : Decimal -> Decimal -> Decimal)
    (execute_order : string -> Decimal -> outcome Backpack.api_result)
    (quantity : Decimal) (side : string) (r : OrderResult) :
  Backpack.place_market_order str_upper decimal_div execute_order quantity side
  = Return r ->
  success r = true ->
  valid_side side = true
  /\ exists answer qty quote,
       execute_order (backpack_order_side side) quantity
       = Return (Backpack.Dict answer)
       /\ Backpack.code answer = None
       /\ str_upper (Backpack.get (Backpack.status_field answer) "") = "FILLED"
       /\ Backpack.get (Backpack.executedQuantity answer) (Parsed 0) = Parsed qty
       /\ Backpack.get (Backpack.executedQuoteQuantity answer) (Parsed 0)
          = Parsed quote
       /\ r = {| success := true; order_id := Backpack.id answer;
                 side := Some (lower side); size := Some quantity;
                 price := Some (if negb (Qle_bool qty 0)
                                then decimal_div quote qty else 0);
                 status := Some "FILLED"; error_message := None;
                 filled_size := Some qty;
                 avg_price := Some (if negb (Qle_bool qty 0)
                                    then decimal_div quote qty else 0) |}.
Proof.
  unfold Backpack.place_market_order, Backpack.place_market_order_body,
    valid_side, backpack_order_side, try_except, bind, to_Decimal.
  destruct (lower side =? "buy") eqn:Eb;
    [|destruct (lower side =? "sell") eqn:Es];
    split_cases; intros E; injection E as <-; cbn [success failed_order];
    intros S; try discriminate S.
  all: split; [reflexivity|].
  all: eexists; eexists; eexists;
    repeat (split; [first [eassumption | reflexivity
                          | now apply String.eqb_eq] |]).
  all: match goal with H : negb _ = _ |- _ => rewrite H end; reflexivity.
Qed.

Lemma backpack_filled_success
    (str_upper : string -> string) (decimal_div : Decimal -> Decimal -> Decimal)
    (execute_order : string -> Decimal -> outcome Backpack.api_result)
    (quantity : Decimal) (side : string)
    (answer : Backpack.order_response) (qty quote : Decimal) :
  valid_side side = true ->
  execute_order (backpack_order_side side) quantity = Return (Backpack.Dict answer) ->
  Backpack.code answer = None ->
  str_upper (Backpack.get (Backpack.status_field answer) "") = "FILLED" ->
  Backpack.get (Backpack.executedQuantity answer) (Parsed 0) = Parsed qty ->
  Backpack.get (Backpack.executedQuoteQuantity answer) (Parsed 0) = Parsed quote ->
  exists r, Backpack.place_market_order str_upper decimal_div execute_order
              quantity side = Return r
            /\ success r = true.
Proof.
  unfold Backpack.place_market_order, Backpack.place_market_order_body,
    valid_side, backpack_order_side, try_except, bind, to_Decimal.
  intros Hv He Hc Hs Hq Ht.
  destruct (lower side =? "buy") eqn:Eb;
    [|destruct (lower side =? "sell") eqn:Es; [|discriminate Hv]];
    rewrite He, Hc, Hs, Hq, Ht; cbn; eexists; split; reflexivity.
Qed.

Lemma Qle_bool_false_lt (x y : Q) : Qle_bool x y = false -> y < x.
Proof.
  intros E. apply Qnot_le_lt. intros L. apply Qle_bool_iff in L. congruence.
Qed.

Lemma lighter_success_accepted
    (has_client : bool) (initialize : outcome unit)
    (bbo : retry_run (Decimal * Decimal))
    (base_amount_multiplier price_multiplier : option Z) (now_ms : Z)
    (create_order : Lighter.order_request -> outcome (option string))
    (quantity : Decimal) (side : string) (r : OrderResult) :
  Lighter.place_market_order has_client initialize bbo base_amount_multiplier
    price_multiplier now_ms create_order quantity side = Return r ->
  success r = true ->
  valid_side side = true
  /\ (has_client = true \/ initialize = Return tt)
  /\ exists best_bid best_ask bm pm,
       outcome_of bbo = Return (best_bid, best_ask)
       /\ base_amount_multiplier = Some bm
       /\ price_multiplier = Some pm
       /\ create_order (lighter_request now_ms bm pm quantity side best_bid best_ask)
          = Return None
       /\ r = {| success := true;
                 order_id := Some (DecimalString.NilZero.string_of_int
                                     (Z.to_int (now_ms mod 1000000)));
                 side := Some (lower side); size := Some quantity;
                 price := Some (lighter_order_price side best_bid best_ask);
                 status := Some "FILLED"; error_message := None;
                 filled_size := Some quantity;
                 avg_price := Some (lighter_order_price side best_bid best_ask) |}.
Proof.
  unfold Lighter.place_market_order, Lighter.place_market_order_body,
    valid_side, lighter_request, lighter_order_price, try_except, bind,
    Lighter.times.
  destruct (lower side =? "buy") eqn:Eb;
    [|destruct (lower side =? "sell") eqn:Es];
    split_cases; intros E; injection E as <-; cbn [success failed_order];
    intros S; try discriminate S.
  all: split; [reflexivity|].
  all: split;
    [first [now left
           | right;
             repeat match goal with x : unit |- _ => destruct x end;
             first [reflexivity | assumption] ]|].
  all: do 4 eexists;
    repeat (split; [first [eassumption | reflexivity] |]); reflexivity.
Qed.

Lemma lighter_accepted_success
    (has_client : bool) (initialize : outcome unit)
    (bbo : retry_run (Decimal * Decimal))
    (now_ms bm pm : Z)
    (create_order : Lighter.order_request -> outcome (option string))
    (quantity : Decimal) (side : string) (best_bid best_ask : Decimal) :
  valid_side side = true ->
  has_client = true \/ initialize = Return tt ->
  outcome_of bbo = Return (best_bid, best_ask) ->
  create_order (lighter_request now_ms bm pm quantity side best_bid best_ask)
  = Return None ->
  exists r,
    Lighter.place_market_order has_client initialize bbo (Some bm) (Some pm)
      now_ms create_order quantity side = Return r
    /\ success r = true
    /\ price r = Some (lighter_order_price side best_bid best_ask)
    /\ filled_size r = Some quantity.
Proof.
  unfold Lighter.place_market_order, Lighter.place_market_order_body,
    valid_side, lighter_request, lighter_order_price, try_except, bind,
    Lighter.times.
  intros Hv Hc Hb.
  assert (Hi : (if has_client then Return tt else initialize) = Return tt)
    by (destruct Hc as [-> | Hc]; [reflexivity | destruct has_client; auto]).
  rewrite Hi, Hb.
  destruct (lower side =? "buy") eqn:Eb;
    [|destruct (lower side =? "sell") eqn:Es; [|discriminate Hv]];
    cbn [negb]; intros Ho; rewrite Ho; eexists; repeat split.
Qed.

Lemma backpack_side_case
    (str_upper : string -> string) (decimal_div : Decimal -> Decimal -> Decimal)
    (execute_order : string -> Decimal -> outcome Backpack.api_result)
    (quantity : Decimal) (side : string) :
  valid_side side = true ->
  Backpack.place_market_order str_upper decimal_div execute_order quantity side
  = Backpack.place_market_order str_upper decimal_div execute_order quantity
      (lower side).
Proof.
  unfold valid_side. intros Hv.
  unfold Backpack.place_market_order, Backpack.place_market_order_body.
  destruct (lower side =? "buy") eqn:Eb.
  - apply String.eqb_eq in Eb. rewrite Eb.
    change (lower "buy") with "buy". reflexivity.
  - destruct (lower side =? "sell") eqn:Es; [|discriminate Hv].
    apply String.eqb_eq in Es. rewrite Es.
    change (lower "sell") with "sell". reflexivity.
Qed.

Lemma lighter_side_case
    (has_client : bool) (initialize : outcome unit)
    (bbo : retry_run (Decimal * Decimal))
    (base_amount_multiplier price_multiplier : option Z) (now_ms : Z)
    (create_order : Lighter.order_request -> outcome (option string))
    (quantity : Decimal) (side : string) :
  valid_side side = true ->
  Lighter.place_market_order has_client initialize bbo base_amount_multiplier
    price_multiplier now_ms create_order quantity side
  = Lighter.place_market_order has_client initialize bbo base_amount_multiplier
      price_multiplier now_ms create_order quantity (lower side).
Proof.
  unfold valid_side. intros Hv.
  unfold Lighter.place_market_order, Lighter.place_market_order_body.
  destruct (lower side =? "buy") eqn:Eb.
  - apply String.eqb_eq in Eb. rewrite Eb.
    change (lower "buy") with "buy". reflexivity.
  - destruct (lower side =? "sell") eqn:Es; [|discriminate Hv].
    apply String.eqb_eq in Es. rewrite Es.
    change (lower "sell") with "sell". reflexivity.
Qed.

Lemma zero_price_arg (now_ms bm pm : Z) (quantity : Decimal) (side : string) :
  Lighter.price_arg (lighter_request now_ms bm pm quantity side 0 0) = 0%Z
  /\ lighter_order_price side 0 0 == 0.
Proof.
  unfold lighter_request, lighter_order_price.
  destruct (lower side =? "buy"); split; reflexivity.
Qed.

(** X6.  On Backpack an order is reported as a success exactly when the side
    is valid and the venue answers with a dict without error code, a status
    that reads [FILLED] in upper case and two executed amounts that parse.
    The result then carries the requested size, the lower-cased side, the
    order id of the answer, the executed quantity as filled size and, as
    price and average price, the Decimal quotient of the executed quote
    amount by the executed quantity when that quantity is positive, and zero
    otherwise: nothing is divided by a quantity that is not positive.  The
    upper-casing of the status and the rounding of the quotient are Python's
    and are taken as given. *)
Theorem backpack_success_exactly_when_filled :
  forall (str_upper : string -> string)
         (decimal_div : Decimal -> Decimal -> Decimal)
         (execute_order : string -> Decimal -> outcome Backpack.api_result)
         (quantity : Decimal) (side : string) (r : OrderResult),
    Backpack.place_market_order str_upper decimal_div execute_order quantity side
    = Return r ->
    (success r = true <->
     valid_side side = true
     /\ exists answer qty quote,
          execute_order (backpack_order_side side) quantity
          = Return (Backpack.Dict answer)
          /\ Backpack.code answer = None
          /\ str_upper (Backpack.get (Backpack.status_field answer) "") = "FILLED"
          /\ Backpack.get (Backpack.executedQuantity answer) (Parsed 0) = Parsed qty
          /\ Backpack.get (Backpack.executedQuoteQuantity answer) (Parsed 0)
             = Parsed quote)
    /\ (success r = true ->
        exists answer qty quote p,
          execute_order (backpack_order_side side) quantity
          = Return (Backpack.Dict answer)
          /\ Backpack.get (Backpack.executedQuantity answer) (Parsed 0) = Parsed qty
          /\ Backpack.get (Backpack.executedQuoteQuantity answer) (Parsed 0)
             = Parsed quote
          /\ size r = Some quantity
          /\ Base.side r = Some (lower side)
          /\ filled_size r = Some qty
          /\ order_id r = Backpack.id answer
          /\ price r = Some p
          /\ avg_price r = Some p
          /\ (0 < qty -> p = decimal_div quote qty)
          /\ (qty <= 0 -> p = 0)).
Proof.
  intros str_upper decimal_div execute_order quantity side r E.
  split; [split|].
  - intros S.
    destruct (backpack_success_filled _ _ execute_order quantity side r E S)
      as [Hv [a [qty [quote [He [Hc [Hs [Hq [Ht _]]]]]]]]].
    split; [exact Hv|]. exists a, qty, quote. repeat split; assumption.
  - intros [Hv [a [qty [quote [He [Hc [Hs [Hq Ht]]]]]]]].
    destruct (backpack_filled_success str_upper decimal_div execute_order
                quantity side a qty quote Hv He Hc Hs Hq Ht) as [r' [E' S']].
    rewrite E in E'. injection E' as <-. exact S'.
  - intros S.
    destruct (backpack_success_filled _ _ execute_order quantity side r E S)
      as [_ [a [qty [quote [He [_ [_ [Hq [Ht Hr]]]]]]]]].
    exists a, qty, quote,
      (if negb (Qle_bool qty 0) then decimal_div quote qty else 0).
    rewrite Hr. cbn [size Base.side filled_size order_id price avg_price].
    repeat (split; [first [assumption | reflexivity]|]).
    destruct (Qle_bool qty 0) eqn:L; cbn [negb]; split; intros P;
      try reflexivity.
    + apply Qle_bool_iff in L. exfalso. exact (Qlt_not_le _ _ P L).
    + apply Qle_bool_false_lt in L. exfalso. exact (Qlt_not_le _ _ L P).
Qed.

(** A buy of 0.05 that Backpack reports as [Filled] for a quote amount of
    150: the quotient 3000 is exact. *)
Lemma backpack_success_exactly_when_filled_witness :
  let execute_order := fun (_ : string) (_ : Decimal) =>
    Return (Backpack.Dict (backpack_filled 0.05 150)) in
  exists r,
    Backpack.place_market_order ascii_upper Qdiv execute_order 0.05 "Buy"
    = Return r
    /\ success r = true
    /\ price r = Some (150 / 0.05).
Proof.
  intros execute_order.
  destruct (backpack_place_market_order_returns ascii_upper Qdiv
              execute_order 0.05 "Buy") as [r [E _]].
  exists r. split; [exact E|].
  assert (S : success r = true)
    by (vm_compute in E; injection E as <-; reflexivity).
  split; [exact S|].
  destruct (proj2 (backpack_success_exactly_when_filled ascii_upper Qdiv
                     execute_order 0.05 "Buy" r E) S)
    as (a & qty & quote & p & He & Hq & Ht & _ & _ & _ & _ & Hp & _ & Hpos & _).
  injection He as <-. cbn in Hq, Ht.
  injection Hq as <-. injection Ht as <-.
  rewrite Hp. f_equal. apply Hpos. reflexivity.
Defined.

(** X7.  On Lighter an order is reported as a success exactly when the side
    is valid, the signer client is there (or its initialisation succeeds),
    the quote and the two multipliers are available and [create_order]
    returns no error for the request built from them.  The client reads no
    fill from the venue: the result then always says [FILLED], with the
    whole requested quantity as filled size and the limit price (ask times
    1.002 for a buy, bid times 0.998 for a sell) as price and average
    price. *)
Theorem lighter_success_exactly_when_accepted :
  forall (has_client : bool) (initialize : outcome unit)
         (bbo : retry_run (Decimal * Decimal))
         (base_amount_multiplier price_multiplier : option Z) (now_ms : Z)
         (create_order : Lighter.order_request -> outcome (option string))
         (quantity : Decimal) (side : string) (r : OrderResult),
    Lighter.place_market_order has_client initialize bbo base_amount_multiplier
      price_multiplier now_ms create_order quantity side = Return r ->
    (success r = true <->
     valid_side side = true
     /\ (has_client = true \/ initialize = Return tt)
     /\ exists best_bid best_ask bm pm,
          outcome_of bbo = Return (best_bid, best_ask)
          /\ base_amount_multiplier = Some bm
          /\ price_multiplier = Some pm
          /\ create_order
               (lighter_request now_ms bm pm quantity side best_bid best_ask)
             = Return None)
    /\ (success r = true ->
        exists best_bid best_ask,
          outcome_of bbo = Return (best_bid, best_ask)
          /\ status r = Some "FILLED"
          /\ size r = Some quantity
          /\ filled_size r = Some quantity
          /\ price r = Some (lighter_order_price side best_bid best_ask)
          /\ avg_price r = Some (lighter_order_price side best_bid best_ask)).
Proof.
  intros has_client initialize bbo base_amount_multiplier price_multiplier
    now_ms create_order quantity side r E.
  split; [split|].
  - intros S.
    destruct (lighter_success_accepted _ _ _ _ _ _ _ _ _ _ E S)
      as [Hv [Hc [bid [ask [bm [pm [Hb [Hbm [Hpm [Ho _]]]]]]]]]].
    split; [exact Hv|]. split; [exact Hc|].
    exists bid, ask, bm, pm. repeat split; assumption.
  - intros [Hv [Hc [bid [ask [bm [pm [Hb [Hbm [Hpm Ho]]]]]]]]].
    subst base_amount_multiplier price_multiplier.
    destruct (lighter_accepted_success has_client initialize bbo now_ms bm pm
                create_order quantity side bid ask Hv Hc Hb Ho)
      as [r' [E' [S' _]]].
    rewrite E in E'. injection E' as <-. exact S'.
  - intros S.
    destruct (lighter_success_accepted _ _ _ _ _ _ _ _ _ _ E S)
      as [_ [_ [bid [ask [bm [pm [Hb [_ [_ [_ Hr]]]]]]]]]].
    exists bid, ask. rewrite Hr. cbn. repeat split. exact Hb.
Qed.

(** A sell of 1 on the quote (3000, 3001) that the venue accepts. *)
Lemma lighter_success_exactly_when_accepted_witness :
  exists r,
    Lighter.place_market_order true (Return tt) lighter_quote
      (Some 10000%Z) (Some 100%Z) 1700000000123 lighter_accepts 1 "SELL"
    = Return r
    /\ success r = true
    /\ price r = Some (3000 * 0.998).
Proof.
  destruct (lighter_place_market_order_returns true (Return tt) lighter_quote
              (Some 10000%Z) (Some 100%Z) 1700000000123%Z lighter_accepts 1 "SELL")
    as [r [E _]].
  exists r. split; [exact E|].
  assert (S : success r = true)
    by (vm_compute in E; injection E as <-; reflexivity).
  split; [exact S|].
  destruct (proj2 (lighter_success_exactly_when_accepted _ _ _ _ _ _ _ _ _ r E) S)
    as [bid [ask [Hb [_ [_ [_ [Hp _]]]]]]].
  vm_compute in Hb. injection Hb as <- <-. rewrite Hp. reflexivity.
Defined.

(** X8.  When the Lighter quote is never available, [fetch_bbo_prices]
    falls back to its default [(0, 0)] and [place_market_order] goes on with
    it: for a valid side it still sends an order, whose price argument is 0,
    and when the venue accepts that request the result is a success at a
    price of zero. *)
Theorem lighter_orders_at_zero_without_quote :
  forall (ws_manager : nat -> option Lighter.WebSocketManager)
         (has_client : bool) (initialize : outcome unit)
         (now_ms bm pm : Z)
         (create_order : Lighter.order_request -> outcome (option string))
         (quantity : Decimal) (side : string),
    always_fails any_Exception
      (fun n => Lighter.fetch_bbo_prices_body (ws_manager n)) ->
    valid_side side = true ->
    has_client = true \/ initialize = Return tt ->
    create_order (lighter_request now_ms bm pm quantity side 0 0) = Return None ->
    Lighter.price_arg (lighter_request now_ms bm pm quantity side 0 0) = 0%Z
    /\ exists r p,
         Lighter.place_market_order has_client initialize
           (Lighter.fetch_bbo_prices ws_manager) (Some bm) (Some pm) now_ms
           create_order quantity side = Return r
         /\ success r = true
         /\ price r = Some p /\ p == 0.
Proof.
  intros ws_manager has_client initialize now_ms bm pm create_order quantity
    side Hfail Hv Hc Ho.
  destruct (zero_price_arg now_ms bm pm quantity side) as [Harg Hprice].
  split; [exact Harg|].
  assert (Hb : outcome_of (Lighter.fetch_bbo_prices ws_manager) = Return (0, 0)).
  { apply (query_retry_exhausts (0, 0) any_Exception default_max_attempts
             default_min_wait default_max_wait false _ Hfail). }
  destruct (lighter_accepted_success has_client initialize
              (Lighter.fetch_bbo_prices ws_manager) now_ms bm pm create_order
              quantity side 0 0 Hv Hc Hb Ho) as [r [E [S [Hp _]]]].
  exists r, (lighter_order_price side 0 0). repeat split; assumption.
Qed.

(** A client whose WebSocket manager never came up, buying 1. *)
Lemma lighter_orders_at_zero_without_quote_witness :
  exists r p,
    Lighter.place_market_order true (Return tt)
      (Lighter.fetch_bbo_prices (fun _ => None)) (Some 10000%Z) (Some 100%Z)
      1700000000123 lighter_accepts 1 "buy" = Return r
    /\ success r = true /\ price r = Some p /\ p == 0.
Proof.
  apply (lighter_orders_at_zero_without_quote (fun _ => None) true (Return tt)
           1700000000123 10000 100 lighter_accepts 1 "buy").
  - intros n. eexists. split; reflexivity.
  - reflexivity.
  - left. reflexivity.
  - reflexivity.
Defined.

(** X9.  Both clients read the side without regard to case: for a valid
    side, [place_market_order] gives the same result as for its lower-case
    form (['BUY'] and ['Buy'] as ['buy'], ['SELL'] as ['sell']). *)
Theorem place_market_order_side_case :
  forall (side : string) (quantity : Decimal),
    valid_side side = true ->
    (forall str_upper decimal_div execute_order,
        Backpack.place_market_order str_upper decimal_div execute_order
          quantity side
        = Backpack.place_market_order str_upper decimal_div execute_order
            quantity (lower side))
    /\ (forall has_client initialize bbo base_amount_multiplier price_multiplier
               now_ms create_order,
           Lighter.place_market_order has_client initialize bbo
             base_amount_multiplier price_multiplier now_ms create_order
             quantity side
           = Lighter.place_market_order has_client initialize bbo
               base_amount_multiplier price_multiplier now_ms create_order
               quantity (lower side)).
Proof.
  intros side quantity Hv. split; intros.
  - now apply backpack_side_case.
  - now apply lighter_side_case.
Qed.

Lemma place_market_order_side_case_witness :
  Backpack.place_market_order ascii_upper Qdiv
    (fun _ _ => Return (Backpack.Dict (backpack_filled 0.05 150))) 0.05 "BuY"
  = Backpack.place_market_order ascii_upper Qdiv
      (fun _ _ => Return (Backpack.Dict (backpack_filled 0.05 150))) 0.05 "buy".
Proof.
  apply (proj1 (place_market_order_side_case "BuY" 0.05 eq_refl)).
Defined.

(* ================================================================== *)
(** ** Further properties of the Lighter order book *)
(* ================================================================== *)

Lemma Qeq_bool_false (x y : Q) : ~ x == y -> Qeq_bool x y = false.
Proof.
  intros H. destruct (Qeq_bool x y) eqn:E; [|reflexivity].
  apply Qeq_bool_iff in E. contradiction.
Qed.

Lemma Qeq_bool_true (x y : Q) : x == y -> Qeq_bool x y = true.
Proof. intros H. now apply Qeq_bool_iff. Qed.

Lemma dict_get_absent (price : Q) (ob : Lighter.book_side) :
  (forall p s, In (p, s) ob -> ~ p == price) -> dict_get price ob = None.
Proof.
  induction ob as [|[p0 s0] ob IH]; intros H; cbn; [reflexivity|].
  rewrite Qeq_bool_false by (apply (H p0 s0); now left).
  apply IH. intros p s Hin. apply (H p s). now right.
Qed.

Lemma dict_get_set_same (price size : Q) (ob : Lighter.book_side) :
  forall p', p' == price -> dict_get p' (Lighter.dict_set price size ob) = Some size.
Proof.
  intros p' Hp.
  induction ob as [|[p0 s0] ob IH]; cbn.
  - rewrite Qeq_bool_true by (symmetry; exact Hp). reflexivity.
  - destruct (Qeq_bool p0 price) eqn:E; cbn.
    + apply Qeq_bool_iff in E.
      rewrite Qeq_bool_true by (rewrite E; symmetry; exact Hp). reflexivity.
    + rewrite Qeq_bool_false; [exact IH|].
      intros H. rewrite Hp in H. apply Qeq_bool_iff in H. congruence.
Qed.

Lemma dict_get_set_other (price size : Q) (ob : Lighter.book_side) :
  forall p', ~ p' == price ->
             dict_get p' (Lighter.dict_set price size ob) = dict_get p' ob.
Proof.
  intros p' Hp.
  induction ob as [|[p0 s0] ob IH]; cbn.
  - rewrite Qeq_bool_false; [reflexivity|]. intros H. apply Hp. now symmetry.
  - destruct (Qeq_bool p0 price) eqn:E; cbn.
    + apply Qeq_bool_iff in E.
      rewrite Qeq_bool_false; [reflexivity|].
      intros H. apply Hp. rewrite <- H. exact E.
    + destruct (Qeq_bool p0 p'); [reflexivity | exact IH].
Qed.

Lemma dict_get_pop_other (price : Q) (ob : Lighter.book_side) :
  forall p', ~ p' == price ->
             dict_get p' (Lighter.dict_pop price ob) = dict_get p' ob.
Proof.
  intros p' Hp.
  induction ob as [|[p0 s0] ob IH]; cbn; [reflexivity|].
  destruct (Qeq_bool p0 price) eqn:E; cbn.
  - apply Qeq_bool_iff in E.
    rewrite Qeq_bool_false; [reflexivity|].
    intros H. apply Hp. rewrite <- H. exact E.
  - destruct (Qeq_bool p0 p'); [reflexivity | exact IH].
Qed.

Lemma dict_pop_In (price : Q) (ob : Lighter.book_side) :
  forall p s, In (p, s) (Lighter.dict_pop price ob) -> In (p, s) ob.
Proof.
  induction ob as [|[p0 s0] ob IH]; intros p s; cbn; [auto|].
  destruct (Qeq_bool p0 price); cbn.
  - now right.
  - intros [E | H]; [now left | right; now apply IH].
Qed.

Lemma dict_get_pop_same (price : Q) (ob : Lighter.book_side) :
  distinct_prices ob ->
  forall p', p' == price -> dict_get p' (Lighter.dict_pop price ob) = None.
Proof.
  intros Hd p' Hp.
  induction ob as [|[p0 s0] ob IH]; cbn; [reflexivity|].
  destruct Hd as [Hhead Hrest].
  destruct (Qeq_bool p0 price) eqn:E; cbn.
  - apply Qeq_bool_iff in E. apply dict_get_absent.
    intros p s Hin H. apply (Hhead p s Hin). rewrite H, Hp. now symmetry.
  - rewrite Qeq_bool_false; [now apply IH|].
    intros H. rewrite Hp in H. apply Qeq_bool_iff in H. congruence.
Qed.

Lemma dict_set_In (price size : Q) (ob : Lighter.book_side) :
  forall p s, In (p, s) (Lighter.dict_set price size ob) ->
              (exists s', In (p, s') ob) \/ (p = price /\ s = size).
Proof.
  induction ob as [|[p0 s0] ob IH]; intros p s; cbn.
  - intros [E | []]. injection E as <- <-. now right.
  - destruct (Qeq_bool p0 price); cbn.
    + intros [E | H].
      * injection E as <- <-. left. exists s0. now left.
      * left. exists s. now right.
    + intros [E | H].
      * injection E as <- <-. left. exists s0. now left.
      * destruct (IH p s H) as [[s' H'] | H']; [|now right].
        left. exists s'. now right.
Qed.

Lemma dict_set_sizes (price size : Q) (ob : Lighter.book_side) :
  forall p s, In (p, s) (Lighter.dict_set price size ob) ->
              In (p, s) ob \/ s = size.
Proof.
  induction ob as [|[p0 s0] ob IH]; intros p s; cbn.
  - intros [E | []]. injection E as <- <-. now right.
  - destruct (Qeq_bool p0 price); cbn.
    + intros [E | H]; [injection E as <- <-; now right | left; now right].
    + intros [E | H]; [left; now left|].
      destruct (IH p s H) as [H' | H']; [left; now right | now right].
Qed.

Lemma dict_set_distinct (price size : Q) (ob : Lighter.book_side) :
  distinct_prices ob -> distinct_prices (Lighter.dict_set price size ob).
Proof.
  induction ob as [|[p0 s0] ob IH]; cbn.
  - intros _. split; [intros p' s' []| exact I].
  - intros [Hhead Hrest].
    destruct (Qeq_bool p0 price) eqn:E; cbn.
    + split; assumption.
    + split; [|now apply IH].
      intros p' s' Hin.
      destruct (dict_set_In price size ob p' s' Hin) as [[s'' H] | [-> _]].
      * now apply (Hhead p' s'').
      * intros H.
        assert (T : Qeq_bool p0 price = true)
          by (apply Qeq_bool_iff; now symmetry).
        congruence.
Qed.

Lemma dict_pop_distinct (price : Q) (ob : Lighter.book_side) :
  distinct_prices ob -> distinct_prices (Lighter.dict_pop price ob).
Proof.
  induction ob as [|[p0 s0] ob IH]; cbn; [auto|].
  intros [Hhead Hrest].
  destruct (Qeq_bool p0 price); cbn; [exact Hrest|].
  split; [|now apply IH].
  intros p' s' Hin. apply (Hhead p' s'). now apply dict_pop_In in Hin.
Qed.

Lemma update_order_book_app (updates1 updates2 : list Lighter.update) :
  forall ob,
    Lighter._update_order_book ob (updates1 ++ updates2)
    = Lighter._update_order_book (Lighter._update_order_book ob updates1) updates2.
Proof.
  induction updates1 as [|[[price size]|] updates1 IH]; intros ob; cbn;
    [reflexivity| |apply IH].
  destruct (Qeq_bool size 0); apply IH.
Qed.

Lemma update_order_book_keeps_dict (updates : list Lighter.update) :
  forall ob,
    distinct_prices ob -> no_empty_level ob ->
    distinct_prices (Lighter._update_order_book ob updates)
    /\ no_empty_level (Lighter._update_order_book ob updates).
Proof.
  induction updates as [|[[price size]|] updates IH]; intros ob Hd Hn; cbn;
    [now split | | now apply IH].
  destruct (Qeq_bool size 0) eqn:E; apply IH.
  - now apply dict_pop_distinct.
  - intros p s Hin. apply (Hn p s). now apply dict_pop_In in Hin.
  - now apply dict_set_distinct.
  - intros p s Hin.
    destruct (dict_set_sizes price size ob p s Hin) as [H | ->];
      [now apply (Hn p s)|].
    intros H. apply Qeq_bool_iff in H. congruence.
Qed.

Lemma last_update_wins_lemma (ob : Lighter.book_side)
    (updates : list Lighter.update) (price size : Q) :
  distinct_prices ob -> no_empty_level ob ->
  let ob' := Lighter._update_order_book ob (updates ++ [Some (price, size)]) in
  (forall p', p' == price ->
              dict_get p' ob' = if Qeq_bool size 0 then None else Some size)
  /\ (forall p', ~ p' == price ->
                 dict_get p' ob'
                 = dict_get p' (Lighter._update_order_book ob updates)).
Proof.
  intros Hd Hn ob'. subst ob'. rewrite update_order_book_app.
  destruct (update_order_book_keeps_dict updates ob Hd Hn) as [Hd' _].
  cbn. destruct (Qeq_bool size 0); split; intros p' Hp.
  - now apply dict_get_pop_same.
  - now apply dict_get_pop_other.
  - now apply dict_get_set_same.
  - now apply dict_get_set_other.
Qed.

Lemma handle_all_cons (fmul : Q -> Q -> Q) (ws : Lighter.WebSocketManager)
    (data : Lighter.message) (rest : list Lighter.message) :
  handle_all fmul ws (data :: rest)
  = match snd (Lighter._handle_message fmul ws data) with
    | Return _ => handle_all fmul (fst (Lighter._handle_message fmul ws data)) rest
    | Raise _ => fst (Lighter._handle_message fmul ws data)
    end.
Proof.
  cbn [handle_all].
  destruct (Lighter._handle_message fmul ws data) as [ws1 [b | e]]; reflexivity.
Qed.

Lemma handle_message_book_ok (fmul : Q -> Q -> Q) (ws : Lighter.WebSocketManager)
    (data : Lighter.message) :
  book_ok ws -> book_ok (fst (Lighter._handle_message fmul ws data)).
Proof.
  intros Hok. pose proof Hok as [Hbd [Hbn [Had Han]]].
  assert (Hnil : distinct_prices [] /\ no_empty_level [])
    by (split; [exact I | intros p s []]).
  destruct data as [offset bu au | bu au | | | | snapshot offset bu au e];
    try exact Hok;
    [| |destruct Hnil as [Hd Hn];
        destruct snapshot; [|destruct (Lighter.snapshot_loaded ws) eqn:L];
        cbn [Lighter._handle_message fst]; rewrite ?L; try exact Hok;
        (destruct au as [au|];
         cbn [fst Lighter.bids Lighter.asks]; unfold book_ok;
         cbn [Lighter.bids Lighter.asks];
         repeat split;
         first [ assumption
               | now apply update_order_book_keeps_dict
               | intros p s [] ])].
  - destruct Hnil as [Hd Hn].
    destruct (update_order_book_keeps_dict bu [] Hd Hn) as [H1 H2].
    destruct (update_order_book_keeps_dict au [] Hd Hn) as [H3 H4].
    cbn. repeat split; assumption.
  - destruct (Lighter.snapshot_loaded ws) eqn:L.
    + destruct (handle_update_book fmul ws bu au L) as [Hb [Ha _]].
      destruct (update_order_book_keeps_dict bu _ Hbd Hbn) as [H1 H2].
      destruct (update_order_book_keeps_dict au _ Had Han) as [H3 H4].
      unfold book_ok. rewrite Hb, Ha. repeat split; assumption.
    + unfold Lighter._handle_message. rewrite L. exact Hok.
Qed.

(** X10.  Each side of the Lighter book stays a proper dict under every
    sequence of messages: from the manager as [__init__] leaves it (and from
    any book that is one already), no two levels of a side have equal prices
    and no level with size zero is kept, since an update of size zero removes
    its level and any other replaces or adds one. *)
Theorem lighter_book_stays_dict :
  forall (fmul : Q -> Q -> Q) (messages : list Lighter.message),
    book_ok (handle_all fmul Lighter.init messages)
    /\ forall ws, book_ok ws -> book_ok (handle_all fmul ws messages).
Proof.
  intros fmul messages.
  assert (H : forall ws, book_ok ws -> book_ok (handle_all fmul ws messages)).
  { induction messages as [|data messages IH]; intros ws Hok; [exact Hok|].
    rewrite handle_all_cons.
    pose proof (handle_message_book_ok fmul ws data Hok) as Hok'.
    destruct (snd (Lighter._handle_message fmul ws data));
      [now apply IH | exact Hok']. }
  split; [|exact H].
  apply H. repeat split; try exact I; intros p s [].
Qed.

Lemma lighter_book_stays_dict_witness :
  book_ok (handle_all Qmult (lighter_book [(3000, 5)] [(3001, 4)] None None)
             [Lighter.Update_order_book [Some (3000, 0); Some (2999, 2)] []]).
Proof.
  apply (proj2 (lighter_book_stays_dict Qmult _)).
  unfold book_ok, lighter_book.
  cbn [Lighter.bids Lighter.asks].
  split; [|split; [|split]].
  - split; [intros ? ? [] | exact I].
  - intros ? ? [E | []]. injection E as <- <-. discriminate.
  - split; [intros ? ? [] | exact I].
  - intros ? ? [E | []]. injection E as <- <-. discriminate.
Defined.

(** X11.  In [_update_order_book] the last entry for a price decides: after
    a list of updates ending with (price, size), looking the price up gives
    nothing when the size is zero and the size otherwise, and every other
    price reads as it did before that last entry. *)
Theorem lighter_last_update_wins :
  forall (ob : Lighter.book_side) (updates : list Lighter.update)
         (price size : Q),
    distinct_prices ob -> no_empty_level ob ->
    let ob' := Lighter._update_order_book ob (updates ++ [Some (price, size)]) in
    (forall p', p' == price ->
                dict_get p' ob' = if Qeq_bool size 0 then None else Some size)
    /\ (forall p', ~ p' == price ->
                   dict_get p' ob'
                   = dict_get p' (Lighter._update_order_book ob updates)).
Proof.
  intros ob updates price size Hd Hn ob'.
  exact (last_update_wins_lemma ob updates price size Hd Hn).
Qed.

Lemma lighter_last_update_wins_witness :
  dict_get 3000 (Lighter._update_order_book [(3000, 5); (2999, 1)]
                   ([Some (3000, 2); None] ++ [Some (3000, 0)])) = None
  /\ dict_get 2999 (Lighter._update_order_book [(3000, 5); (2999, 1)]
                      ([Some (3000, 2); None] ++ [Some (3000, 0)])) = Some 1.
Proof.
  assert (Hd : distinct_prices [(3000, 5); (2999, 1)]).
  { split; [|split; [intros ? ? [] | exact I]].
    intros ? ? [E | []]. injection E as <- <-. discriminate. }
  assert (Hn : no_empty_level [(3000, 5); (2999, 1)]).
  { intros p s [E | [E | []]]; injection E as <- <-; discriminate. }
  destruct (lighter_last_update_wins [(3000, 5); (2999, 1)]
              [Some (3000, 2); None] 3000 0 Hd Hn) as [H1 H2].
  split.
  - apply (H1 3000). reflexivity.
  - etransitivity; [apply (H2 2999); discriminate | reflexivity].
Defined.

Lemma handle_update_ready (fmul : Q -> Q -> Q) (ws : Lighter.WebSocketManager)
    (bid_updates ask_updates : list Lighter.update) :
  Lighter.snapshot_loaded ws = true ->
  let ws' := fst (Lighter._handle_message fmul ws
                    (Lighter.Update_order_book bid_updates ask_updates)) in
  Lighter.order_book_ready ws'
  = (if (negb (Lighter.order_book_ready ws)
         && truthy (Lighter.best_bid ws') && truthy (Lighter.best_ask ws'))%bool
     then true else Lighter.order_book_ready ws)
  /\ Lighter.snapshot_loaded ws' = true.
Proof.
  intros Hloaded. unfold Lighter._handle_message. rewrite Hloaded.
  match goal with
  | |- context [let '(_, _) := ?b in _] => destruct b as [new_bid new_ask]
  end.
  cbn. split; reflexivity.
Qed.

(** What one message does to the published quote and to the ready flag. *)
Lemma handle_message_quote (fmul : Q -> Q -> Q) (ws : Lighter.WebSocketManager)
    (data : Lighter.message) :
  let ws' := fst (Lighter._handle_message fmul ws data) in
  (truthy (Lighter.best_bid ws) = true -> truthy (Lighter.best_bid ws') = true)
  /\ (truthy (Lighter.best_ask ws) = true -> truthy (Lighter.best_ask ws') = true)
  /\ (Lighter.order_book_ready ws = true -> Lighter.order_book_ready ws' = true)
  /\ (Lighter.order_book_ready ws
      = (truthy (Lighter.best_bid ws) && truthy (Lighter.best_ask ws))%bool ->
      Lighter.order_book_ready ws'
      = (truthy (Lighter.best_bid ws') && truthy (Lighter.best_ask ws'))%bool).
Proof.
  destruct data as [offset bu au | bu au | | | | snapshot offset bu au e];
    try (cbn; repeat split; auto; fail);
    [|destruct snapshot; [|destruct (Lighter.snapshot_loaded ws) eqn:L];
      cbn [Lighter._handle_message fst]; rewrite ?L;
      cbn; repeat split; auto].
  destruct (Lighter.snapshot_loaded ws) eqn:L.
  - destruct (handle_update_book fmul ws bu au L) as [_ [_ [Hb Ha]]].
    destruct (handle_update_ready fmul ws bu au L) as [Hr _].
    cbv zeta in *.
    set (ws' := fst (Lighter._handle_message fmul ws
                       (Lighter.Update_order_book bu au))) in *.
    assert (Tb : truthy (Lighter.best_bid ws) = true ->
                 truthy (Lighter.best_bid ws') = true).
    { intros T. rewrite Hb.
      destruct (truthy (fst (Lighter._get_best_levels fmul ws'))) eqn:E;
        assumption. }
    assert (Ta : truthy (Lighter.best_ask ws) = true ->
                 truthy (Lighter.best_ask ws') = true).
    { intros T. rewrite Ha.
      destruct (truthy (snd (Lighter._get_best_levels fmul ws'))) eqn:E;
        assumption. }
    split; [exact Tb|]. split; [exact Ta|]. rewrite Hr. split.
    + intros ->. cbn. reflexivity.
    + intros Hinv.
      destruct (Lighter.order_book_ready ws) eqn:R; cbn [negb andb].
      * symmetry in Hinv. apply andb_true_iff in Hinv. destruct Hinv as [T1 T2].
        rewrite (Tb T1), (Ta T2). reflexivity.
      * destruct (truthy (Lighter.best_bid ws') && truthy (Lighter.best_ask ws'))%bool;
          reflexivity.
  - unfold Lighter._handle_message. rewrite L. cbn. repeat split; auto.
Qed.

(** X12.  On the Lighter manager the ready flag means exactly that a quote
    is published: after any sequence of messages from the manager as
    [__init__] leaves it, [order_book_ready] holds if and only if
    [best_bid] and [best_ask] are both present and not zero.  No message ever
    takes a published side back (a truthy side stays truthy) nor clears the
    ready flag. *)
Theorem lighter_ready_iff_quoted :
  forall (fmul : Q -> Q -> Q) (messages : list Lighter.message),
    (let ws' := handle_all fmul Lighter.init messages in
     Lighter.order_book_ready ws'
     = (truthy (Lighter.best_bid ws') && truthy (Lighter.best_ask ws'))%bool)
    /\ forall ws,
         let ws' := handle_all fmul ws messages in
         (truthy (Lighter.best_bid ws) = true ->
          truthy (Lighter.best_bid ws') = true)
         /\ (truthy (Lighter.best_ask ws) = true ->
             truthy (Lighter.best_ask ws') = true)
         /\ (Lighter.order_book_ready ws = true ->
             Lighter.order_book_ready ws' = true).
Proof.
  intros fmul messages.
  assert (H : forall ws,
             let ws' := handle_all fmul ws messages in
             (truthy (Lighter.best_bid ws) = true ->
              truthy (Lighter.best_bid ws') = true)
             /\ (truthy (Lighter.best_ask ws) = true ->
                 truthy (Lighter.best_ask ws') = true)
             /\ (Lighter.order_book_ready ws = true ->
                 Lighter.order_book_ready ws' = true)
             /\ (Lighter.order_book_ready ws
                 = (truthy (Lighter.best_bid ws) && truthy (Lighter.best_ask ws))%bool ->
                 Lighter.order_book_ready ws'
                 = (truthy (Lighter.best_bid ws')
                    && truthy (Lighter.best_ask ws'))%bool)).
  { induction messages as [|data messages IH]; intros ws;
      [cbv zeta; repeat split; auto|].
    rewrite handle_all_cons.
    destruct (handle_message_quote fmul ws data) as [H1 [H2 [H3 H4]]].
    destruct (IH (fst (Lighter._handle_message fmul ws data)))
      as [I1 [I2 [I3 I4]]].
    cbv zeta.
    destruct (snd (Lighter._handle_message fmul ws data));
      repeat split; auto. }
  split.
  - destruct (H Lighter.init) as [_ [_ [_ H4]]]. apply H4. reflexivity.
  - intros ws. destruct (H ws) as [H1 [H2 [H3 _]]]. repeat split; assumption.
Qed.

(** A published quote survives a new snapshot and an update that leaves no
    sufficient level. *)
Lemma lighter_ready_iff_quoted_witness :
  let ws := lighter_book [(3000, 5)] [(3001, 4)] (Some 3000) (Some 3001) in
  let ws' := handle_all Qmult ws
               [Lighter.Subscribed_order_book None [Some (2990, 1)] [];
                Lighter.Update_order_book [Some (2990, 2)] []; Lighter.Ping] in
  truthy (Lighter.best_bid ws') = true
  /\ truthy (Lighter.best_ask ws') = true
  /\ Lighter.order_book_ready ws' = true.
Proof.
  intros ws ws'.
  destruct (proj2 (lighter_ready_iff_quoted Qmult
                     [Lighter.Subscribed_order_book None [Some (2990, 1)] [];
                      Lighter.Update_order_book [Some (2990, 2)] []; Lighter.Ping])
              ws) as [H1 [H2 H3]].
  split; [apply H1; reflexivity|].
  split; [apply H2; reflexivity | apply H3; reflexivity].
Defined.

(** Before the snapshot only a snapshot changes the manager. *)
Lemma handle_message_before_snapshot (fmul : Q -> Q -> Q)
    (ws : Lighter.WebSocketManager) (data : Lighter.message) :
  Lighter.snapshot_loaded ws = false ->
  is_snapshot data = false ->
  exists pong, Lighter._handle_message fmul ws data = (ws, Return pong).
Proof.
  intros L S.
  destruct data as [offset bu au | bu au | | | | snapshot offset bu au e];
    try discriminate S; try (eexists; reflexivity).
  - unfold Lighter._handle_message. rewrite L. eexists; reflexivity.
  - cbn in S. subst snapshot.
    unfold Lighter._handle_message. rewrite L. eexists; reflexivity.
Qed.

Lemma handle_all_before_snapshot (fmul : Q -> Q -> Q)
    (messages rest : list Lighter.message) (ws : Lighter.WebSocketManager) :
  Lighter.snapshot_loaded ws = false ->
  existsb is_snapshot messages = false ->
  handle_all fmul ws (messages ++ rest) = handle_all fmul ws rest.
Proof.
  intros L. induction messages as [|data messages IH]; intros Hno;
    [reflexivity|].
  cbn [existsb] in Hno. apply orb_false_iff in Hno. destruct Hno as [S Hno].
  destruct (handle_message_before_snapshot fmul ws data L S) as [pong E].
  cbn [app handle_all]. rewrite E. now apply IH.
Qed.

(** X13.  A reconnection does not withdraw the quote: each pass of the
    Lighter [connect] loop clears the book and forgets the snapshot but
    leaves [best_bid], [best_ask] and the ready flag as they are; until the
    new snapshot arrives every message (updates included) is ignored, and
    the snapshot itself loads the book from its own levels only, without
    recomputing the published quote. *)
Theorem lighter_reconnect_keeps_quote :
  forall (fmul : Q -> Q -> Q) (ws : Lighter.WebSocketManager)
         (messages : list Lighter.message),
    existsb is_snapshot messages = false ->
    handle_all fmul (reset_order_book ws) messages = reset_order_book ws
    /\ forall offset bid_updates ask_updates,
         let ws' := handle_all fmul (reset_order_book ws)
                      (messages ++ [Lighter.Subscribed_order_book
                                      offset bid_updates ask_updates]) in
         Lighter.best_bid ws' = Lighter.best_bid ws
         /\ Lighter.best_ask ws' = Lighter.best_ask ws
         /\ Lighter.order_book_ready ws' = Lighter.order_book_ready ws
         /\ Lighter.snapshot_loaded ws' = true
         /\ Lighter.bids ws' = Lighter._update_order_book [] bid_updates
         /\ Lighter.asks ws' = Lighter._update_order_book [] ask_updates.
Proof.
  intros fmul ws messages Hno.
  split.
  - rewrite <- (app_nil_r messages).
    now rewrite handle_all_before_snapshot.
  - intros offset bid_updates ask_updates.
    rewrite handle_all_before_snapshot by (reflexivity || exact Hno).
    cbn. repeat split.
Qed.

Lemma lighter_reconnect_keeps_quote_witness :
  let ws := lighter_book [(3000, 5)] [(3001, 4)] (Some 3000) (Some 3001) in
  handle_all Qmult (reset_order_book ws)
    [Lighter.Update_order_book [Some (2000, 50)] [Some (2001, 50)]; Lighter.Ping]
  = reset_order_book ws.
Proof.
  intros ws.
  apply (proj1 (lighter_reconnect_keeps_quote Qmult ws
                  [Lighter.Update_order_book [Some (2000, 50)] [Some (2001, 50)];
                   Lighter.Ping] eq_refl)).
Defined.

(* ================================================================== *)
(** ** Properties of the Backpack depth stream *)
(* ================================================================== *)

Lemma first_best_highest (l : list Decimal) :
  l <> [] ->
  exists m, Backpack.first_best (fun y x => negb (Qle_bool y x)) l = Some m
            /\ In m l /\ forall x, In x l -> x <= m.
Proof.
  induction l as [|x l IH]; intros Hne; [contradiction|].
  cbn [Backpack.first_best].
  destruct l as [|x' l'].
  - cbn. exists x. split; [reflexivity|]. split; [now left|].
    intros y [<- | []]. apply Qle_refl.
  - destruct IH as [m [Em [Hin Hmax]]]; [discriminate|].
    rewrite Em.
    destruct (Qle_bool m x) eqn:E; cbn [negb].
    + apply Qle_bool_iff in E.
      exists x. split; [reflexivity|]. split; [now left|].
      intros y [<- | Hy]; [apply Qle_refl|].
      apply Qle_trans with m; [now apply Hmax | exact E].
    + assert (L : x < m)
        by (apply Qnot_le_lt; intros L; apply Qle_bool_iff in L; congruence).
      exists m. split; [reflexivity|]. split; [now right|].
      intros y [<- | Hy]; [now apply Qlt_le_weak | now apply Hmax].
Qed.

Lemma first_best_lowest (l : list Decimal) :
  l <> [] ->
  exists m, Backpack.first_best (fun y x => negb (Qle_bool x y)) l = Some m
            /\ In m l /\ forall x, In x l -> m <= x.
Proof.
  induction l as [|x l IH]; intros Hne; [contradiction|].
  cbn [Backpack.first_best].
  destruct l as [|x' l'].
  - cbn. exists x. split; [reflexivity|]. split; [now left|].
    intros y [<- | []]. apply Qle_refl.
  - destruct IH as [m [Em [Hin Hmin]]]; [discriminate|].
    rewrite Em.
    destruct (Qle_bool x m) eqn:E; cbn [negb].
    + apply Qle_bool_iff in E.
      exists x. split; [reflexivity|]. split; [now left|].
      intros y [<- | Hy]; [apply Qle_refl|].
      apply Qle_trans with m; [exact E | now apply Hmin].
    + assert (L : m < x)
        by (apply Qnot_le_lt; intros L; apply Qle_bool_iff in L; congruence).
      exists m. split; [reflexivity|]. split; [now right|].
      intros y [<- | Hy]; [now apply Qlt_le_weak | now apply Hmin].
Qed.

Lemma parse_prices_nonempty (t : decimal_text) (rest : list decimal_text)
    (ps : list Decimal) :
  Backpack.parse_prices (t :: rest) = Return ps -> ps <> [].
Proof.
  cbn. destruct t as [|d]; cbn; [discriminate|].
  destruct (Backpack.parse_prices rest); cbn; [|discriminate].
  intros E. injection E as <-. discriminate.
Qed.

Lemma handle_orderbook_update_parsed
    (ws : Backpack.WebSocketManager) (bids asks : list BackpackStream.level)
    (bid_prices ask_prices : list Decimal) :
  Backpack.parse_prices (BackpackStream.prices bids) = Return bid_prices ->
  Backpack.parse_prices (BackpackStream.prices asks) = Return ask_prices ->
  let ws' := BackpackStream._handle_orderbook_update ws bids asks in
  Backpack.best_bid ws'
  = match bids with
    | [] => Backpack.best_bid ws
    | _ => Backpack.first_best (fun y x => negb (Qle_bool y x)) bid_prices
    end
  /\ Backpack.best_ask ws'
     = match asks with
       | [] => Backpack.best_ask ws
       | _ => Backpack.first_best (fun y x => negb (Qle_bool x y)) ask_prices
       end
  /\ Backpack.order_book_ready ws'
     = (Backpack.order_book_ready ws
        || (truthy (Backpack.best_bid ws') && truthy (Backpack.best_ask ws')))%bool.
Proof.
  intros Hb Ha. unfold BackpackStream._handle_orderbook_update.
  destruct bids as [|b0 bids]; destruct asks as [|a0 asks];
    rewrite ?Hb, ?Ha; cbn [bind];
    cbn [Backpack.order_book_ready Backpack.best_bid Backpack.best_ask];
    match goal with
    | |- context [if ?c then _ else _] => destruct c eqn:E
    end;
    cbn [Backpack.order_book_ready Backpack.best_bid Backpack.best_ask];
    (split; [reflexivity|]); (split; [reflexivity|]).
  all: try (apply andb_true_iff in E; destruct E as [E1 E3];
            apply andb_true_iff in E1; destruct E1 as [E1 E2];
            rewrite E2, E3; cbn; now rewrite orb_true_r).
  all: destruct (Backpack.order_book_ready ws); cbn in *; try reflexivity;
    symmetry; exact E.
Qed.

Lemma first_best_some (better : Decimal -> Decimal -> bool) (l : list Decimal) :
  l <> [] -> exists m, Backpack.first_best better l = Some m.
Proof.
  destruct l as [|x l]; intros H; [contradiction|]. cbn.
  destruct (Backpack.first_best better l) as [y|];
    [destruct (better y x)|]; eexists; reflexivity.
Qed.

Lemma handle_orderbook_update_keeps
    (ws : Backpack.WebSocketManager) (bids asks : list BackpackStream.level) :
  let ws' := BackpackStream._handle_orderbook_update ws bids asks in
  (Backpack.best_bid ws' = Backpack.best_bid ws
   \/ exists m, Backpack.best_bid ws' = Some m)
  /\ (Backpack.best_ask ws' = Backpack.best_ask ws
      \/ exists m, Backpack.best_ask ws' = Some m)
  /\ (Backpack.order_book_ready ws = true -> Backpack.order_book_ready ws' = true)
  /\ (Backpack.order_book_ready ws' = true ->
      Backpack.order_book_ready ws = true
      \/ (truthy (Backpack.best_bid ws') = true
          /\ truthy (Backpack.best_ask ws') = true)).
Proof.
  unfold BackpackStream._handle_orderbook_update.
  destruct bids as [|b0 bids].
  - destruct asks as [|a0 asks].
    + cbn [bind].
      match goal with |- context [if ?c then _ else _] => destruct c eqn:E end;
        cbn; repeat split; auto.
      apply andb_true_iff in E. destruct E as [E1 E3].
      apply andb_true_iff in E1. destruct E1 as [_ E2]. right. now split.
    + destruct (Backpack.parse_prices (BackpackStream.prices (a0 :: asks)))
        as [ps|e] eqn:Pa; cbn [bind].
      * destruct (first_best_some (fun y x => negb (Qle_bool x y)) ps
                    (parse_prices_nonempty _ _ _ Pa)) as [m Em].
        rewrite Em.
        match goal with |- context [if ?c then _ else _] => destruct c eqn:E end;
          cbn; repeat split; eauto.
        apply andb_true_iff in E. destruct E as [E1 E3].
        apply andb_true_iff in E1. destruct E1 as [_ E2]. right. now split.
      * cbn. repeat split; auto.
  - destruct (Backpack.parse_prices (BackpackStream.prices (b0 :: bids)))
      as [pb|e] eqn:Pb; cbn [bind]; [|cbn; repeat split; auto].
    destruct (first_best_some (fun y x => negb (Qle_bool y x)) pb
                (parse_prices_nonempty _ _ _ Pb)) as [mb Eb].
    rewrite Eb.
    destruct asks as [|a0 asks].
    + match goal with |- context [if ?c then _ else _] => destruct c eqn:E end;
        cbn; repeat split; eauto.
      apply andb_true_iff in E. destruct E as [E1 E3].
      apply andb_true_iff in E1. destruct E1 as [_ E2]. right. now split.
    + destruct (Backpack.parse_prices (BackpackStream.prices (a0 :: asks)))
        as [ps|e] eqn:Pa; cbn [bind].
      * destruct (first_best_some (fun y x => negb (Qle_bool x y)) ps
                    (parse_prices_nonempty _ _ _ Pa)) as [m Em].
        rewrite Em.
        match goal with |- context [if ?c then _ else _] => destruct c eqn:E end;
          cbn; repeat split; eauto.
        apply andb_true_iff in E. destruct E as [E1 E3].
        apply andb_true_iff in E1. destruct E1 as [_ E2]. right. now split.
      * cbn. repeat split; eauto.
Qed.

(** X14.  A Backpack depth message whose prices parse publishes, for each
    side that has levels, the best price of the message itself: the highest
    bid price and the lowest ask price among its levels, whatever was
    published before and whatever the sizes of the levels (they are never
    read); a side without levels keeps its value.  The manager is ready
    afterwards exactly when it was before or both published sides are
    present and not zero. *)
Theorem backpack_depth_publishes_message_best :
  forall (ws : Backpack.WebSocketManager) (bids asks : list BackpackStream.level)
         (bid_prices ask_prices : list Decimal),
    Backpack.parse_prices (BackpackStream.prices bids) = Return bid_prices ->
    Backpack.parse_prices (BackpackStream.prices asks) = Return ask_prices ->
    let ws' := BackpackStream._handle_orderbook_update ws bids asks in
    (bids = [] -> Backpack.best_bid ws' = Backpack.best_bid ws)
    /\ (bids <> [] ->
        exists m, Backpack.best_bid ws' = Some m
                  /\ In m bid_prices /\ forall p, In p bid_prices -> p <= m)
    /\ (asks = [] -> Backpack.best_ask ws' = Backpack.best_ask ws)
    /\ (asks <> [] ->
        exists m, Backpack.best_ask ws' = Some m
                  /\ In m ask_prices /\ forall p, In p ask_prices -> m <= p)
    /\ Backpack.order_book_ready ws'
       = (Backpack.order_book_ready ws
          || (truthy (Backpack.best_bid ws') && truthy (Backpack.best_ask ws')))%bool.
Proof.
  intros ws bids asks bid_prices ask_prices Hb Ha ws'.
  destruct (handle_orderbook_update_parsed ws bids asks bid_prices ask_prices
              Hb Ha) as [Ebid [Eask Eready]].
  fold ws' in Ebid, Eask, Eready.
  split; [intros ->; exact Ebid|].
  split.
  { intros Hne. destruct bids as [|b0 bids]; [contradiction|].
    rewrite Ebid. apply first_best_highest.
    exact (parse_prices_nonempty _ _ _ Hb). }
  split; [intros ->; exact Eask|].
  split; [|exact Eready].
  intros Hne. destruct asks as [|a0 asks]; [contradiction|].
  rewrite Eask. apply first_best_lowest.
  exact (parse_prices_nonempty _ _ _ Ha).
Qed.

(** A delta that only names a deeper bid level, with size zero: its price
    replaces the better bid published before. *)
Lemma backpack_depth_publishes_message_best_witness :
  let ws := {| Backpack.best_bid := Some 100; Backpack.best_ask := Some 101;
               Backpack.order_book_ready := true |} in
  let ws' := BackpackStream._handle_orderbook_update ws
               [(Parsed 95, "0"%string)] [] in
  (exists m, Backpack.best_bid ws' = Some m /\ In m [95] /\
             forall p, In p [95] -> p <= m)
  /\ Backpack.best_ask ws' = Some 101.
Proof.
  intros ws ws'.
  destruct (backpack_depth_publishes_message_best ws
              [(Parsed 95, "0"%string)] [] [95] [] eq_refl eq_refl)
    as [_ [Hbid [Hask _]]].
  split; [apply Hbid; discriminate | apply Hask; reflexivity].
Defined.

(** X15.  A price that does not parse aborts the handling of a Backpack
    depth message at that point, without an exception leaving the handler:
    when it is among the bids nothing changes, not even the ask side; when it
    is among the asks the bid already published from the message stays, and
    the ask and the ready flag are left as they were. *)
Theorem backpack_depth_malformed_price :
  forall (ws : Backpack.WebSocketManager) (bids asks : list BackpackStream.level),
    (forall e, Backpack.parse_prices (BackpackStream.prices bids) = Raise e ->
               BackpackStream._handle_orderbook_update ws bids asks = ws)
    /\ (forall bid_prices e,
           Backpack.parse_prices (BackpackStream.prices bids) = Return bid_prices ->
           Backpack.parse_prices (BackpackStream.prices asks) = Raise e ->
           let ws' := BackpackStream._handle_orderbook_update ws bids asks in
           Backpack.best_ask ws' = Backpack.best_ask ws
           /\ Backpack.order_book_ready ws' = Backpack.order_book_ready ws
           /\ Backpack.best_bid ws'
              = match bids with
                | [] => Backpack.best_bid ws
                | _ => Backpack.first_best (fun y x => negb (Qle_bool y x))
                         bid_prices
                end).
Proof.
  intros ws bids asks. split.
  - intros e Hb. unfold BackpackStream._handle_orderbook_update.
    destruct bids as [|b0 bids]; [discriminate Hb|].
    rewrite Hb. reflexivity.
  - intros bid_prices e Hb Ha. unfold BackpackStream._handle_orderbook_update.
    destruct asks as [|a0 asks]; [discriminate Ha|].
    destruct bids as [|b0 bids]; rewrite ?Hb, Ha; cbn; repeat split.
Qed.

Lemma backpack_depth_malformed_price_witness :
  let ws := {| Backpack.best_bid := Some 100; Backpack.best_ask := Some 101;
               Backpack.order_book_ready := true |} in
  BackpackStream._handle_orderbook_update ws
    [(Parsed 99, "1"%string); (Malformed, "2"%string)] [(Parsed 100, "3"%string)]
  = ws
  /\ Backpack.best_ask
       (BackpackStream._handle_orderbook_update ws [(Parsed 99, "1"%string)]
          [(Malformed, "3"%string)]) = Some 101.
Proof.
  intros ws. split.
  - apply (proj1 (backpack_depth_malformed_price ws
                    [(Parsed 99, "1"%string); (Malformed, "2"%string)]
                    [(Parsed 100, "3"%string)])
             (mkExn "InvalidOperation" "[<class 'decimal.ConversionSyntax'>]")).
    reflexivity.
  - apply (proj2 (backpack_depth_malformed_price ws [(Parsed 99, "1"%string)]
                    [(Malformed, "3"%string)])
             [99] (mkExn "InvalidOperation" "[<class 'decimal.ConversionSyntax'>]"));
      reflexivity.
Defined.

Lemma handle_message_keeps (ws : Backpack.WebSocketManager)
    (m : option BackpackStream.message) :
  let ws' := match m with
             | Some data => BackpackStream._handle_message ws data
             | None => ws
             end in
  (Backpack.best_bid ws <> None -> Backpack.best_bid ws' <> None)
  /\ (Backpack.best_ask ws <> None -> Backpack.best_ask ws' <> None)
  /\ (Backpack.order_book_ready ws = true -> Backpack.order_book_ready ws' = true)
  /\ (ready_has_quote ws -> ready_has_quote ws').
Proof.
  destruct m as [data|]; [|cbv zeta; split; [auto | split; [auto | split; auto]]].
  unfold BackpackStream._handle_message.
  destruct (BackpackStream.contains "depth" (BackpackStream.stream data));
    [|cbv zeta; split; [auto | split; [auto | split; auto]]].
  destruct (handle_orderbook_update_keeps ws (BackpackStream.b data)
              (BackpackStream.a data)) as [Hb [Ha [Hr Hq]]].
  cbv zeta in *.
  set (ws' := BackpackStream._handle_orderbook_update ws (BackpackStream.b data)
                (BackpackStream.a data)) in *.
  assert (Kb : Backpack.best_bid ws <> None -> Backpack.best_bid ws' <> None)
    by (destruct Hb as [-> | [m ->]]; [auto | discriminate]).
  assert (Ka : Backpack.best_ask ws <> None -> Backpack.best_ask ws' <> None)
    by (destruct Ha as [-> | [m ->]]; [auto | discriminate]).
  split; [exact Kb|]. split; [exact Ka|]. split; [exact Hr|].
  intros Hinv R'. destruct (Hq R') as [R | [Tb Ta]].
  - destruct (Hinv R) as [Nb Na]. split; auto.
  - split; intros N; [rewrite N in Tb | rewrite N in Ta]; discriminate.
Qed.

(** X16.  The Backpack manager never withdraws a quote: over any messages
    handled by [_listen] (depth messages, others, undecodable texts), a side
    of the quote that is set stays set and the ready flag, once raised, stays
    raised; and from the manager as [__init__] leaves it, a raised ready flag
    always comes with both sides of the quote set. *)
Theorem backpack_listen_keeps_quote :
  forall (received : list (option BackpackStream.message)),
    ready_has_quote (BackpackStream._listen backpack_ws_init received)
    /\ forall ws,
         let ws' := BackpackStream._listen ws received in
         (Backpack.best_bid ws <> None -> Backpack.best_bid ws' <> None)
         /\ (Backpack.best_ask ws <> None -> Backpack.best_ask ws' <> None)
         /\ (Backpack.order_book_ready ws = true ->
             Backpack.order_book_ready ws' = true).
Proof.
  intros received.
  assert (H : forall ws,
             let ws' := BackpackStream._listen ws received in
             (Backpack.best_bid ws <> None -> Backpack.best_bid ws' <> None)
             /\ (Backpack.best_ask ws <> None -> Backpack.best_ask ws' <> None)
             /\ (Backpack.order_book_ready ws = true ->
                 Backpack.order_book_ready ws' = true)
             /\ (ready_has_quote ws -> ready_has_quote ws')).
  { unfold BackpackStream._listen.
    induction received as [|m received IH]; intros ws; cbn [fold_left];
      [cbv zeta; split; [auto | split; [auto | split; auto]]|].
    destruct (handle_message_keeps ws m) as [H1 [H2 [H3 H4]]].
    cbv zeta in H1, H2, H3, H4.
    match goal with
    | |- context [fold_left _ received ?w] =>
        destruct (IH w) as [I1 [I2 [I3 I4]]]
    end.
    cbv zeta. split; [auto | split; [auto | split; auto]]. }
  split.
  - destruct (H backpack_ws_init) as [_ [_ [_ H4]]]. apply H4.
    intros R. discriminate R.
  - intros ws. destruct (H ws) as [H1 [H2 [H3 _]]]. repeat split; assumption.
Qed.

Lemma backpack_listen_keeps_quote_witness :
  let ws := {| Backpack.best_bid := Some 100; Backpack.best_ask := Some 101;
               Backpack.order_book_ready := true |} in
  let ws' := BackpackStream._listen ws
               [Some {| BackpackStream.stream := "depth.ETH_USDC_PERP";
                        BackpackStream.b := [(Parsed 0, "0"%string)];
                        BackpackStream.a := [] |};
                None] in
  Backpack.best_bid ws' <> None /\ Backpack.order_book_ready ws' = true.
Proof.
  intros ws ws'.
  destruct (proj2 (backpack_listen_keeps_quote
                     [Some {| BackpackStream.stream := "depth.ETH_USDC_PERP";
                              BackpackStream.b := [(Parsed 0, "0"%string)];
                              BackpackStream.a := [] |};
                      None]) ws) as [H1 [_ H3]].
  split; [apply H1; discriminate | apply H3; reflexivity].
Defined.

(* ================================================================== *)
(** ** Properties of the mid prices, of the shutdown and of the command line *)
(* ================================================================== *)

Lemma mid_price_of_quote (bid ask : option Decimal) :
  let mid :=
    if (truthy bid && truthy ask)%bool
    then match bid, ask with
         | Some b, Some a => Some ((b + a) / 2)
         | _, _ => None
         end
    else None in
  (forall x, mid = Some x <-> is_mid_of bid ask x)
  /\ (absent_or_zero bid \/ absent_or_zero ask -> mid = None)
  /\ (forall b a x, bid = Some b -> ask = Some a -> mid = Some x -> b <= a ->
                    b <= x /\ x <= a).
Proof.
  unfold is_mid_of, absent_or_zero.
  destruct bid as [b|], ask as [a|]; cbn [truthy andb negb];
    try (split; [intros x; split;
                 [discriminate | intros (b' & a' & ? & ? & _); discriminate]
                |split; [reflexivity | intros; discriminate]]).
  - destruct (Qeq_bool b 0) eqn:Eb; [|destruct (Qeq_bool a 0) eqn:Ea];
      cbn [negb andb].
    + split; [|split; [reflexivity | discriminate]].
      intros x. split; [discriminate|].
      intros (b' & a' & Hb & _ & Nb & _). injection Hb as <-.
      apply Qeq_bool_iff in Eb. contradiction.
    + split; [|split; [reflexivity | discriminate]].
      intros x. split; [discriminate|].
      intros (b' & a' & _ & Ha & _ & Na & _). injection Ha as <-.
      apply Qeq_bool_iff in Ea. contradiction.
    + assert (Nb : ~ b == 0)
        by (intros Z; apply Qeq_bool_iff in Z; congruence).
      assert (Na : ~ a == 0)
        by (intros Z; apply Qeq_bool_iff in Z; congruence).
      split; [|split].
      * intros x. split.
        -- intros E. injection E as <-. exists b, a. repeat split; assumption.
        -- intros (b' & a' & Hb & Ha & _ & _ & ->).
           injection Hb as <-. injection Ha as <-. reflexivity.
      * intros [Z | Z]; contradiction.
      * intros b' a' x Hb Ha E L.
        injection Hb as <-. injection Ha as <-. injection E as <-.
        split; [apply Qle_shift_div_l | apply Qle_shift_div_r];
          try reflexivity; lra.
  - rewrite andb_false_r.
    split; [intros x; split;
            [discriminate | intros (b' & a' & ? & ? & _); discriminate]|].
    split; [reflexivity | intros; discriminate].
Qed.

(** X17.  [get_mid_prices] gives each venue's mid price from that venue's
    quote alone, whatever the other venue and the ready flags say: it is
    the half-sum of bid and ask exactly when both are present and not zero,
    and [None] as soon as one of them is absent or zero; the half-sum lies
    between bid and ask when the book is not crossed.  With [get_spread]:
    when both spreads are given, both mids are, and twice the difference of
    the mids (Lighter minus Backpack) is the long spread minus the short
    spread. *)
Theorem mid_prices_between_quotes :
  forall m : OrderBookManager.t,
    let bp_bid := OrderBookManager.backpack_best_bid m in
    let bp_ask := OrderBookManager.backpack_best_ask m in
    let lt_bid := OrderBookManager.lighter_best_bid m in
    let lt_ask := OrderBookManager.lighter_best_ask m in
    let bp_mid := fst (get_mid_prices m) in
    let lt_mid := snd (get_mid_prices m) in
    (forall x, bp_mid = Some x <-> is_mid_of bp_bid bp_ask x)
    /\ (forall x, lt_mid = Some x <-> is_mid_of lt_bid lt_ask x)
    /\ (absent_or_zero bp_bid \/ absent_or_zero bp_ask -> bp_mid = None)
    /\ (absent_or_zero lt_bid \/ absent_or_zero lt_ask -> lt_mid = None)
    /\ (forall m',
           OrderBookManager.backpack_best_bid m' = bp_bid ->
           OrderBookManager.backpack_best_ask m' = bp_ask ->
           fst (get_mid_prices m') = bp_mid)
    /\ (forall m',
           OrderBookManager.lighter_best_bid m' = lt_bid ->
           OrderBookManager.lighter_best_ask m' = lt_ask ->
           snd (get_mid_prices m') = lt_mid)
    /\ (forall b a x, bp_bid = Some b -> bp_ask = Some a -> bp_mid = Some x ->
                      b <= a -> b <= x /\ x <= a)
    /\ (forall b a x, lt_bid = Some b -> lt_ask = Some a -> lt_mid = Some x ->
                      b <= a -> b <= x /\ x <= a)
    /\ (forall long short,
           OrderBookManager.get_spread m = (Some long, Some short) ->
           exists bp_x lt_x,
             get_mid_prices m = (Some bp_x, Some lt_x)
             /\ 2 * (lt_x - bp_x) == long - short).
Proof.
  intros m bp_bid bp_ask lt_bid lt_ask bp_mid lt_mid.
  destruct (mid_price_of_quote bp_bid bp_ask) as (B1 & B2 & B3).
  destruct (mid_price_of_quote lt_bid lt_ask) as (L1 & L2 & L3).
  split; [exact B1|]. split; [exact L1|]. split; [exact B2|].
  split; [exact L2|].
  split; [intros m' Hb Ha; unfold bp_mid, get_mid_prices; cbn [fst];
          rewrite Hb, Ha; reflexivity|].
  split; [intros m' Hb Ha; unfold lt_mid, get_mid_prices; cbn [snd];
          rewrite Hb, Ha; reflexivity|].
  split; [exact B3|]. split; [exact L3|].
  clear B1 B2 B3 L1 L2 L3. subst bp_mid lt_mid bp_bid bp_ask lt_bid lt_ask.
  intros long short.
  unfold get_mid_prices, OrderBookManager.get_spread.
  destruct (negb (OrderBookManager.is_ready m)); [discriminate|].
  destruct (OrderBookManager.backpack_best_bid m) as [bb|];
    destruct (OrderBookManager.backpack_best_ask m) as [ba|];
    destruct (OrderBookManager.lighter_best_bid m) as [lb|];
    destruct (OrderBookManager.lighter_best_ask m) as [la|];
    cbn [truthy andb negb]; try discriminate;
    try (match goal with
         | |- (if ?c then _ else _) = _ -> _ => destruct c; discriminate
         end).
  destruct (Qeq_bool lb 0), (Qeq_bool ba 0), (Qeq_bool bb 0), (Qeq_bool la 0);
    cbn; try discriminate.
  intros E. injection E as <- <-.
  eexists; eexists. split; [reflexivity | field].
Qed.

(** A manager without quotes has no mid price; with the quotes (100, 101)
    and (106, 107) the mids are 100.5 and 106.5, the former between 100 and
    101, and twice their difference is 5 - (-7). *)
Lemma mid_prices_between_quotes_witness :
  get_mid_prices OrderBookManager.init = (None, None)
  /\ (100 <= (100 + 101) / 2 /\ (100 + 101) / 2 <= 101)
  /\ exists bp_x lt_x,
       get_mid_prices (quoted 100 101 106 107) = (Some bp_x, Some lt_x)
       /\ 2 * (lt_x - bp_x) == 5 - -7.
Proof.
  split; [|split].
  - destruct (mid_prices_between_quotes OrderBookManager.init)
      as (_ & _ & B & L & _).
    rewrite (surjective_pairing (get_mid_prices OrderBookManager.init)).
    rewrite B, L; [reflexivity | left; exact I | left; exact I].
  - destruct (mid_prices_between_quotes (quoted 100 101 106 107))
      as (_ & _ & _ & _ & _ & _ & B & _).
    apply (B 100 101 ((100 + 101) / 2)); try reflexivity. discriminate.
  - destruct (mid_prices_between_quotes (quoted 100 101 106 107))
      as (_ & _ & _ & _ & _ & _ & _ & _ & S).
    apply (S 5 (-7)). reflexivity.
Defined.

Lemma shutdown_logs_app (t1 t2 : list Lifecycle.event) :
  shutdown_logs (t1 ++ t2) = (shutdown_logs t1 + shutdown_logs t2)%nat.
Proof. unfold shutdown_logs. now rewrite filter_app, length_app. Qed.

Lemma disconnects_app (v : Arb.venue) (t1 t2 : list Lifecycle.event) :
  disconnects v (t1 ++ t2) = (disconnects v t1 + disconnects v t2)%nat.
Proof. unfold disconnects. now rewrite filter_app, length_app. Qed.

Lemma logger_closes_app (t1 t2 : list Lifecycle.event) :
  logger_closes (t1 ++ t2) = (logger_closes t1 + logger_closes t2)%nat.
Proof. unfold logger_closes. now rewrite filter_app, length_app. Qed.

Lemma run_calls_counts (has_backpack has_lighter has_data_logger : bool)
    (calls : list Lifecycle.call) :
  forall self : Lifecycle.t,
    let trace := snd (Lifecycle.run_calls self has_backpack has_lighter
                        has_data_logger calls) in
    let fresh := negb (Lifecycle._cleanup_done self) in
    shutdown_logs trace
    = once_if (negb (Lifecycle.stop_flag self) && existsb is_shutdown calls)
    /\ disconnects Arb.Backpack_venue trace
       = once_if (fresh && existsb is_cleanup calls && has_backpack)
    /\ disconnects Arb.Lighter_venue trace
       = once_if (fresh && reaches_lighter has_backpack calls && has_lighter)
    /\ logger_closes trace
       = once_if (fresh && reaches_logger has_backpack has_lighter calls
                  && has_data_logger).
Proof.
  induction calls as [|c calls IH]; intros self.
  - cbn. rewrite !andb_false_r. cbn. repeat split.
  - cbn [Lifecycle.run_calls].
    destruct c as [|bp_disconnect lt_disconnect].
    + unfold Lifecycle.shutdown.
      change (reaches_lighter has_backpack (Lifecycle.Shutdown :: calls))
        with (reaches_lighter has_backpack calls).
      change (reaches_logger has_backpack has_lighter
                (Lifecycle.Shutdown :: calls))
        with (reaches_logger has_backpack has_lighter calls).
      destruct (Lifecycle.stop_flag self) eqn:S.
      * specialize (IH self). cbv zeta in IH.
        destruct (Lifecycle.run_calls self has_backpack has_lighter
                    has_data_logger calls) as [self2 events'].
        cbn [snd app] in *. rewrite S in IH. cbn in *. exact IH.
      * specialize (IH {| Lifecycle.stop_flag := true;
                          Lifecycle._cleanup_done := Lifecycle._cleanup_done self |}).
        cbv zeta in IH.
        destruct (Lifecycle.run_calls _ has_backpack has_lighter
                    has_data_logger calls) as [self2 events'].
        cbn [snd] in *.
        cbn [Lifecycle.stop_flag Lifecycle._cleanup_done negb andb] in IH.
        destruct IH as [I1 [I2 [I3 I4]]].
        rewrite shutdown_logs_app, !disconnects_app, logger_closes_app.
        rewrite I1, I2, I3, I4. cbn. repeat split.
    + unfold Lifecycle._async_cleanup.
      destruct (Lifecycle._cleanup_done self) eqn:D.
      * specialize (IH self). cbv zeta in IH.
        destruct (Lifecycle.run_calls self has_backpack has_lighter
                    has_data_logger calls) as [self2 events'].
        cbn [snd app] in *. rewrite D in IH. cbn in *. exact IH.
      * specialize (IH {| Lifecycle.stop_flag := Lifecycle.stop_flag self;
                          Lifecycle._cleanup_done := true |}).
        cbv zeta in IH.
        cbn [Lifecycle.stop_flag Lifecycle._cleanup_done negb andb] in IH.
        destruct IH as [I1 [I2 [I3 I4]]].
        unfold reaches_lighter, reaches_logger, Lifecycle.disconnect_client.
        cbn [first_cleanup existsb is_cleanup is_shutdown negb orb andb].
        destruct has_backpack, has_lighter, has_data_logger,
          bp_disconnect, lt_disconnect;
          cbv beta iota zeta;
          destruct (Lifecycle.run_calls _ _ _ _ calls) as [self2 events'];
          cbn [Lifecycle.is_cancelled negb andb app snd] in *;
          unfold shutdown_logs, disconnects, logger_closes in *;
          cbn [filter List.length];
          rewrite ?I1, ?I2, ?I3, ?I4;
          repeat split; reflexivity.
Qed.

(** X18.  Shutdown and cleanup take effect at most once, however often and
    in whatever order [shutdown] and [_async_cleanup] are called on a fresh
    bot.  The shutdown is logged exactly once if [shutdown] is called at
    all.  Only the first [_async_cleanup] does anything, since it sets
    [_cleanup_done] before it awaits: it calls [disconnect()] on the Backpack
    client if that is set; it goes on to the Lighter client unless that call
    is cancelled (it may raise), and to the data logger unless the Lighter
    call is cancelled.  So each client is disconnected at most once and the
    logger closed at most once, exactly once when no [disconnect()] is
    cancelled; and after a cancelled Backpack [disconnect()] the Lighter
    client is never disconnected, whatever calls follow. *)
Theorem cleanup_runs_once :
  forall (has_backpack has_lighter has_data_logger : bool)
         (calls : list Lifecycle.call),
    let trace := snd (Lifecycle.run_calls Lifecycle.init has_backpack
                        has_lighter has_data_logger calls) in
    shutdown_logs trace = once_if (existsb is_shutdown calls)
    /\ disconnects Arb.Backpack_venue trace
       = once_if (existsb is_cleanup calls && has_backpack)
    /\ disconnects Arb.Lighter_venue trace
       = once_if (reaches_lighter has_backpack calls && has_lighter)
    /\ logger_closes trace
       = once_if (reaches_logger has_backpack has_lighter calls
                  && has_data_logger)
    /\ (first_cleanup calls = None <-> existsb is_cleanup calls = false)
    /\ (forall bp_disconnect lt_disconnect,
          first_cleanup calls = Some (bp_disconnect, lt_disconnect) ->
          bp_disconnect <> Lifecycle.Cancelled ->
          disconnects Arb.Lighter_venue trace = once_if has_lighter
          /\ (lt_disconnect <> Lifecycle.Cancelled ->
              logger_closes trace = once_if has_data_logger))
    /\ (forall lt_disconnect,
          first_cleanup calls = Some (Lifecycle.Cancelled, lt_disconnect) ->
          has_backpack = true ->
          disconnects Arb.Lighter_venue trace = 0%nat
          /\ logger_closes trace = 0%nat).
Proof.
  intros has_backpack has_lighter has_data_logger calls trace.
  destruct (run_calls_counts has_backpack has_lighter has_data_logger calls
              Lifecycle.init) as (H1 & H2 & H3 & H4).
  fold trace in H1, H2, H3, H4.
  cbn [Lifecycle.init Lifecycle.stop_flag Lifecycle._cleanup_done negb andb]
    in H1, H2, H3, H4.
  split; [exact H1|]. split; [exact H2|]. split; [exact H3|].
  split; [exact H4|]. split; [|split].
  - clear. induction calls as [|[|bp lt] calls IH]; cbn.
    + split; reflexivity.
    + exact IH.
    + split; discriminate.
  - intros bp lt E Nbp. rewrite H3, H4.
    unfold reaches_lighter, reaches_logger. rewrite E.
    destruct bp; try contradiction; rewrite !andb_false_r; cbn [negb andb].
    all: split; [reflexivity|].
    all: intros Nlt; destruct lt; try contradiction;
      rewrite !andb_false_r; reflexivity.
  - intros lt E ->. rewrite H3, H4.
    unfold reaches_lighter, reaches_logger. rewrite E. split; reflexivity.
Qed.

(** The signal handler and [run] both shut down and clean up: the Backpack
    client fails to disconnect, and the rest of the cleanup runs once. *)
Lemma cleanup_runs_once_witness :
  let failed := Lifecycle.Raises (mkExn "ConnectionClosed" "no close frame") in
  let trace :=
    snd (Lifecycle.run_calls Lifecycle.init true true true
           [Lifecycle.Shutdown; Lifecycle.Cleanup failed Lifecycle.Returns;
            Lifecycle.Shutdown;
            Lifecycle.Cleanup Lifecycle.Returns Lifecycle.Returns]) in
  let hung :=
    snd (Lifecycle.run_calls Lifecycle.init true true true
           [Lifecycle.Shutdown;
            Lifecycle.Cleanup Lifecycle.Cancelled Lifecycle.Returns;
            Lifecycle.Cleanup Lifecycle.Returns Lifecycle.Returns]) in
  (disconnects Arb.Lighter_venue trace = 1%nat /\ logger_closes trace = 1%nat)
  /\ (disconnects Arb.Lighter_venue hung = 0%nat /\ logger_closes hung = 0%nat).
Proof.
  intros failed trace hung. split.
  - destruct (cleanup_runs_once true true true
                [Lifecycle.Shutdown; Lifecycle.Cleanup failed Lifecycle.Returns;
                 Lifecycle.Shutdown;
                 Lifecycle.Cleanup Lifecycle.Returns Lifecycle.Returns])
      as (_ & _ & _ & _ & _ & H & _).
    destruct (H failed Lifecycle.Returns eq_refl) as [H1 H2]; [discriminate|].
    split; [exact H1 | apply H2; discriminate].
  - destruct (cleanup_runs_once true true true
                [Lifecycle.Shutdown;
                 Lifecycle.Cleanup Lifecycle.Cancelled Lifecycle.Returns;
                 Lifecycle.Cleanup Lifecycle.Returns Lifecycle.Returns])
      as (_ & _ & _ & _ & _ & _ & H).
    exact (H Lifecycle.Returns eq_refl eq_refl).
Defined.

(** The traces of the two runs. *)
Example cleanup_twice :
  let failed := Lifecycle.Raises (mkExn "ConnectionClosed" "no close frame") in
  snd (Lifecycle.run_calls Lifecycle.init true true true
         [Lifecycle.Shutdown; Lifecycle.Cleanup failed Lifecycle.Returns;
          Lifecycle.Shutdown;
          Lifecycle.Cleanup Lifecycle.Returns Lifecycle.Returns])
  = [Lifecycle.Log_shutting_down;
     Lifecycle.Disconnect Arb.Backpack_venue;
     Lifecycle.Log_disconnect_error Arb.Backpack_venue;
     Lifecycle.Disconnect Arb.Lighter_venue;
     Lifecycle.Log_disconnected Arb.Lighter_venue;
     Lifecycle.Close_data_logger]
  /\ snd (Lifecycle.run_calls Lifecycle.init true true true
            [Lifecycle.Shutdown;
             Lifecycle.Cleanup Lifecycle.Cancelled Lifecycle.Returns;
             Lifecycle.Cleanup Lifecycle.Returns Lifecycle.Returns])
     = [Lifecycle.Log_shutting_down; Lifecycle.Disconnect Arb.Backpack_venue].
Proof. split; reflexivity. Qed.

Lemma validated_arguments (a : Cli.args) :
  Cli.validate_args a = true <->
  exists q l s,
    Cli.size a = Some q /\ Cli.long_threshold a = Some l
    /\ Cli.short_threshold a = Some s
    /\ is_positive q /\ is_not_negative l /\ is_not_negative s.
Proof.
  unfold Cli.validate_args, Cli.Decimal_of, Cli.le_zero, Cli.lt_zero, bind,
    is_positive, is_not_negative.
  destruct a as [q l s m]. cbn [Cli.size Cli.long_threshold Cli.short_threshold].
  split.
  - destruct q as [[dq | [|] |]|], l as [[dl | [|] |]|], s as [[ds | [|] |]|];
      cbn;
      repeat match goal with
             | |- context [Qle_bool ?x ?y] => destruct (Qle_bool x y) eqn:?; cbn
             end;
      try discriminate;
      intros _; do 3 eexists;
      repeat (split; [reflexivity|]);
      repeat split;
      try reflexivity;
      try (now apply Qle_bool_iff);
      try (now apply Qle_bool_false_lt).
  - intros (q' & l' & s' & -> & -> & -> & Hq & Hl & Hs).
    destruct q' as [dq | [|] |]; try contradiction; try discriminate Hq;
      destruct l' as [dl | [|] |]; try contradiction; try discriminate Hl;
      destruct s' as [ds | [|] |]; try contradiction; try discriminate Hs;
      repeat match goal with
             | H : 0 < ?d |- context [Qle_bool ?d 0] =>
                 replace (Qle_bool d 0) with false
                   by (symmetry; destruct (Qle_bool d 0) eqn:E;
                       [apply Qle_bool_iff in E; exfalso;
                        exact (Qlt_not_le _ _ H E) | reflexivity])
             | H : 0 <= ?d |- context [Qle_bool 0 ?d] =>
                 replace (Qle_bool 0 d) with true
                   by (symmetry; now apply Qle_bool_iff)
             end;
      reflexivity.
Qed.

(** X19.  [main] constructs the bot exactly when the size parses to a
    positive Decimal, the two thresholds parse to Decimals that are not
    negative, and the maximum position parses; the bot then gets the parsed
    values as they are.  The maximum position is only parsed, not checked:
    every Decimal is accepted for it, negative ones and NaN included.  A NaN
    size or threshold ends the process, as a text that does not parse does;
    the positive infinity passes as a size and as a threshold. *)
Theorem main_builds_validated_bot :
  forall (a : Cli.args) (bot : Cli.bot_arguments),
    Cli.main_arguments a = Some bot <->
    (Cli.size a = Some (Cli.bot_order_quantity bot)
     /\ Cli.long_threshold a = Some (Cli.bot_long_threshold bot)
     /\ Cli.short_threshold a = Some (Cli.bot_short_threshold bot)
     /\ Cli.max_position a = Some (Cli.bot_max_position bot)
     /\ is_positive (Cli.bot_order_quantity bot)
     /\ is_not_negative (Cli.bot_long_threshold bot)
     /\ is_not_negative (Cli.bot_short_threshold bot)).
Proof.
  intros a bot. unfold Cli.main_arguments. split.
  - destruct (Cli.validate_args a) eqn:V; [|discriminate].
    apply validated_arguments in V.
    destruct V as (q & l & s & Eq & El & Es & Hq & Hl & Hs).
    rewrite Eq, El, Es. destruct (Cli.max_position a) as [m|]; [|discriminate].
    cbn. intros E. injection E as <-. cbn. repeat split; assumption.
  - intros (Eq & El & Es & Em & Hq & Hl & Hs).
    assert (V : Cli.validate_args a = true).
    { apply validated_arguments. do 3 eexists. repeat split; eassumption. }
    rewrite V, Eq, El, Es, Em. cbn. destruct bot; reflexivity.
Qed.

(** The usage example of the script with a negative maximum position; a size
    of [Infinity]; and a size of [NaN], which ends the process. *)
Lemma main_builds_validated_bot_witness :
  Cli.main_arguments
    {| Cli.size := Some (Cli.Finite 0.001);
       Cli.long_threshold := Some (Cli.Finite 5);
       Cli.short_threshold := Some (Cli.Finite 5);
       Cli.max_position := Some (Cli.Finite (-1)) |}
  = Some {| Cli.bot_order_quantity := Cli.Finite 0.001;
            Cli.bot_long_threshold := Cli.Finite 5;
            Cli.bot_short_threshold := Cli.Finite 5;
            Cli.bot_max_position := Cli.Finite (-1) |}
  /\ Cli.main_arguments
       {| Cli.size := Some (Cli.Infinity false);
          Cli.long_threshold := Some (Cli.Finite 5);
          Cli.short_threshold := Some (Cli.Finite 5);
          Cli.max_position := Some Cli.NaN |}
     = Some {| Cli.bot_order_quantity := Cli.Infinity false;
               Cli.bot_long_threshold := Cli.Finite 5;
               Cli.bot_short_threshold := Cli.Finite 5;
               Cli.bot_max_position := Cli.NaN |}
  /\ forall bot,
       Cli.main_arguments
         {| Cli.size := Some Cli.NaN;
            Cli.long_threshold := Some (Cli.Finite 5);
            Cli.short_threshold := Some (Cli.Finite 5);
            Cli.max_position := Some (Cli.Finite 0) |}
       <> Some bot.
Proof.
  split; [|split].
  - apply main_builds_validated_bot. cbn.
    repeat split; (reflexivity || discriminate).
  - apply main_builds_validated_bot. cbn.
    repeat split; (reflexivity || discriminate).
  - intros bot E. apply main_builds_validated_bot in E.
    destruct E as (Eq & _ & _ & _ & Hq & _).
    cbn in Eq. injection Eq as Eq. rewrite <- Eq in Hq. exact Hq.
Defined.

Lemma wait_exponential_bounds (n : nat) :
  1 <= wait_exponential default_min_wait default_max_wait n
  /\ wait_exponential default_min_wait default_max_wait n <= 10.
Proof.
  unfold wait_exponential, default_min_wait, default_max_wait. split.
  - apply Qle_trans with (Qmax 0 1); [discriminate | apply Q.le_max_l].
  - apply Q.max_lub; [discriminate | apply Q.le_min_r].
Qed.

Section RetryAlways.

Context {A : Type}.
Variable callback : exn -> A.
Variable op : nat -> outcome A.

Let run (attempt_number remaining : nat) : retry_run A :=
  retrying any_Exception default_min_wait default_max_wait (Some callback) op
    attempt_number remaining.

Lemma retrying_always_returns (remaining : nat) :
  forall attempt_number,
    (exists v, outcome_of (run attempt_number remaining) = Return v
               /\ ((exists e, v = callback e)
                   \/ exists n, (attempt_number <= n <= attempt_number + remaining)%nat
                                /\ op n = Return v))
    /\ (1 <= invocations (run attempt_number remaining) <= S remaining)%nat
    /\ S (List.length (sleeps (run attempt_number remaining)))
       = invocations (run attempt_number remaining)
    /\ Forall (fun s => 1 <= s /\ s <= 10) (sleeps (run attempt_number remaining)).
Proof.
  unfold run.
  induction remaining as [|remaining IH]; intros attempt_number; cbn;
    destruct (op attempt_number) as [v|e] eqn:E; cbn.
  - split; [|repeat split; auto].
    exists v. split; [reflexivity|]. right. exists attempt_number. split; [lia|auto].
  - split; [|repeat split; auto].
    exists (callback e). split; [reflexivity|]. left. now exists e.
  - split; [|repeat split; auto; lia].
    exists v. split; [reflexivity|]. right. exists attempt_number. split; [lia|auto].
  - destruct (IH (S attempt_number)) as [[v [Hv Hsrc]] [Hinv [Hlen Hsl]]].
    split; [|split; [lia|split; [now rewrite Hlen|]]].
    + exists v. split; [exact Hv|].
      destruct Hsrc as [Hd | [n [Hn Hop]]]; [now left|].
      right. exists n. split; [lia | exact Hop].
    + constructor; [apply wait_exponential_bounds | exact Hsl].
Qed.

Lemma retrying_first_success (remaining : nat) :
  forall attempt_number k v,
    (attempt_number <= k <= attempt_number + remaining)%nat ->
    (forall j, (attempt_number <= j < k)%nat -> exists e, op j = Raise e) ->
    op k = Return v ->
    outcome_of (run attempt_number remaining) = Return v
    /\ invocations (run attempt_number remaining) = S (k - attempt_number).
Proof.
  unfold run.
  induction remaining as [|remaining IH]; intros attempt_number k v Hk Hfail Hok.
  - assert (k = attempt_number) by lia. subst k.
    cbn. rewrite Hok. cbn. split; [reflexivity | f_equal; lia].
  - destruct (Nat.eq_dec k attempt_number) as [-> | Hne].
    + cbn. rewrite Hok. cbn. split; [reflexivity | f_equal; lia].
    + destruct (Hfail attempt_number) as [e He]; [lia|].
      cbn. rewrite He. cbn.
      destruct (IH (S attempt_number) k v) as [H1 H2]; [lia| |exact Hok|].
      * intros j Hj. apply Hfail. lia.
      * split; [exact H1 | rewrite H2; f_equal; lia].
Qed.

End RetryAlways.

(** X20.  A function under [@query_retry] with the default settings never
    raises: it returns either a value that one of its at most five
    invocations produced or the default.  The first invocation that
    succeeds ends the run with its value, without further invocations; there
    is one sleep between consecutive invocations, each of 1 to 10 seconds.
    (The retry loop is the one modelled for [tenacity].) *)
Theorem query_retry_never_raises :
  forall (A : Type) (default_return : A) (op : nat -> outcome A),
    let run := query_retry_default default_return op in
    (exists v, outcome_of run = Return v
               /\ (v = default_return
                   \/ exists n, (1 <= n <= 5)%nat /\ op n = Return v))
    /\ (1 <= invocations run <= 5)%nat
    /\ S (List.length (sleeps run)) = invocations run
    /\ Forall (fun s => 1 <= s /\ s <= 10) (sleeps run)
    /\ forall k v,
         (1 <= k <= 5)%nat ->
         (forall j, (1 <= j < k)%nat -> exists e, op j = Raise e) ->
         op k = Return v ->
         outcome_of run = Return v /\ invocations run = k.
Proof.
  intros A default_return op run.
  destruct (retrying_always_returns (fun _ => default_return) op 4 1)
    as [[v [Hv Hsrc]] [Hinv [Hlen Hsl]]].
  split; [|split; [exact Hinv|split; [exact Hlen|split; [exact Hsl|]]]].
  - exists v. split; [exact Hv|].
    destruct Hsrc as [[e ->] | [n [Hn Hop]]]; [now left|].
    right. exists n. split; [lia | exact Hop].
  - intros k v' Hk Hfail Hok.
    destruct (retrying_first_success (fun _ => default_return) op 4 1 k v')
      as [H1 H2]; [lia | exact Hfail | exact Hok |].
    split; [exact H1 | transitivity (S (k - 1)); [exact H2 | lia]].
Qed.

(** A position query that times out twice and then answers. *)
Lemma query_retry_never_raises_witness :
  let answers := fun n : nat =>
    if Nat.leb n 2 then Raise (mkExn "Timeout" "timed out")
    else Return [ {| Backpack.symbol := "ETH_USDC_PERP";
                     Backpack.netQuantity := Parsed 0.05 |} ] in
  outcome_of (Backpack.get_position "ETH_USDC_PERP" answers) = Return 0.05
  /\ invocations (Backpack.get_position "ETH_USDC_PERP" answers) = 3%nat.
Proof.
  intros answers.
  apply (proj2 (proj2 (proj2 (proj2
           (query_retry_never_raises Decimal 0
              (fun n => Backpack.get_position_body "ETH_USDC_PERP" (answers n))))))
           3%nat 0.05).
  - lia.
  - intros j Hj. exists (mkExn "Timeout" "timed out").
    destruct j as [|[|[|j]]]; try lia; reflexivity.
  - reflexivity.
Defined.

(** X21.  Fed by the two [get_position] methods, [refresh_positions] never
    keeps a cached position: as the decorated methods do not raise, both
    caches are always overwritten, with the value fetched or with the default
    [0]; in particular a venue whose position query fails at every attempt
    has its cached position reset to zero, whatever it was. *)
Theorem refresh_overwrites_with_default :
  forall (self : PositionTracker.t) (contract_id ticker : string)
         (get_open_positions : nat -> outcome (list Backpack.open_position))
         (account : nat -> outcome (list (list Lighter.account_position))),
    let bp_pos := outcome_of (Backpack.get_position contract_id get_open_positions) in
    let lt_pos := outcome_of (Lighter.get_position ticker account) in
    let self' := fst (PositionTracker.refresh_positions self bp_pos lt_pos) in
    (bp_pos = Return (PositionTracker.backpack_position self')
     /\ lt_pos = Return (PositionTracker.lighter_position self'))
    /\ (always_fails any_Exception
          (fun n => Backpack.get_position_body contract_id (get_open_positions n)) ->
        PositionTracker.backpack_position self' = 0)
    /\ (always_fails any_Exception
          (fun n => Lighter.get_position_body ticker (account n)) ->
        PositionTracker.lighter_position self' = 0).
Proof.
  intros self contract_id ticker get_open_positions account bp_pos lt_pos self'.
  destruct (retrying_always_returns (fun _ => 0)
              (fun n => Backpack.get_position_body contract_id
                          (get_open_positions n)) 4 1) as [[vb [Hb _]] _].
  destruct (retrying_always_returns (fun _ => 0)
              (fun n => Lighter.get_position_body ticker (account n)) 4 1)
    as [[vl [Hl _]] _].
  assert (Eb : bp_pos = Return vb) by exact Hb.
  assert (El : lt_pos = Return vl) by exact Hl.
  assert (Es : self' = {| PositionTracker.backpack_position := vb;
                          PositionTracker.lighter_position := vl |})
    by (subst self'; rewrite Eb, El; reflexivity).
  rewrite Es. cbn. split; [split; assumption|].
  split; intros Hfail.
  - pose proof (query_retry_exhausts 0 any_Exception default_max_attempts
                  default_min_wait default_max_wait false _ Hfail) as [_ H].
    fold (query_retry_default 0
            (fun n => Backpack.get_position_body contract_id
                        (get_open_positions n))) in H.
    change (bp_pos = Return 0) in H. rewrite Eb in H. now injection H.
  - pose proof (query_retry_exhausts 0 any_Exception default_max_attempts
                  default_min_wait default_max_wait false _ Hfail) as [_ H].
    change (lt_pos = Return 0) in H. rewrite El in H. now injection H.
Qed.

(** A tracker holding 0.05 and -0.05 while the Backpack API is down. *)
Lemma refresh_overwrites_with_default_witness :
  let self := {| PositionTracker.backpack_position := 0.05;
                 PositionTracker.lighter_position := -0.05 |} in
  let down := fun _ : nat => Raise (mkExn "Timeout" "timed out") in
  PositionTracker.backpack_position
    (fst (PositionTracker.refresh_positions self
            (outcome_of (Backpack.get_position "ETH_USDC_PERP" down))
            (outcome_of (Lighter.get_position "ETH" (fun _ => Return [])))))
  = 0.
Proof.
  intros self down.
  apply (proj1 (proj2 (refresh_overwrites_with_default self "ETH_USDC_PERP" "ETH"
                         down (fun _ => Return [])))).
  intros n. eexists. split; reflexivity.
Defined.
